(** * Content-production pipeline of the Streamlit dashboard (app.py, gen.py)

    A shallow embedding of the two Streamlit scripts.  Python text is a
    sequence of code points below 256 (Rocq's [string]); the HTTP back ends
    are an environment whose answers are inputs of the model; [st.session_state],
    the messages shown with [st.error]/[st.warning], the wall clock and the
    sequence of outgoing requests are threaded through a state-and-exception
    monad. *)

From Stdlib Require Import String Ascii List ZArith NArith Lia Bool.
From Stdlib Require Import DecimalString.
From Equations Require Import Equations.
From stdpp Require Import gmap strings.
Import ListNotations.

Open Scope string_scope.

(** ** Python text primitives *)

Module PyStr.

(** [str.isspace] on one code point below 256: TAB..CR, FS..US, SPACE,
    NEL (0x85) and NBSP (0xA0). *)
Definition is_space (c : ascii) : bool :=
  let n := nat_of_ascii c in
  (((9 <=? n) && (n <=? 13)) || ((28 <=? n) && (n <=? 32))
   || (n =? 133) || (n =? 160))%nat.

Definition is_empty (s : string) : bool :=
  match s with EmptyString => true | String _ _ => false end.

(** Truth value of a [str] / [bytes] object: non-empty. *)
Definition truthy (s : string) : bool := negb (is_empty s).

(** [t] is a prefix of [s] ([s.startswith(t)]). *)
Fixpoint starts_with (t s : string) : bool :=
  match t, s with
  | EmptyString, _ => true
  | String _ _, EmptyString => false
  | String a t', String b s' => Ascii.eqb a b && starts_with t' s'
  end.

(** [t in s] for strings. *)
Fixpoint contains (t s : string) : bool :=
  starts_with t s ||
  match s with
  | EmptyString => false
  | String _ s' => contains t s'
  end.

(** [str.lower] on code points below 256: A-Z and the Latin-1 capitals
    0xC0-0xDE (but not the multiplication sign 0xD7) move up by 32. *)
Definition lower_char (c : ascii) : ascii :=
  let n := nat_of_ascii c in
  if (((65 <=? n) && (n <=? 90))
      || ((192 <=? n) && (n <=? 222) && negb (n =? 215)))%nat
  then ascii_of_nat (n + 32) else c.

Fixpoint lower (s : string) : string :=
  match s with
  | EmptyString => EmptyString
  | String c s' => String (lower_char c) (lower s')
  end.

(** [s.split(sep)] for a non-empty [sep]: the pieces between the
    non-overlapping occurrences of [sep], scanning from the left.  The
    worker returns the piece under construction and the later pieces;
    [skip] counts the characters of a matched separator still to drop. *)
Fixpoint split_go (sep s : string) (skip : nat) : string * list string :=
  match s with
  | EmptyString => (EmptyString, [])
  | String c s' =>
      match skip with
      | S k => split_go sep s' k
      | O =>
          if starts_with sep s
          then (EmptyString,
                let '(p, ps) := split_go sep s' (String.length sep - 1) in p :: ps)
          else let '(p, ps) := split_go sep s' 0 in (String c p, ps)
      end
  end.

Definition split (s sep : string) : list string :=
  let '(p, ps) := split_go sep s 0 in p :: ps.

(** [s.split()] : maximal runs of non-whitespace characters. *)
Fixpoint words_go (s : string) : string * list string :=
  match s with
  | EmptyString => (EmptyString, [])
  | String c s' =>
      let '(p, ps) := words_go s' in
      if is_space c
      then (EmptyString, if is_empty p then ps else p :: ps)
      else (String c p, ps)
  end.

Definition split_ws (s : string) : list string :=
  let '(p, ps) := words_go s in if is_empty p then ps else p :: ps.

Fixpoint lstrip (s : string) : string :=
  match s with
  | EmptyString => EmptyString
  | String c s' => if is_space c then lstrip s' else s
  end.

Fixpoint rstrip (s : string) : string :=
  match s with
  | EmptyString => EmptyString
  | String c s' =>
      let r := rstrip s' in
      if is_space c && is_empty r then EmptyString else String c r
  end.

Definition strip (s : string) : string := rstrip (lstrip s).

(** [s[:n]] *)
Fixpoint take (n : nat) (s : string) : string :=
  match n, s with
  | S k, String c s' => String c (take k s')
  | _, _ => EmptyString
  end.

(** [sep.join(l)] *)
Fixpoint join (sep : string) (l : list string) : string :=
  match l with
  | [] => EmptyString
  | [x] => x
  | x :: xs => x ++ sep ++ join sep xs
  end.

Definition digit_val (c : ascii) : option Z :=
  let n := nat_of_ascii c in
  if ((48 <=? n) && (n <=? 57))%nat then Some (Z.of_nat n - 48)%Z else None.

(** Digits of an [int] literal: single underscores are allowed between
    digits only; [seen] records that the previous character was a digit. *)
Fixpoint int_digits (s : string) (acc : Z) (seen : bool) : option Z :=
  match s with
  | EmptyString => if seen then Some acc else None
  | String c s' =>
      if Ascii.eqb c "_"%char
      then (if seen then int_digits s' acc false else None)
      else match digit_val c with
           | Some d => int_digits s' (10 * acc + d)%Z true
           | None => None
           end
  end.

(** The number of digit characters of [s]. *)
Fixpoint count_digits (s : string) : nat :=
  match s with
  | EmptyString => 0
  | String c s' =>
      match digit_val c with
      | Some _ => S (count_digits s')
      | None => count_digits s'
      end
  end.

(** CPython's default bound on the digits of a decimal literal. *)
Definition max_str_digits : nat := 4300.

(** [int(s)]: [None] stands for [ValueError]. *)
Definition to_int (s : string) : option Z :=
  let t := strip s in
  if (max_str_digits <? count_digits t)%nat then None
  else match t with
       | String "+"%char r => int_digits r 0%Z false
       | String "-"%char r => option_map Z.opp (int_digits r 0%Z false)
       | _ => int_digits t 0%Z false
       end.

(** [str(n)] for a non-negative integer. *)
Definition of_nat (n : nat) : string := NilZero.string_of_uint (Nat.to_uint n).

Definition of_Z (z : Z) : string := NilZero.string_of_int (Z.to_int z).

End PyStr.

(** ** Data model *)

(** Raw bytes (image and video payloads) are byte strings. *)
Definition bytes := string.

(** The configuration dictionary [config]; [platform_settings] is the same
    constant on both ways of loading it. *)
Record Config := {
  newsapi_key : string;
  veniceai_key : string;
  text_model : string;
  image_model : string;
  keywords : string;
  intent : string;
  article_length : Z;
  pinterest_access_token : string;
  bannerbear_key : string;
  bannerbear_template_id : string;
  outputs : list string;
  post_ratio : Z;
  target_audience : string;
  call_to_action : string;
  affiliate_link : string;
  seo_keywords : list string;
  content_format : string;
  tone_and_style : string;
  image_style : string
}.

(** One element of [response.json()['articles']].  The search service sends
    [title] and [description] as a JSON string or as JSON null, which
    [response.json()] turns into [None]; [url] is a string. *)
Record article := {
  a_title : option string;
  a_description : option string;
  a_url : string
}.

(** What a [requests] call yields: a response that passed
    [raise_for_status], or a [requests.exceptions.RequestException]. *)
Inductive http (A : Type) : Type :=
| HttpOk (a : A)
| RequestException (e : string).
Arguments HttpOk {A} a.
Arguments RequestException {A} e.

(** Body and status code of one [GET /v2/renders/{uid}]. *)
Record poll_reply := {
  status_code : Z;
  status : string;
  video_url : string
}.

(** One round of the polling loop as the environment decides it: how long
    the GET takes, what it yields, and by how much [time.sleep(10)]
    oversleeps. *)
Record poll_event := {
  latency : N;
  reply : http poll_reply;
  oversleep : N
}.

(** The answers of the remote services to the requests of one Pinterest
    post (one iteration of the loop of [generate_pinterest_content]). *)
Record UnitEnv := {
  u_copy : http string;
  u_image : http bytes;
  u_upscale : http bytes;
  u_asset : http string;
  u_render : http string;
  u_polls : nat -> poll_event;
  u_video : http bytes;
  u_pin : http string
}.

(** The answers of the remote services during one run of the script. *)
Record Env := {
  e_articles : http (list article);
  e_draft : http string;
  e_factcheck : http string;
  e_revision : http string;
  e_blog_image_prompt : http string;
  e_blog_image : http bytes;
  e_blog_upscale : http bytes;
  e_units : nat -> UnitEnv
}.

(** Outgoing requests, in the order they are sent. *)
Inductive call :=
| GetArticles (url : string)
| PostChat (model system_prompt prompt : string)
| PostImage (model : string) (prompt : option string) (width height : Z)
| PostUpscale (image : bytes) (scale : Z)
| PostAsset (image : bytes)
| PostRender (template : string) (modifications : list (string * string * string))
| GetRender (uid : string)
| GetVideo (url : string)
| PostPin (video : bytes) (board_id title description link : string).

(** What the page shows. *)
Inductive message :=
| StError (text : string)
| StWarning (text : string)
| StSuccess (text : string).

(** [st.session_state.step] *)
Inductive Step := step_start | step_approve_blog | step_generate_images | step_done.

(** A value of [st.session_state.generated_files]. *)
Inductive payload :=
| Text (s : string)
| Bytes (b : bytes)
| NoneValue.

Definition payload_of_text (o : option string) : payload :=
  match o with Some s => Text s | None => NoneValue end.

(** A row of [st.session_state.pin_data_list]: a dict in insertion order. *)
Definition pin_record := list (string * string).

Record SessionState := {
  step : Step;
  blog_post : option string;
  pin_data_list : list pin_record;
  generated_files : gmap string payload
}.

(** The state a script fragment works on.  [session = None] stands for
    ["step" not in st.session_state]; [clock] is what [time.time()] reads,
    in time units, and only the polling loop looks at it. *)
Record World := {
  session : option SessionState;
  messages : list message;
  requests : list call;
  clock : Z
}.

Inductive exn :=
| IndexError
| AttributeError
| TypeError
| UnboundLocalError
| RequestError (e : string)
| RerunException.

Inductive outcome (A : Type) : Type :=
| Returned (a : A)
| Raised (e : exn).
Arguments Returned {A} a.
Arguments Raised {A} e.

(** The widgets read by one run of the script: the configuration the
    sidebar yields ([None]: the upload option without a file), the four
    buttons and the feedback field. *)
Record Ui := {
  ui_config : option Config;
  start_generation : bool;
  approve_blog : bool;
  reject_blog : bool;
  revise_blog : bool;
  feedback : string
}.

(** ** The monad of script fragments *)

Definition M (A : Type) : Type := World -> outcome A * World.

Definition ret {A} (a : A) : M A := fun w => (Returned a, w).

Definition raise {A} (e : exn) : M A := fun w => (Raised e, w).

Definition bind {A B} (m : M A) (f : A -> M B) : M B :=
  fun w => match m w with
           | (Returned a, w') => f a w'
           | (Raised e, w') => (Raised e, w')
           end.

Declare Scope py_scope.
Delimit Scope py_scope with py.
Notation "'do' x <- m ; k" := (bind m (fun x => k))
  (at level 10, x name, m at level 100, k at level 200) : py_scope.
Notation "m ;; k" := (bind m (fun _ => k))
  (at level 100, right associativity) : py_scope.
Open Scope py_scope.

Definition when (b : bool) (m : M unit) : M unit := if b then m else ret tt.

Definition show (msg : message) : M unit :=
  fun w => (Returned tt,
            {| session := session w; messages := messages w ++ [msg];
               requests := requests w; clock := clock w |}).

Definition send (c : call) : M unit :=
  fun w => (Returned tt,
            {| session := session w; messages := messages w;
               requests := requests w ++ [c]; clock := clock w |}).

Definition elapse (d : Z) : M unit :=
  fun w => (Returned tt,
            {| session := session w; messages := messages w;
               requests := requests w; clock := (clock w + d)%Z |}).

Definition now : M Z := fun w => (Returned (clock w), w).

(** Reading an attribute of a session that was never initialised raises. *)
Definition get_session : M SessionState :=
  fun w => match session w with
           | Some s => (Returned s, w)
           | None => (Raised AttributeError, w)
           end.

Definition put_session (s : SessionState) : M unit :=
  fun w => (Returned tt,
            {| session := Some s; messages := messages w;
               requests := requests w; clock := clock w |}).

Definition set_step (x : Step) : M unit :=
  do s <- get_session;
  put_session {| step := x; blog_post := blog_post s;
                 pin_data_list := pin_data_list s; generated_files := generated_files s |}.

Definition set_blog_post (b : option string) : M unit :=
  do s <- get_session;
  put_session {| step := step s; blog_post := b;
                 pin_data_list := pin_data_list s; generated_files := generated_files s |}.

(** [st.session_state.generated_files[name] = v] *)
Definition set_file (name : string) (v : payload) : M unit :=
  do s <- get_session;
  put_session {| step := step s; blog_post := blog_post s;
                 pin_data_list := pin_data_list s;
                 generated_files := <[name := v]> (generated_files s) |}.

(** [st.session_state.pin_data_list.append(r)] *)
Definition append_pin (r : pin_record) : M unit :=
  do s <- get_session;
  put_session {| step := step s; blog_post := blog_post s;
                 pin_data_list := pin_data_list s ++ [r];
                 generated_files := generated_files s |}.

(** [for i in range(n): body(i)], started at [i]. *)
Fixpoint for_range (i n : nat) (body : nat -> M unit) : M unit :=
  match n with
  | O => ret tt
  | S k => body i ;; for_range (S i) k body
  end.

(** [l[1]] *)
Definition second {A} (l : list A) : option A := nth_error l 1.

(** ** Service wrappers shared by app.py and gen.py

    The first argument of each wrapper is the answer the remote service gives
    to the request the wrapper sends. *)

Definition required_keywords : list string :=
  ["mindfulness"; "meditation"; "stress"; "mental"].

(** [keyword.lower() in field.lower()]: [None] has no method [lower], the
    attribute lookup raises [AttributeError] (here the result [None]). *)
Definition keyword_in (keyword : string) (field : option string) : option bool :=
  match field with
  | Some text => Some (PyStr.contains (PyStr.lower keyword) (PyStr.lower text))
  | None => None
  end.

(** [any(keyword.lower() in article['title'].lower()
         or keyword.lower() in article['description'].lower()
         for keyword in keywords)]:
    the keywords are tried in order, for each one the title is read first and
    the description only when the title does not contain the keyword; the
    first hit ends the search.  [None] stands for the [AttributeError]. *)
Fixpoint any_keyword (keywords : list string) (a : article) : option bool :=
  match keywords with
  | [] => Some false
  | keyword :: rest =>
      match keyword_in keyword (a_title a) with
      | None => None
      | Some true => Some true
      | Some false =>
          match keyword_in keyword (a_description a) with
          | None => None
          | Some true => Some true
          | Some false => any_keyword rest a
          end
      end
  end.

(** The condition of the list comprehension in [fetch_articles]. *)
Definition relevant (a : article) : option bool := any_keyword required_keywords a.

(** The list comprehension in [fetch_articles]: the articles are visited in
    order, and the [AttributeError] of a condition ends the comprehension. *)
Fixpoint filter_articles (articles : list article)
  : option (list (option string * option string * string)) :=
  match articles with
  | [] => Some []
  | a :: rest =>
      match relevant a with
      | None => None
      | Some keep =>
          match filter_articles rest with
          | None => None
          | Some kept =>
              Some (if keep then (a_title a, a_description a, a_url a) :: kept else kept)
          end
      end
  end.

Definition no_articles_warning : string := "No relevant articles found.".

(** Only [requests.exceptions.RequestException] is caught: the
    [AttributeError] of the comprehension leaves the function. *)
Definition fetch_articles_with (warning : string) (resp : http (list article)) (config : Config)
  : M (list (option string * option string * string)) :=
  send (GetArticles ("https://newsapi.org/v2/everything?q=" ++ keywords config
                     ++ "&apiKey=" ++ newsapi_key config)) ;;
  match resp with
  | HttpOk articles =>
      match articles with
      | [] => show (StWarning warning) ;; ret []
      | _ :: _ =>
          match filter_articles articles with
          | Some filtered_articles =>
              ret (match filtered_articles with
                   | [] => []
                   | _ :: _ => firstn 5 filtered_articles
                   end)
          | None => raise AttributeError
          end
      end
  | RequestException e =>
      show (StError ("Error fetching articles: " ++ e)) ;; ret []
  end.

Definition generate_content (resp : http string) (prompt model : string) (config : Config)
    (system_prompt : string) : M (option string) :=
  send (PostChat model system_prompt prompt) ;;
  match resp with
  | HttpOk content => ret (Some content)
  | RequestException e => show (StError ("Error generating content: " ++ e)) ;; ret None
  end.

Definition default_system_prompt : string := "You are an expert blog writer.".

(** [config["platform_settings"][platform]] *)
Definition image_width (platform : string) : Z :=
  if String.eqb platform "blog" then 800%Z else 864%Z.
Definition image_height (platform : string) : Z :=
  if String.eqb platform "blog" then 600%Z else 1280%Z.

(** [bool(x)] for [x] a string, a byte string or [None]. *)
Definition truthy_opt (o : option string) : bool :=
  match o with Some s => PyStr.truthy s | None => false end.

(** [str(x)] inside an f-string, for [x] a string or [None]. *)
Definition str_opt (o : option string) : string :=
  match o with Some s => s | None => "None" end.

(** [all(config.get(field) for field in required_fields)] *)
Definition required_fields_present (config : Config) : bool :=
  PyStr.truthy (newsapi_key config) && PyStr.truthy (veniceai_key config)
  && PyStr.truthy (text_model config) && PyStr.truthy (image_model config)
  && PyStr.truthy (keywords config) && PyStr.truthy (intent config)
  && negb (article_length config =? 0)%Z
  && PyStr.truthy (pinterest_access_token config) && PyStr.truthy (bannerbear_key config)
  && PyStr.truthy (bannerbear_template_id config).

(** [x in l] for a list of strings. *)
Definition mem (x : string) (l : list string) : bool := existsb (String.eqb x) l.

Definition fresh_session : SessionState :=
  {| step := step_start; blog_post := None; pin_data_list := []; generated_files := ∅ |}.

(** [if "step" not in st.session_state: ...] *)
Definition init_session : M unit :=
  fun w => match session w with
           | Some _ => (Returned tt, w)
           | None => put_session fresh_session w
           end.

Definition step_eqb (a b : Step) : bool :=
  match a, b with
  | step_start, step_start | step_approve_blog, step_approve_blog
  | step_generate_images, step_generate_images | step_done, step_done => true
  | _, _ => false
  end.

(** Reading the local variable [reference_links], which only the start
    branch binds. *)
Definition read_local {A} (x : option A) : M A :=
  match x with
  | Some v => ret v
  | None => raise UnboundLocalError
  end.

(** ** app.py *)

Module App.

Definition fetch_articles := fetch_articles_with no_articles_warning.

Definition nl : string := String (ascii_of_nat 10) EmptyString.

Definition generate_image (resp : http bytes) (platform : string)
    (image_prompt : option string) (model : string) (config : Config) : M (option bytes) :=
  let width := image_width platform in
  let height := image_height platform in
  send (PostImage model image_prompt width height) ;;
  match resp with
  | HttpOk content => ret (Some content)
  | RequestException e => show (StError ("Error generating image: " ++ e)) ;; ret None
  end.

(** The [try] block of [fact_check_content]; [None] is any exception it
    raises ([IndexError] from a missing marker or token, [ValueError] from
    [int]), all of which the bare [except] catches. *)
Definition parse_fact_check (response : string) : option (bool * Z * string) :=
  match second (PyStr.split response "Confidence:") with
  | None => None
  | Some after_marker =>
      match PyStr.split_ws after_marker with
      | [] => None
      | token :: _ =>
          match PyStr.to_int token with
          | None => None
          | Some confidence =>
              match second (PyStr.split response " - ") with
              | None => None
              | Some explanation => Some ((60 <=? confidence)%Z, confidence, explanation)
              end
          end
      end
  end.

Definition fact_check_content (resp : http string) (content : string) (config : Config)
    (references : list string) : M (bool * Z * string) :=
  let prompt := "Verify the accuracy of the following content..." ++ nl ++ nl ++ content in
  let prompt :=
    match references with
    | [] => prompt
    | _ :: _ => prompt ++ nl ++ nl ++ "References: " ++ PyStr.join ", " references
    end in
  do response <- generate_content resp prompt (text_model config) config
                   "You are an expert fact-checker.";
  match response with
  | Some r =>
      if PyStr.truthy r
      then match parse_fact_check r with
           | Some result => ret result
           | None => ret (false, 50%Z, "Failed to parse fact-check response.")
           end
      else ret (false, 0%Z, "Fact-checking failed.")
  | None => ret (false, 0%Z, "Fact-checking failed.")
  end.

Definition upscale_image (resp : http bytes) (image_bytes : bytes) (scale_factor : Z)
    (config : Config) : M (option bytes) :=
  send (PostUpscale image_bytes scale_factor) ;;
  match resp with
  | HttpOk content => ret (Some content)
  | RequestException e => show (StError ("Error upscaling image: " ++ e)) ;; ret None
  end.

Definition upload_image_to_bannerbear (resp : http string) (image_bytes : bytes)
    (config : Config) : M (option string) :=
  send (PostAsset image_bytes) ;;
  match resp with
  | HttpOk uid => ret (Some uid)
  | RequestException e => show (StError ("Error uploading to Bannerbear: " ++ e)) ;; ret None
  end.

Definition create_video_rendering (resp : http string) (template_id : string)
    (modifications : list (string * string * string)) (config : Config) : M (option string) :=
  send (PostRender template_id modifications) ;;
  match resp with
  | HttpOk uid => ret (Some uid)
  | RequestException e => show (StError ("Error creating video render: " ++ e)) ;; ret None
  end.

(** The [while] loop of [wait_for_video], entered for the [k]-th time.  The
    GET is not inside a [try]: a [RequestException] leaves the function. *)
Equations? wait_loop (polls : nat -> poll_event) (uid : string) (start_time : Z)
    (k : nat) (w : World) : outcome (option string) * World
    by wf (Z.to_nat (600 - (clock w - start_time))) lt :=
  wait_loop polls uid start_time k w with Z_lt_dec (clock w - start_time) 600 => {
    | right _ => (show (StError "Video rendering timed out.") ;; ret None) w
    | left _ =>
        let w1 := snd ((send (GetRender uid) ;; elapse (Z.of_N (latency (polls k)))) w) in
        let w2 := snd (elapse (10 + Z.of_N (oversleep (polls k))) w1) in
        match reply (polls k) with
        | RequestException e => (Raised (RequestError e), w1)
        | HttpOk r =>
            if (status_code r =? 200)%Z
            then if String.eqb (status r) "completed"
                 then (Returned (Some (video_url r)), w1)
                 else if String.eqb (status r) "failed"
                      then (show (StError "Video rendering failed.") ;; ret None) w1
                      else wait_loop polls uid start_time (S k) w2
            else wait_loop polls uid start_time (S k) w2
        end
  }.
Proof.
  all: cbn; lia.
Qed.

Definition wait_for_video (polls : nat -> poll_event) (uid : string) (config : Config)
  : M (option string) :=
  do start_time <- now;
  wait_loop polls uid start_time 0.

Definition download_video (resp : http bytes) (video_url : string) : M (option bytes) :=
  send (GetVideo video_url) ;;
  match resp with
  | HttpOk content => ret (Some content)
  | RequestException e => show (StError ("Error downloading video: " ++ e)) ;; ret None
  end.

(** [resp] carries the [id] of the created pin. *)
Definition upload_video_to_pinterest (resp : http string) (video_bytes : bytes)
    (title description board_id : string) (config : Config) : M (option string) :=
  send (PostPin video_bytes board_id title description (affiliate_link config)) ;;
  match resp with
  | HttpOk pin_id => ret (Some ("https://www.pinterest.com/pin/" ++ pin_id ++ "/"))
  | RequestException e => show (StError ("Error uploading to Pinterest: " ++ e)) ;; ret None
  end.

(** [', '.join(reference_links) if reference_links else 'Use general knowledge.'] *)
Definition references_clause (reference_links : list string) : string :=
  match reference_links with
  | [] => "Use general knowledge."
  | _ :: _ => PyStr.join ", " reference_links
  end.

Definition generate_blog_post (resp : http string) (config : Config)
    (reference_links : list string) : M (option string) :=
  let prompt :=
    "Write a " ++ PyStr.of_Z (article_length config) ++ " word " ++ intent config
    ++ " blog post about " ++ keywords config ++ " "
    ++ "for " ++ target_audience config ++ " in a " ++ tone_and_style config
    ++ " tone using a " ++ content_format config ++ " format. "
    ++ "Incorporate SEO keywords: " ++ PyStr.join ", " (seo_keywords config) ++ ". "
    ++ "References: " ++ references_clause reference_links ++ " "
    ++ "Include call to action: '" ++ call_to_action config ++ "' with link <a href='"
    ++ affiliate_link config ++ "'>Obtain Mindfulness Bundle</a>." in
  generate_content resp prompt (text_model config) config default_system_prompt.

Definition revise_blog_post (resp : http string) (blog_post : option string)
    (feedback : string) (config : Config) (reference_links : list string)
  : M (option string) :=
  let prompt :=
    "Revise this blog post based on feedback: " ++ feedback ++ nl ++ nl
    ++ "Original: " ++ str_opt blog_post ++ nl ++ nl
    ++ "Maintain " ++ PyStr.of_Z (article_length config) ++ " words, " ++ intent config
    ++ " intent, " ++ tone_and_style config ++ " tone, "
    ++ "and " ++ content_format config ++ " format for " ++ target_audience config ++ ". "
    ++ "References: " ++ references_clause reference_links in
  generate_content resp prompt (text_model config) config default_system_prompt.

(** [if x: ...] without [else], for [x] a string, a byte string or [None]. *)
Definition if_truthy (x : option string) (k : string -> M unit) : M unit :=
  match x with
  | Some v => if PyStr.truthy v then k v else ret tt
  | None => ret tt
  end.

(** [x.split(label)[1]]: [IndexError] when [label] does not occur. *)
Definition after_label (x label : string) : M string :=
  match second (PyStr.split x label) with
  | Some rest => ret rest
  | None => raise IndexError
  end.

(** [x.split("\n")[0]] *)
Definition first_line (x : string) : string :=
  match PyStr.split x nl with
  | line :: _ => line
  | [] => EmptyString
  end.

(** The dict appended to [pin_data_list]. *)
Definition pin_row (title pin_url description : string) (config : Config) : pin_record :=
  [("Title", title);
   ("Media URL", pin_url);
   ("Pinterest board", "Mindfulness Tips");
   ("Thumbnail", "");
   ("Description", description);
   ("Link", affiliate_link config);
   ("Publish date", "");
   ("Keywords", PyStr.join ", " (seo_keywords config))].

Definition video_filename (i : nat) : string :=
  "pinterest_video_" ++ PyStr.of_nat (i + 1) ++ ".mp4".

(** The body of the loop of [generate_pinterest_content] for index [i]. *)
Definition pinterest_unit (u : UnitEnv) (config : Config) (i : nat) : M unit :=
  do s <- get_session;
  do draft <- match blog_post s with
              | Some b => ret b
              | None => raise TypeError
              end;
  let pinterest_prompt :=
    "Create a Pinterest post for '" ++ keywords config ++ "', aspect "
    ++ PyStr.of_nat (i + 1) ++ ". "
    ++ "Include title, description, and 5-10 hashtags." ++ nl
    ++ "Blog post: " ++ PyStr.take 200 draft in
  do pinterest_post <- generate_content (u_copy u) pinterest_prompt (text_model config)
                         config "You are a social media manager.";
  do post <- match pinterest_post with
             | Some p => ret p
             | None => raise AttributeError
             end;
  do after_title <- after_label post "Title:";
  let title := PyStr.strip (first_line after_title) in
  do after_description <- after_label post "Description:";
  let description := PyStr.strip (first_line after_description) in
  do after_hashtags <- after_label post "Hashtags:";
  let hashtags := PyStr.split_ws after_hashtags in
  let image_prompt :=
    "Create a vivid image for '" ++ title ++ "' about " ++ keywords config ++ "..." in
  do image_bytes <- generate_image (u_image u) "pinterest" (Some image_prompt)
                      (image_model config) config;
  if_truthy image_bytes (fun image_bytes =>
  do upscaled_image <- upscale_image (u_upscale u) image_bytes 2 config;
  if_truthy upscaled_image (fun upscaled_image =>
  do image_uid <- upload_image_to_bannerbear (u_asset u) upscaled_image config;
  if_truthy image_uid (fun image_uid =>
  let modifications :=
    [("image_layer", "image_uid", image_uid);
     ("title_text", "text", title);
     ("description_text", "text", PyStr.take 100 description)] in
  do render_uid <- create_video_rendering (u_render u) (bannerbear_template_id config)
                     modifications config;
  if_truthy render_uid (fun render_uid =>
  do video_url <- wait_for_video (u_polls u) render_uid config;
  if_truthy video_url (fun video_url =>
  do video_bytes <- download_video (u_video u) video_url;
  if_truthy video_bytes (fun video_bytes =>
  do pin_url <- upload_video_to_pinterest (u_pin u) video_bytes title
                  (description ++ " " ++ PyStr.join " " hashtags) "your_board_id" config;
  if_truthy pin_url (fun pin_url =>
  append_pin (pin_row title pin_url description config) ;;
  set_file (video_filename i) (Bytes video_bytes)))))))).

Definition generate_pinterest_content (units : nat -> UnitEnv) (config : Config) : M unit :=
  for_range 0 (Z.to_nat (post_ratio config)) (fun i => pinterest_unit (units i) config i).

(** The block under [if st.button("Start Generation")]; its value is the
    binding of [reference_links]. *)
Definition start_block (env : Env) (config : Config) : M (list string) :=
  do article_data <- fetch_articles (e_articles env) config;
  let reference_links := map (fun a => snd a) article_data in
  (if mem "blog" (outputs config) || mem "pinterest" (outputs config)
   then
     do blog_post <- generate_blog_post (e_draft env) config reference_links;
     if_truthy blog_post (fun blog_post =>
       do verdict <- fact_check_content (e_factcheck env) blog_post config reference_links;
       let '(passed, score, explanation) := verdict in
       if passed
       then set_blog_post (Some blog_post) ;;
            set_file "blog_post.txt" (Text blog_post) ;;
            set_step step_approve_blog
       else show (StWarning ("Fact-check failed: " ++ PyStr.of_Z score ++ "% - "
                             ++ explanation)))
   else ret tt) ;;
  ret reference_links.

(** The block under [if st.session_state.step == "approve_blog" and ...]. *)
Definition approval_block (ui : Ui) (env : Env) (config : Config)
    (reference_links : option (list string)) : M unit :=
  when (approve_blog ui) (set_step step_generate_images) ;;
  when (reject_blog ui) (set_step step_start ;; set_blog_post None) ;;
  when (revise_blog ui && PyStr.truthy (feedback ui))
    (do s <- get_session;
     do links <- read_local reference_links;
     do revised <- revise_blog_post (e_revision env) (blog_post s) (feedback ui) config links;
     set_blog_post revised ;;
     do s <- get_session;
     set_file "blog_post.txt" (payload_of_text (blog_post s)) ;;
     raise RerunException).

(** The block under [if st.session_state.step == "generate_images"]. *)
Definition media_block (env : Env) (config : Config) : M unit :=
  when (mem "blog" (outputs config))
    (do blog_image_prompt <-
       generate_content (e_blog_image_prompt env)
         ("Create a vivid image description for a blog post about " ++ keywords config ++ "...")
         (text_model config) config "You are a creative visual designer.";
     do blog_image <- generate_image (e_blog_image env) "blog" blog_image_prompt
                        (image_model config) config;
     if_truthy blog_image (fun blog_image =>
     do upscaled_image <- upscale_image (e_blog_upscale env) blog_image 2 config;
     if_truthy upscaled_image (fun upscaled_image =>
     set_file "blog_image_upscaled.png" (Bytes upscaled_image)))) ;;
  do s <- get_session;
  when (mem "pinterest" (outputs config) && truthy_opt (blog_post s))
    (generate_pinterest_content (e_units env) config) ;;
  set_step step_done.

(** One run of the script.  The widgets that only display or offer
    downloads are left out; of the last block only [st.success] is kept. *)
Definition main (ui : Ui) (env : Env) : M unit :=
  match ui_config ui with
  | None => show (StWarning "Please upload a config.json file.")
  | Some config =>
      if negb (required_fields_present config)
      then show (StError "Missing required fields in config.")
      else
        init_session ;;
        do reference_links <-
          (if start_generation ui
           then do links <- start_block env config; ret (Some links)
           else ret None);
        do s <- get_session;
        when (step_eqb (step s) step_approve_blog && truthy_opt (blog_post s))
          (approval_block ui env config reference_links) ;;
        do s <- get_session;
        when (step_eqb (step s) step_generate_images) (media_block env config) ;;
        do s <- get_session;
        when (step_eqb (step s) step_done) (show (StSuccess "Content generation complete!"))
  end.

End App.

(** ** gen.py *)

Module Gen.

Definition fetch_articles :=
  fetch_articles_with "No relevant articles found. Generating content without references.".

Definition generate_blog_post (resp : http string) (config : Config)
    (reference_links : list string) : M (option string) :=
  let prompt :=
    "Write a " ++ PyStr.of_Z (article_length config) ++ " word " ++ intent config
    ++ " blog post about " ++ keywords config ++ "..." in
  generate_content resp prompt (text_model config) config default_system_prompt.

Definition revise_blog_post (resp : http string) (blog_post : option string)
    (feedback : string) (config : Config) (reference_links : list string)
  : M (option string) :=
  let prompt :=
    "Revise the following blog post based on this feedback: " ++ feedback ++ App.nl ++ App.nl
    ++ "Original content: " ++ str_opt blog_post ++ "..." in
  generate_content resp prompt (text_model config) config default_system_prompt.

Definition generate_pinterest_content (config : Config) : M unit :=
  for_range 0 (Z.to_nat (post_ratio config))
    (fun i => append_pin [("Title", "Pin " ++ PyStr.of_nat (i + 1));
                          ("Media URL", "example.com")]).

Definition start_block (env : Env) (config : Config) : M (list string) :=
  do article_data <- fetch_articles (e_articles env) config;
  let reference_links := map (fun a => snd a) article_data in
  (if mem "blog" (outputs config) || mem "pinterest" (outputs config)
   then
     do blog_post <- generate_blog_post (e_draft env) config reference_links;
     App.if_truthy blog_post (fun blog_post =>
       set_blog_post (Some blog_post) ;;
       set_step step_approve_blog ;;
       set_file "blog_post.txt" (Text blog_post))
   else ret tt) ;;
  do s <- get_session;
  when (mem "pinterest" (outputs config) && truthy_opt (blog_post s))
    (generate_pinterest_content config) ;;
  ret reference_links.

Definition approval_block (ui : Ui) (env : Env) (config : Config)
    (reference_links : option (list string)) : M unit :=
  when (approve_blog ui) (set_step step_generate_images) ;;
  when (reject_blog ui) (set_step step_start ;; set_blog_post None) ;;
  when (revise_blog ui && PyStr.truthy (feedback ui))
    (do s <- get_session;
     do links <- read_local reference_links;
     do revised <- revise_blog_post (e_revision env) (blog_post s) (feedback ui) config links;
     set_blog_post revised ;;
     do s <- get_session;
     set_file "blog_post.txt" (payload_of_text (blog_post s)) ;;
     raise RerunException).

(** One run of the script, without the download widgets. *)
Definition main (ui : Ui) (env : Env) : M unit :=
  match ui_config ui with
  | None => show (StWarning "Please upload a config.json file.")
  | Some config =>
      if negb (required_fields_present config)
      then show (StError "Missing required fields in config.")
      else
        init_session ;;
        do reference_links <-
          (if start_generation ui
           then do links <- start_block env config; ret (Some links)
           else ret None);
        do s <- get_session;
        when (step_eqb (step s) step_approve_blog && truthy_opt (blog_post s))
          (approval_block ui env config reference_links)
  end.

End Gen.

(** ** Notions of the specification *)

(** [kw] occurs in [s] as a case-insensitive substring: some substring of
    [s] equals [kw] once both are lower-cased. *)
Definition occurs_ci (kw s : string) : Prop :=
  exists pre mid post, s = pre ++ mid ++ post /\ PyStr.lower mid = PyStr.lower kw.

(** [kw] occurs in a field of an article, which then is a string. *)
Definition occurs_in (kw : string) (field : option string) : Prop :=
  exists text, field = Some text /\ occurs_ci kw text.

(** An article passes the relevance filter: a term of the vocabulary occurs
    in its title or in its description. *)
Definition passes_filter (title description : option string) : Prop :=
  exists kw, In kw required_keywords /\ (occurs_in kw title \/ occurs_in kw description).

(** An article whose title and description are strings. *)
Definition textual (a : article) : Prop :=
  exists title description, a_title a = Some title /\ a_description a = Some description.

(** An answer of the search that [fetch_articles] can read: when there is a
    result set, the titles and descriptions in it are strings. *)
Definition readable (resp : http (list article)) : Prop :=
  forall articles, resp = HttpOk articles -> Forall textual articles.

(** The relevance filter as a test on an article: a term of the vocabulary
    occurs in a title or a description that is there. *)
Definition passes (a : article) : bool :=
  existsb (fun keyword =>
             match a_title a with
             | Some title => PyStr.contains (PyStr.lower keyword) (PyStr.lower title)
             | None => false
             end
             || match a_description a with
                | Some description =>
                    PyStr.contains (PyStr.lower keyword) (PyStr.lower description)
                | None => false
                end)
          required_keywords.

(** The tuple kept for an article, and the URL of the search request. *)
Definition as_tuple (a : article) : option string * option string * string :=
  (a_title a, a_description a, a_url a).

Definition fetch_url (config : Config) : string :=
  "https://newsapi.org/v2/everything?q=" ++ keywords config ++ "&apiKey=" ++ newsapi_key config.

(** A world before the first run of the script. *)
Definition world0 : World :=
  {| session := None; messages := []; requests := []; clock := 0 |}.

Definition demo_config : Config :=
  {| newsapi_key := "news-key"; veniceai_key := "venice-key";
     text_model := "llama-3.3-70b"; image_model := "flux-dev";
     keywords := "mindfulness bundle, stress relief"; intent := "informative";
     article_length := 500; pinterest_access_token := "pin-token";
     bannerbear_key := "bb-key"; bannerbear_template_id := "tpl";
     outputs := ["pinterest"]; post_ratio := 3;
     target_audience := "busy professionals";
     call_to_action := "Get the Mindfulness Bundle Now!";
     affiliate_link := "https://payhip.com/b/tnVQN";
     seo_keywords := ["mindfulness bundle"; "stress relief"];
     content_format := "listicle"; tone_and_style := "uplifting and conversational";
     image_style := "realistic" |}.

(** The confidence of a fact-check answer: the integer that the first
    whitespace-delimited token after the first "Confidence:" marker denotes. *)
Definition parsed_confidence (response : string) : option Z :=
  match second (PyStr.split response "Confidence:") with
  | Some after_marker =>
      match PyStr.split_ws after_marker with
      | token :: _ => PyStr.to_int token
      | [] => None
      end
  | None => None
  end.

(** The explanation of a fact-check answer: the text after the first " - ",
    up to the next one. *)
Definition parsed_explanation (response : string) : option string :=
  second (PyStr.split response " - ").

Definition unparseable_verdict : bool * Z * string :=
  (false, 50%Z, "Failed to parse fact-check response.").

Definition failed_call_verdict : bool * Z * string :=
  (false, 0%Z, "Fact-checking failed.").

(** ** Rounds of the polling loop *)

(** What one round of the loop of [wait_for_video] amounts to. *)
Inductive round_kind :=
| RoundCompleted (url : string)
| RoundFailed
| RoundPending
| RoundRaised (e : string).

Definition round_result (p : poll_event) : round_kind :=
  match reply p with
  | HttpOk r =>
      if (status_code r =? 200)%Z
      then if String.eqb (status r) "completed" then RoundCompleted (video_url r)
           else if String.eqb (status r) "failed" then RoundFailed
                else RoundPending
      else RoundPending
  | RequestException e => RoundRaised e
  end.

(** The world after the GET of a round, and after its sleep. *)
Definition after_poll (uid : string) (p : poll_event) (w : World) : World :=
  {| session := session w; messages := messages w;
     requests := requests w ++ [GetRender uid];
     clock := (clock w + Z.of_N (latency p))%Z |}.

Definition after_sleep (p : poll_event) (w : World) : World :=
  {| session := session w; messages := messages w; requests := requests w;
     clock := (clock w + (10 + Z.of_N (oversleep p)))%Z |}.

Definition with_error (text : string) (w : World) : World :=
  {| session := session w; messages := messages w ++ [StError text];
     requests := requests w; clock := clock w |}.

(** The time at which round [n] starts, counted from the start of round 0. *)
Fixpoint round_start (polls : nat -> poll_event) (n : nat) : Z :=
  match n with
  | O => 0
  | S k => round_start polls k
           + Z.of_N (latency (polls k)) + 10 + Z.of_N (oversleep (polls k))
  end.

(** The job is seen completed in round [n], which starts before the timeout. *)
Definition completes_at (polls : nat -> poll_event) (n : nat) (url : string) : Prop :=
  (forall k, k < n -> round_result (polls k) = RoundPending)
  /\ round_result (polls n) = RoundCompleted url
  /\ (round_start polls n < 600)%Z.

(** A render job that stays in state "rendering"; each GET takes [d]. *)
Definition rendering_forever (d : N) : nat -> poll_event :=
  fun _ => {| latency := d;
              reply := HttpOk {| status_code := 200; status := "rendering";
                                 video_url := "" |};
              oversleep := 0 |}.

(** ** Short-form units *)

(** The three labelled fields of the post copy, as the loop extracts them;
    [None] when a label is missing. *)
Definition copy_fields (post : string) : option (string * string * list string) :=
  match second (PyStr.split post "Title:"),
        second (PyStr.split post "Description:"),
        second (PyStr.split post "Hashtags:") with
  | Some after_title, Some after_description, Some after_hashtags =>
      Some (PyStr.strip (App.first_line after_title),
            PyStr.strip (App.first_line after_description),
            PyStr.split_ws after_hashtags)
  | _, _, _ => None
  end.

(** The unit gets as far as asking for a render job: its copy has the three
    labels and image generation, upscaling and upload succeed. *)
Definition reaches_render (u : UnitEnv) (title description : string)
    (hashtags : list string) : Prop :=
  exists post image upscaled asset,
    u_copy u = HttpOk post /\ copy_fields post = Some (title, description, hashtags)
    /\ u_image u = HttpOk image /\ PyStr.truthy image = true
    /\ u_upscale u = HttpOk upscaled /\ PyStr.truthy upscaled = true
    /\ u_asset u = HttpOk asset /\ PyStr.truthy asset = true.

(** The unit gets as far as publishing the video [video]. *)
Definition reaches_publish (u : UnitEnv) (title description : string)
    (hashtags : list string) (video : bytes) : Prop :=
  reaches_render u title description hashtags
  /\ exists job n url,
       u_render u = HttpOk job /\ PyStr.truthy job = true
       /\ completes_at (u_polls u) n url /\ PyStr.truthy url = true
       /\ u_video u = HttpOk video /\ PyStr.truthy video = true.

(** The session after a unit has been published. *)
Definition published (s : SessionState) (config : Config) (i : nat)
    (title description pin_id : string) (video : bytes) : SessionState :=
  {| step := step s; blog_post := blog_post s;
     pin_data_list :=
       pin_data_list s
       ++ [App.pin_row title ("https://www.pinterest.com/pin/" ++ pin_id ++ "/")
             description config];
     generated_files := <[App.video_filename i := Bytes video]> (generated_files s) |}.

(** The manifest record of a published unit in the words of the
    specification: title, publish URL, board, description, affiliate link
    and SEO keywords, under the column names of the bulk-upload sheet (the
    thumbnail and the publish date are left empty). *)
Definition manifest_record (title publish_url description : string) (config : Config)
  : pin_record :=
  [("Title", title);
   ("Media URL", publish_url);
   ("Pinterest board", "Mindfulness Tips");
   ("Thumbnail", "");
   ("Description", description);
   ("Link", affiliate_link config);
   ("Publish date", "");
   ("Keywords", PyStr.join ", " (seo_keywords config))].

(** The requests for the copy of a unit among the requests of [w]. *)
Definition copy_requests (w : World) : list call :=
  List.filter (fun c => match c with
                        | PostChat _ system_prompt _ =>
                            String.eqb system_prompt "You are a social media manager."
                        | _ => false
                        end)
              (requests w).

(** ** Sample inputs *)

Definition completed_at_once (url : string) : nat -> poll_event :=
  fun _ => {| latency := 2;
              reply := HttpOk {| status_code := 200; status := "completed";
                                 video_url := url |};
              oversleep := 0 |}.

Definition demo_copy : string :=
  "Title: Breathe" ++ App.nl ++ "Description: Calm in five minutes" ++ App.nl
  ++ "Hashtags: #calm #mindful".

Definition good_unit (pin_id : http string) : UnitEnv :=
  {| u_copy := HttpOk demo_copy; u_image := HttpOk "png"; u_upscale := HttpOk "PNG";
     u_asset := HttpOk "asset-1"; u_render := HttpOk "render-1";
     u_polls := completed_at_once "https://cdn.example/video.mp4";
     u_video := HttpOk "mp4"; u_pin := pin_id |}.

Definition render_refused_unit : UnitEnv :=
  {| u_copy := HttpOk demo_copy; u_image := HttpOk "png"; u_upscale := HttpOk "PNG";
     u_asset := HttpOk "asset-1"; u_render := RequestException "500 Server Error";
     u_polls := completed_at_once "https://cdn.example/video.mp4";
     u_video := HttpOk "mp4"; u_pin := HttpOk "43" |}.

Definition unlabelled_unit : UnitEnv :=
  {| u_copy := HttpOk "Five ways to calm down #calm"; u_image := HttpOk "png";
     u_upscale := HttpOk "PNG"; u_asset := HttpOk "asset-1"; u_render := HttpOk "render-1";
     u_polls := completed_at_once "https://cdn.example/video.mp4";
     u_video := HttpOk "mp4"; u_pin := HttpOk "41" |}.

(** Every GET of the render job fails at the transport level. *)
Definition connection_lost : nat -> poll_event :=
  fun _ => {| latency := 2; reply := RequestException "Connection aborted.";
              oversleep := 0 |}.

Definition polling_error_unit : UnitEnv :=
  {| u_copy := HttpOk demo_copy; u_image := HttpOk "png"; u_upscale := HttpOk "PNG";
     u_asset := HttpOk "asset-2"; u_render := HttpOk "render-2";
     u_polls := connection_lost;
     u_video := HttpOk "mp4"; u_pin := HttpOk "42" |}.


Definition demo_env (factcheck : http string) (units : nat -> UnitEnv) : Env :=
  {| e_articles := HttpOk [];
     e_draft := HttpOk "Mindfulness lowers stress.";
     e_factcheck := factcheck;
     e_revision := HttpOk "Mindfulness may lower stress.";
     e_blog_image_prompt := HttpOk "a calm lake at dawn";
     e_blog_image := HttpOk "png"; e_blog_upscale := HttpOk "PNG";
     e_units := units |}.

(** Unit 2 of 3 has its render job refused; units 1 and 3 go through. *)
Definition second_render_refused (i : nat) : UnitEnv :=
  match i with
  | 0 => good_unit (HttpOk "41")
  | 1 => render_refused_unit
  | _ => good_unit (HttpOk "43")
  end.

(** The copy of unit 1 of 3 lacks the labels; units 2 and 3 are fine. *)
Definition first_copy_unlabelled (i : nat) : UnitEnv :=
  match i with
  | 0 => unlabelled_unit
  | 1 => good_unit (HttpOk "42")
  | _ => good_unit (HttpOk "43")
  end.

(** A result set of the article search: the first article matches by its
    title, the second by its description, the third matches nothing. *)
Definition sample_results : list article :=
  [{| a_title := Some "Mindfulness at work"; a_description := Some "A short guide.";
      a_url := "https://news.example/1" |};
   {| a_title := Some "Sleep better"; a_description := Some "Less STRESS, more rest.";
      a_url := "https://news.example/2" |};
   {| a_title := Some "Markets rally"; a_description := Some "Stocks rose on Monday.";
      a_url := "https://news.example/3" |}].

(** An article whose title holds a later term of the vocabulary, without
    description. *)
Definition undescribed_match : article :=
  {| a_title := Some "Stress at work"; a_description := None;
     a_url := "https://news.example/4" |}.

(** An article that matches no term and has no description (JSON null). *)
Definition undescribed_article : article :=
  {| a_title := Some "Markets rally"; a_description := None;
     a_url := "https://news.example/3" |}.

(** The polling of unit 2 of 3 loses its connection; units 1 and 3 would
    go through. *)
Definition second_polling_fails (i : nat) : UnitEnv :=
  match i with
  | 0 => good_unit (HttpOk "41")
  | 1 => polling_error_unit
  | _ => good_unit (HttpOk "43")
  end.


Definition ui_of (config : Config) (start approve reject revise : bool) (text : string) : Ui :=
  {| ui_config := Some config; start_generation := start; approve_blog := approve;
     reject_blog := reject; revise_blog := revise; feedback := text |}.

(** A session whose draft awaits approval. *)
Definition awaiting_approval (draft : string) : World :=
  {| session := Some {| step := step_approve_blog; blog_post := Some draft;
                        pin_data_list := [];
                        generated_files := {["blog_post.txt" := Text draft]} |};
     messages := []; requests := []; clock := 0 |}.

(** ** The manifest across a script fragment *)

(** Every file name of the session [a] is still a file name of [b]. *)
Definition keeps_files (a b : option SessionState) : Prop :=
  match a with
  | None => True
  | Some s =>
      exists s', b = Some s'
                 /\ forall name, is_Some (generated_files s !! name) ->
                                 is_Some (generated_files s' !! name)
  end.

(** A script fragment that drops no file name, however it ends. *)
Definition preserves {A} (m : M A) : Prop :=
  forall w, keeps_files (session w) (session (snd (m w))).

(** ** Sample runs *)

(** The verdict of [fact_check_content] as a function of the model's answer. *)
Definition verdict_of (resp : http string) : bool * Z * string :=
  match resp with
  | HttpOk r =>
      if PyStr.truthy r
      then match App.parse_fact_check r with
           | Some verdict => verdict
           | None => unparseable_verdict
           end
      else failed_call_verdict
  | RequestException _ => failed_call_verdict
  end.

(** [st.session_state.generated_files.get(name)] in the world [w]. *)
Definition stored (w : World) (name : string) : option payload :=
  match session w with
  | Some s => generated_files s !! name
  | None => None
  end.

Definition accurate : http string := HttpOk "Confidence: 85 - looks accurate".
Definition doubtful : http string := HttpOk "Confidence: 10 - unsupported claims".

Definition press_start : Ui := ui_of demo_config true false false false "".
Definition press_approve : Ui := ui_of demo_config false true false false "".

(** The search answers with the article without description. *)
Definition undescribed_env : Env :=
  {| e_articles := HttpOk [undescribed_article];
     e_draft := HttpOk "Mindfulness lowers stress.";
     e_factcheck := accurate;
     e_revision := HttpOk "Mindfulness may lower stress.";
     e_blog_image_prompt := HttpOk "a calm lake at dawn";
     e_blog_image := HttpOk "png"; e_blog_upscale := HttpOk "PNG";
     e_units := second_render_refused |}.

(** app.py: the draft is approved and the copy of the first of three units
    comes back without labels. *)
Definition unlabelled_run : outcome unit * World :=
  App.main press_approve (demo_env accurate first_copy_unlabelled)
    (awaiting_approval "Mindfulness lowers stress.").

(** gen.py and app.py started on a draft that the fact-checker doubts. *)
Definition gen_doubtful_run : outcome unit * World :=
  Gen.main press_start (demo_env doubtful second_render_refused) world0.

Definition app_doubtful_run : outcome unit * World :=
  App.main press_start (demo_env doubtful second_render_refused) world0.



(** app.py: the draft is approved and the polling of the second of three
    units loses its connection. *)
Definition polling_error_run : outcome unit * World :=
  App.main press_approve (demo_env accurate second_polling_fails)
    (awaiting_approval "Mindfulness lowers stress.").



Definition draft_prompt : string :=
  "Write a 500 word informative blog post about mindfulness bundle, stress relief...".

(** ** Further notions *)

(** The session once an accepted draft has been stored. *)
Definition with_draft (s : SessionState) (draft : string) : SessionState :=
  {| step := step_approve_blog; blog_post := Some draft;
     pin_data_list := pin_data_list s;
     generated_files := <["blog_post.txt" := Text draft]> (generated_files s) |}.

(** The session once the draft has been replaced by the outcome of a
    revision ([None] when the request failed). *)
Definition with_revision (s : SessionState) (revised : option string) : SessionState :=
  {| step := step s; blog_post := revised;
     pin_data_list := pin_data_list s;
     generated_files := <["blog_post.txt" := payload_of_text revised]> (generated_files s) |}.

(** The session once the draft has been rejected. *)
Definition rejected (s : SessionState) : SessionState :=
  {| step := step_start; blog_post := None;
     pin_data_list := pin_data_list s; generated_files := generated_files s |}.

(** What [generate_content] returns for an answer of the text service. *)
Definition content_of (resp : http string) : option string :=
  match resp with
  | HttpOk content => Some content
  | RequestException _ => None
  end.

(** One of the required fields is empty (a missing key reads as empty). *)
Definition empty_field (config : Config) : Prop :=
  In EmptyString
     [newsapi_key config; veniceai_key config; text_model config; image_model config;
      keywords config; intent config; pinterest_access_token config;
      bannerbear_key config; bannerbear_template_id config]
  \/ article_length config = 0%Z.

(** Sample inputs. *)
Definition sample_draft : string := "Mindfulness lowers stress.".

Definition sample_session : SessionState :=
  {| step := step_approve_blog; blog_post := Some sample_draft; pin_data_list := [];
     generated_files := {["blog_post.txt" := Text sample_draft]} |}.

Definition sample_world : World := awaiting_approval sample_draft.

Definition doubtful_env : Env := demo_env doubtful second_render_refused.
Definition accurate_env : Env := demo_env accurate second_render_refused.

Definition offline_env : Env :=
  {| e_articles := RequestException "timeout";
     e_draft := RequestException "timeout";
     e_factcheck := RequestException "timeout";
     e_revision := RequestException "timeout";
     e_blog_image_prompt := RequestException "timeout";
     e_blog_image := RequestException "timeout";
     e_blog_upscale := RequestException "timeout";
     e_units := second_render_refused |}.

(** The search answers with one article that has nothing to do with the
    vocabulary; the other services answer as in [demo_env]. *)
Definition unrelated_env : Env :=
  {| e_articles :=
       HttpOk [{| a_title := Some "Markets rally";
                  a_description := Some "Stocks rose on Monday.";
                  a_url := "https://news.example/3" |}];
     e_draft := HttpOk "Mindfulness lowers stress.";
     e_factcheck := accurate;
     e_revision := HttpOk "Mindfulness may lower stress.";
     e_blog_image_prompt := HttpOk "a calm lake at dawn";
     e_blog_image := HttpOk "png"; e_blog_upscale := HttpOk "PNG";
     e_units := second_render_refused |}.

Definition keyless_config : Config :=
  {| newsapi_key := ""; veniceai_key := "venice-key";
     text_model := "llama-3.3-70b"; image_model := "flux-dev";
     keywords := "mindfulness bundle, stress relief"; intent := "informative";
     article_length := 500; pinterest_access_token := "pin-token";
     bannerbear_key := "bb-key"; bannerbear_template_id := "tpl";
     outputs := []; post_ratio := 0;
     target_audience := "busy professionals";
     call_to_action := "Get the Mindfulness Bundle Now!";
     affiliate_link := "https://payhip.com/b/tnVQN";
     seo_keywords := ["mindfulness bundle"; "stress relief"];
     content_format := "listicle"; tone_and_style := "uplifting and conversational";
     image_style := "realistic" |}.

Definition press_revise : Ui := ui_of demo_config false false false true "shorter".
Definition press_reject : Ui := ui_of demo_config false false true false "".

(** ** Terminal rounds of the polling loop *)

(** Round [n] is the first one that is not pending, of kind [k], and it
    starts before the timeout. *)
Definition ends_at (polls : nat -> poll_event) (n : nat) (k : round_kind) : Prop :=
  (forall j, j < n -> round_result (polls j) = RoundPending)
  /\ round_result (polls n) = k
  /\ (round_start polls n < 600)%Z.

(** What [wait_for_video] hands back, and what it reports, after a round of
    kind [k] ended the loop. *)
Definition poll_outcome (k : round_kind) : outcome (option string) :=
  match k with
  | RoundCompleted url => Returned (Some url)
  | RoundRaised e => Raised (RequestError e)
  | RoundFailed | RoundPending => Returned None
  end.

Definition poll_report (k : round_kind) : list message :=
  match k with
  | RoundFailed => [StError "Video rendering failed."]
  | _ => []
  end.

(** A render job reported as failed by the second GET. *)
Definition fails_on_second_poll (i : nat) : poll_event :=
  match i with
  | 0 => {| latency := 1;
            reply := HttpOk {| status_code := 200; status := "rendering"; video_url := "" |};
            oversleep := 0 |}
  | _ => {| latency := 1;
            reply := HttpOk {| status_code := 200; status := "failed"; video_url := "" |};
            oversleep := 0 |}
  end.

(** The record that the loop of gen.py appends for index [i]. *)
Definition placeholder_pin (i : nat) : pin_record :=
  [("Title", "Pin " ++ PyStr.of_nat (i + 1)); ("Media URL", "example.com")].

(** A unit for which the text service does not answer. *)
Definition silent_unit : UnitEnv :=
  {| u_copy := RequestException "timeout"; u_image := HttpOk "png";
     u_upscale := HttpOk "PNG"; u_asset := HttpOk "asset-1"; u_render := HttpOk "render-1";
     u_polls := completed_at_once "https://cdn.example/video.mp4";
     u_video := HttpOk "mp4"; u_pin := HttpOk "41" |}.

(** ** Invariants of the session and of the requests across a fragment *)

(** The fragment [m] keeps the invariant [I] of the session, and every
    request it sends satisfies [R], however it ends. *)
Definition keeps (I : option SessionState -> Prop) (R : call -> Prop) {A} (m : M A) : Prop :=
  forall w, I (session w) ->
    I (session (snd (m w)))
    /\ exists sent, requests (snd (m w)) = (requests w ++ sent)%list /\ Forall R sent.

(** A request to the article search or to the text service. *)
Definition text_call (c : call) : Prop :=
  match c with
  | GetArticles _ | PostChat _ _ _ => True
  | _ => False
  end.

Definition any_call (c : call) : Prop := True.

(** The session is not at the step "generate_images". *)
Definition not_generating (o : option SessionState) : Prop :=
  match o with
  | Some s => step s <> step_generate_images
  | None => True
  end.

(** [s.endswith(suffix)] *)
Fixpoint ends_with (s suffix : string) : bool :=
  String.eqb s suffix
  || match s with
     | EmptyString => false
     | String _ s' => ends_with s' suffix
     end.

(** The branch that the last block of app.py takes for a stored file: the
    MIME type of its download button, [None] when no branch applies. *)
Definition download_mime (filename : string) : option string :=
  if ends_with filename ".txt" then Some "text/plain"
  else if ends_with filename ".png" then Some "image/png"
  else if ends_with filename ".mp4" then Some "video/mp4"
  else None.

(** Every stored file is offered for download. *)
Definition downloadable (o : option SessionState) : Prop :=
  match o with
  | Some s => forall name, is_Some (generated_files s !! name) -> is_Some (download_mime name)
  | None => True
  end.

(** The session still starts its list of published records with [pins]. *)
Definition extends_pins (pins : list pin_record) (o : option SessionState) : Prop :=
  exists s more, o = Some s /\ pin_data_list s = (pins ++ more)%list.

(** A file name that app.py writes to [generated_files]. *)
Definition written_name (name : string) : Prop :=
  name = "blog_post.txt" \/ name = "blog_image_upscaled.png"
  \/ exists i, name = App.video_filename i.

(** ** Answers of the fact-checker in the requested format *)

(** [c] is one of the characters 0-9. *)
Definition is_digit (c : ascii) : bool :=
  match PyStr.digit_val c with Some _ => true | None => false end.

Fixpoint all_digits (s : string) : bool :=
  match s with
  | EmptyString => true
  | String c s' => is_digit c && all_digits s'
  end.

(** The number that a string of decimal digits denotes. *)
Fixpoint decimal_from (acc : Z) (s : string) : Z :=
  match s with
  | EmptyString => acc
  | String c s' => decimal_from (10 * acc + (Z.of_nat (nat_of_ascii c) - 48)) s'
  end.

Definition decimal_value (s : string) : Z := decimal_from 0 s.

(** ** The blog image *)

(** The upscaled blog image that the media block gets to store, if any:
    both the image and its upscaled version must come back non-empty. *)
Definition upscaled_blog_image (env : Env) : option bytes :=
  match e_blog_image env with
  | HttpOk image =>
      if PyStr.truthy image
      then match e_blog_upscale env with
           | HttpOk upscaled => if PyStr.truthy upscaled then Some upscaled else None
           | RequestException _ => None
           end
      else None
  | RequestException _ => None
  end.

(** The session at the end of the media block, for a blog-only run. *)
Definition with_blog_image (s : SessionState) (image : option bytes) : SessionState :=
  {| step := step_done; blog_post := blog_post s; pin_data_list := pin_data_list s;
     generated_files :=
       match image with
       | Some upscaled => <["blog_image_upscaled.png" := Bytes upscaled]> (generated_files s)
       | None => generated_files s
       end |}.

Definition blog_only_config : Config :=
  {| newsapi_key := "news-key"; veniceai_key := "venice-key";
     text_model := "llama-3.3-70b"; image_model := "flux-dev";
     keywords := "mindfulness bundle, stress relief"; intent := "informative";
     article_length := 500; pinterest_access_token := "pin-token";
     bannerbear_key := "bb-key"; bannerbear_template_id := "tpl";
     outputs := ["blog"]; post_ratio := 3;
     target_audience := "busy professionals";
     call_to_action := "Get the Mindfulness Bundle Now!";
     affiliate_link := "https://payhip.com/b/tnVQN";
     seo_keywords := ["mindfulness bundle"; "stress relief"];
     content_format := "listicle"; tone_and_style := "uplifting and conversational";
     image_style := "realistic" |}.

(** A run that asks for the blog image and for three Pinterest posts. *)
Definition full_config : Config :=
  {| newsapi_key := "news-key"; veniceai_key := "venice-key";
     text_model := "llama-3.3-70b"; image_model := "flux-dev";
     keywords := "mindfulness bundle, stress relief"; intent := "informative";
     article_length := 500; pinterest_access_token := "pin-token";
     bannerbear_key := "bb-key"; bannerbear_template_id := "tpl";
     outputs := ["blog"; "pinterest"]; post_ratio := 3;
     target_audience := "busy professionals";
     call_to_action := "Get the Mindfulness Bundle Now!";
     affiliate_link := "https://payhip.com/b/tnVQN";
     seo_keywords := ["mindfulness bundle"; "stress relief"];
     content_format := "listicle"; tone_and_style := "uplifting and conversational";
     image_style := "realistic" |}.

(** The text service is down, the image services answer. *)
Definition promptless_env : Env :=
  {| e_articles := HttpOk [];
     e_draft := RequestException "timeout";
     e_factcheck := RequestException "timeout";
     e_revision := RequestException "timeout";
     e_blog_image_prompt := RequestException "timeout";
     e_blog_image := HttpOk "png"; e_blog_upscale := HttpOk "PNG";
     e_units := second_render_refused |}.

(** The article search fails, the text service writes a draft. *)
Definition offline_draft_env : Env :=
  {| e_articles := RequestException "timeout";
     e_draft := HttpOk "A new draft.";
     e_factcheck := RequestException "timeout";
     e_revision := RequestException "timeout";
     e_blog_image_prompt := RequestException "timeout";
     e_blog_image := RequestException "timeout";
     e_blog_upscale := RequestException "timeout";
     e_units := second_render_refused |}.

(** * Properties *)

(** ** Text primitives *)

Section Text.

Example split_marker :
  PyStr.split "Confidence: 85 - looks accurate" "Confidence:" = [""; " 85 - looks accurate"].
Proof. reflexivity. Qed.

Example split_at_end : PyStr.split "aTitle:" "Title:" = ["a"; ""].
Proof. reflexivity. Qed.

Example split_no_overlap : PyStr.split "aaa" "aa" = [""; "a"].
Proof. reflexivity. Qed.

Example split_whitespace :
  PyStr.split_ws " 85 - looks  accurate " = ["85"; "-"; "looks"; "accurate"].
Proof. reflexivity. Qed.

Example to_int_literals :
  PyStr.to_int "85" = Some 85%Z /\ PyStr.to_int "-7" = Some (-7)%Z
  /\ PyStr.to_int "1_0" = Some 10%Z /\ PyStr.to_int "007" = Some 7%Z
  /\ PyStr.to_int "85%" = None /\ PyStr.to_int "" = None
  /\ PyStr.to_int "1__0" = None /\ PyStr.to_int "+" = None.
Proof. repeat split; vm_compute; reflexivity. Qed.

Example lower_mixed : PyStr.lower "Stress-FREE Minds" = "stress-free minds".
Proof. reflexivity. Qed.

Lemma starts_with_spec (t s : string) :
  PyStr.starts_with t s = true <-> exists post, s = t ++ post.
Proof.
  revert s. induction t as [|a t IH]; intros s; simpl.
  - split; [intros _; exists s; reflexivity | reflexivity].
  - destruct s as [|b s]; simpl.
    + split; [discriminate | intros [post H]; discriminate].
    + rewrite andb_true_iff, IH, Ascii.eqb_eq. split.
      * intros [-> [post ->]]. exists post. reflexivity.
      * intros [post H]. injection H as -> ->. split; [reflexivity | eauto].
Qed.

Lemma contains_spec (t s : string) :
  PyStr.contains t s = true <-> exists pre post, s = pre ++ t ++ post.
Proof.
  induction s as [|c s IH].
  - simpl. rewrite orb_false_r, starts_with_spec. split.
    + intros [post H]. exists EmptyString, post. exact H.
    + intros [pre [post H]]. destruct pre; [eauto | discriminate].
  - cbn [PyStr.contains]. rewrite orb_true_iff, IH, starts_with_spec. split.
    + intros [[post H] | [pre [post H]]].
      * exists EmptyString, post. exact H.
      * exists (String c pre), post. simpl. rewrite H. reflexivity.
    + intros [pre [post H]]. destruct pre as [|a pre]; simpl in H.
      * left. eauto.
      * right. injection H as _ H. eauto.
Qed.

Lemma lower_app (a b : string) : PyStr.lower (a ++ b) = PyStr.lower a ++ PyStr.lower b.
Proof. induction a as [|c a IH]; simpl; [reflexivity | rewrite IH; reflexivity]. Qed.

(** [lower] works character by character, so a split of the lower-cased
    text comes from a split of the text. *)
Lemma lower_split (s x y : string) :
  PyStr.lower s = x ++ y ->
  exists a b, s = a ++ b /\ PyStr.lower a = x /\ PyStr.lower b = y.
Proof.
  revert s. induction x as [|c x IH]; intros s H; simpl in H.
  - exists EmptyString, s. auto.
  - destruct s as [|d s]; simpl in H; [discriminate |].
    injection H as Hc H. destruct (IH _ H) as [a [b [-> [Ha Hb]]]].
    exists (String d a), b. simpl. rewrite Ha, Hc. auto.
Qed.

(** The test of the comprehension is the case-insensitive occurrence. *)
Lemma contains_lower_spec (kw s : string) :
  PyStr.contains (PyStr.lower kw) (PyStr.lower s) = true <-> occurs_ci kw s.
Proof.
  rewrite contains_spec. unfold occurs_ci. split.
  - intros [x [z H]].
    destruct (lower_split _ _ _ H) as [pre [rest [-> [_ Hrest]]]].
    destruct (lower_split _ _ _ Hrest) as [mid [post [-> [Hmid _]]]].
    exists pre, mid, post. auto.
  - intros [pre [mid [post [-> Hmid]]]].
    exists (PyStr.lower pre), (PyStr.lower post).
    rewrite !lower_app, Hmid. reflexivity.
Qed.

Lemma occurs_in_spec (kw : string) (field : option string) :
  match field with
  | Some text => PyStr.contains (PyStr.lower kw) (PyStr.lower text)
  | None => false
  end = true <-> occurs_in kw field.
Proof.
  unfold occurs_in. destruct field as [text |].
  - rewrite contains_lower_spec. split.
    + intros H. exists text. auto.
    + intros [text' [Heq H]]. injection Heq as <-. exact H.
  - split; [discriminate | intros [text [Heq _]]; discriminate].
Qed.

Lemma passes_spec (a : article) :
  passes a = true <-> passes_filter (a_title a) (a_description a).
Proof.
  unfold passes, passes_filter. rewrite existsb_exists.
  split; intros [kw [Hin H]]; exists kw; split; try exact Hin.
  - rewrite orb_true_iff, !occurs_in_spec in H. exact H.
  - rewrite orb_true_iff, !occurs_in_spec. exact H.
Qed.

(** When the condition of the comprehension has a value, it is the filter. *)
Lemma any_keyword_value (keywords : list string) (a : article) (b : bool) :
  any_keyword keywords a = Some b ->
  b = existsb (fun keyword =>
                 match a_title a with
                 | Some title => PyStr.contains (PyStr.lower keyword) (PyStr.lower title)
                 | None => false
                 end
                 || match a_description a with
                    | Some description =>
                        PyStr.contains (PyStr.lower keyword) (PyStr.lower description)
                    | None => false
                    end)
              keywords.
Proof.
  induction keywords as [|kw rest IH]; simpl.
  - intros H. injection H as <-. reflexivity.
  - unfold keyword_in. destruct (a_title a) as [title |]; [| discriminate].
    destruct (PyStr.contains (PyStr.lower kw) (PyStr.lower title)).
    + intros H. injection H as <-. reflexivity.
    + destruct (a_description a) as [description |]; [| discriminate].
      destruct (PyStr.contains (PyStr.lower kw) (PyStr.lower description)).
      * intros H. injection H as <-. reflexivity.
      * exact IH.
Qed.

Lemma relevant_value (a : article) (b : bool) : relevant a = Some b -> b = passes a.
Proof. apply any_keyword_value. Qed.

(** The condition has a value on an article whose two fields are strings. *)
Lemma any_keyword_textual (keywords : list string) (a : article) :
  textual a -> exists b, any_keyword keywords a = Some b.
Proof.
  intros (title & description & Ht & Hd).
  induction keywords as [|kw rest IH]; simpl; [eauto |].
  rewrite Ht, Hd. simpl.
  destruct (PyStr.contains (PyStr.lower kw) (PyStr.lower title)); [eauto |].
  destruct (PyStr.contains (PyStr.lower kw) (PyStr.lower description)); [eauto | exact IH].
Qed.

Lemma relevant_textual (a : article) : textual a -> relevant a = Some (passes a).
Proof.
  intros Ha. destruct (any_keyword_textual required_keywords a Ha) as [b Hb].
  unfold relevant. rewrite Hb. f_equal. apply relevant_value. exact Hb.
Qed.

Lemma filter_articles_value (articles : list article)
    (kept : list (option string * option string * string)) :
  filter_articles articles = Some kept ->
  kept = map as_tuple (List.filter passes articles).
Proof.
  revert kept. induction articles as [|a articles IH]; simpl; intros kept H.
  - injection H as <-. reflexivity.
  - destruct (relevant a) as [keep |] eqn:Hrel; [| discriminate].
    destruct (filter_articles articles) as [rest |]; [| discriminate].
    injection H as <-. rewrite <- (relevant_value _ _ Hrel), (IH rest eq_refl).
    destruct keep; reflexivity.
Qed.

Lemma filter_articles_textual (articles : list article) :
  Forall textual articles ->
  filter_articles articles = Some (map as_tuple (List.filter passes articles)).
Proof.
  induction 1 as [|a articles Ha _ IH]; simpl; [reflexivity |].
  rewrite (relevant_textual a Ha), IH. destruct (passes a); reflexivity.
Qed.

End Text.

(** ** Reference discovery: [fetch_articles] *)

Section Fetch.

Lemma In_firstn {A} (n : nat) (l : list A) (x : A) : In x (firstn n l) -> In x l.
Proof.
  revert l. induction n as [|n IH]; intros [|y l] H; simpl in *; try contradiction.
  destruct H as [H | H]; [left; exact H | right; apply IH; exact H].
Qed.

Lemma firstn_guard {A} (n : nat) (l : list A) :
  match l with [] => [] | _ :: _ => firstn n l end = firstn n l.
Proof. destruct l; [destruct n |]; reflexivity. Qed.

(** The search answered and the comprehension went through. *)
Lemma fetch_articles_filtered (warning : string) (articles : list article) (config : Config)
    (w : World) (kept : list (option string * option string * string)) :
  filter_articles articles = Some kept ->
  fetch_articles_with warning (HttpOk articles) config w
  = (Returned (firstn 5 kept),
     {| session := session w;
        messages := messages w ++ match articles with
                                  | [] => [StWarning warning]
                                  | _ :: _ => []
                                  end;
        requests := requests w ++ [GetArticles (fetch_url config)];
        clock := clock w |}).
Proof.
  intros Hkept. destruct articles as [|a articles].
  - simpl in Hkept. injection Hkept as <-. reflexivity.
  - unfold fetch_articles_with, bind, send, show, ret.
    cbn -[filter_articles firstn]. rewrite Hkept.
    cbn -[firstn]. rewrite firstn_guard, app_nil_r. reflexivity.
Qed.

(** A successful search over articles whose fields are strings, run: the
    entries handed back and the world left. *)
Lemma fetch_articles_ok (warning : string) (articles : list article) (config : Config)
    (w : World) :
  Forall textual articles ->
  fetch_articles_with warning (HttpOk articles) config w
  = (Returned (firstn 5 (map as_tuple (List.filter passes articles))),
     {| session := session w;
        messages := messages w ++ match articles with
                                  | [] => [StWarning warning]
                                  | _ :: _ => []
                                  end;
        requests := requests w ++ [GetArticles (fetch_url config)];
        clock := clock w |}).
Proof.
  intros Htext. apply fetch_articles_filtered, filter_articles_textual, Htext.
Qed.

(** The search answered and the comprehension met a null field. *)
Lemma fetch_articles_null (warning : string) (articles : list article) (config : Config)
    (w : World) :
  filter_articles articles = None ->
  fetch_articles_with warning (HttpOk articles) config w
  = (Raised AttributeError,
     {| session := session w; messages := messages w;
        requests := requests w ++ [GetArticles (fetch_url config)];
        clock := clock w |}).
Proof.
  intros Hnone. destruct articles as [|a articles]; [discriminate |].
  unfold fetch_articles_with, bind, send, raise.
  cbn -[filter_articles]. rewrite Hnone. reflexivity.
Qed.

Lemma fetch_articles_ok_messages (warning : string) (articles : list article)
    (config : Config) (w : World) (e : string) :
  In (StError e) (messages (snd (fetch_articles_with warning (HttpOk articles) config w))) ->
  In (StError e) (messages w).
Proof.
  destruct (filter_articles articles) as [kept |] eqn:Hkept.
  - rewrite (fetch_articles_filtered _ _ _ _ _ Hkept). cbn [snd messages].
    rewrite in_app_iff. intros [H | H]; [exact H |].
    destruct articles; [destruct H as [H | []]; discriminate | destruct H].
  - rewrite (fetch_articles_null _ _ _ _ Hkept). cbn [snd messages]. auto.
Qed.

(** Whatever the search answers, [fetch_articles] sends its one request
    and leaves the session alone. *)
Lemma fetch_articles_world (warning : string) (resp : http (list article)) (config : Config)
    (w : World) :
  session (snd (fetch_articles_with warning resp config w)) = session w
  /\ requests (snd (fetch_articles_with warning resp config w))
     = (requests w ++ [GetArticles (fetch_url config)])%list.
Proof.
  destruct resp as [articles | err]; [| split; reflexivity].
  destruct (filter_articles articles) as [kept |] eqn:Hkept.
  - rewrite (fetch_articles_filtered _ _ _ _ _ Hkept). split; reflexivity.
  - rewrite (fetch_articles_null _ _ _ _ Hkept). split; reflexivity.
Qed.

(** On an answer that it can read, [fetch_articles] returns. *)
Lemma fetch_articles_returns (warning : string) (resp : http (list article))
    (config : Config) (w : World) :
  readable resp ->
  exists links w1,
    fetch_articles_with warning resp config w = (Returned links, w1)
    /\ session w1 = session w
    /\ requests w1 = (requests w ++ [GetArticles (fetch_url config)])%list.
Proof.
  intros Hread. destruct resp as [articles | err].
  - rewrite (fetch_articles_ok _ _ _ _ (Hread articles eq_refl)). eauto.
  - eexists _, _. split; [reflexivity |]. split; reflexivity.
Qed.

Lemma no_results_readable : readable (HttpOk []).
Proof. intros articles H. injection H as <-. constructor. Qed.

Lemma failed_search_readable (e : string) : readable (RequestException e).
Proof. intros articles H. discriminate. Qed.

(** X20.  For every answer of the article search in which the titles and
    descriptions are strings, [fetch_articles] returns normally the first
    five articles that pass the filter, in the order of the result set.  So
    the list has at most five entries; every entry is the (title,
    description, url) of an article of the result set whose title or
    description contains a term of the vocabulary as a case-insensitive
    substring; and when the result set is empty or no article passes the
    filter the returned list is empty and no error is reported. *)
Theorem fetch_articles_bounded_relevant (warning : string) (resp : http (list article))
    (config : Config) (w : World) :
  readable resp ->
  exists l,
    fst (fetch_articles_with warning resp config w) = Returned l
    /\ length l <= 5
    /\ (forall t d u, In (t, d, u) l ->
          passes_filter t d
          /\ exists articles,
               resp = HttpOk articles
               /\ In {| a_title := t; a_description := d; a_url := u |} articles)
    /\ (forall articles,
          resp = HttpOk articles ->
          l = firstn 5 (map as_tuple (List.filter passes articles)))
    /\ (forall articles,
          resp = HttpOk articles ->
          (forall a, In a articles -> ~ passes_filter (a_title a) (a_description a)) ->
          l = []
          /\ forall e,
               In (StError e) (messages (snd (fetch_articles_with warning resp config w))) ->
               In (StError e) (messages w)).
Proof.
  intros Htext. destruct resp as [articles | err].
  - specialize (Htext articles eq_refl).
    exists (firstn 5 (map as_tuple (List.filter passes articles))).
    split; [rewrite (fetch_articles_ok _ _ _ _ Htext); reflexivity |].
    split; [apply firstn_le_length |].
    split; [| split].
    + intros t d u Hin. apply In_firstn in Hin.
      apply in_map_iff in Hin. destruct Hin as [a [Ha Hin]].
      apply filter_In in Hin. destruct Hin as [Hin Hrel].
      destruct a as [t' d' u']. unfold as_tuple in Ha. simpl in Ha.
      injection Ha as -> -> ->.
      split; [apply (proj1 (passes_spec _) Hrel) | eauto].
    + intros articles' Heq. injection Heq as <-. reflexivity.
    + intros articles' Heq Hnone. injection Heq as <-.
      split; [| intros e; apply fetch_articles_ok_messages].
      replace (List.filter passes articles) with (@nil article); [reflexivity |].
      symmetry. clear Htext. induction articles as [|a articles IH]; [reflexivity |].
      simpl. destruct (passes a) eqn:Hrel.
      * exfalso. apply (Hnone a); [left; reflexivity | apply passes_spec; exact Hrel].
      * apply IH. intros b Hb. apply Hnone. right. exact Hb.
  - exists []. split; [reflexivity |].
    split; [simpl; lia |].
    split; [intros t d u [] |].
    split; intros articles Heq; discriminate.
Qed.

Lemma sample_results_readable : readable (HttpOk sample_results).
Proof.
  intros articles H. injection H as <-.
  repeat constructor; eexists _, _; split; reflexivity.
Qed.

(** Of the three sample articles the first two pass, the second one by the
    upper-case "STRESS" of its description. *)
Lemma fetch_articles_bounded_relevant_example :
  exists l,
    fst (App.fetch_articles (HttpOk sample_results) demo_config world0) = Returned l
    /\ l = [(Some "Mindfulness at work", Some "A short guide.", "https://news.example/1");
            (Some "Sleep better", Some "Less STRESS, more rest.", "https://news.example/2")].
Proof.
  destruct (fetch_articles_bounded_relevant no_articles_warning (HttpOk sample_results)
              demo_config world0 sample_results_readable)
    as (l & Hret & _ & _ & Hexact & _).
  exact (ex_intro _ l (conj Hret (Hexact sample_results eq_refl))).
Defined.

Lemma filter_articles_raises (articles : list article) (a : article) :
  In a articles -> relevant a = None -> filter_articles articles = None.
Proof.
  induction articles as [|b articles IH]; intros Hin Hnone; [destruct Hin |].
  simpl. destruct Hin as [-> | Hin].
  - rewrite Hnone. reflexivity.
  - destruct (relevant b); [| reflexivity]. rewrite (IH Hin Hnone). reflexivity.
Qed.

(** X22.  A null field makes the search raise.  When the result set holds an
    article whose title is null, or whose title does not contain
    "mindfulness" and whose description is null, [fetch_articles] of either
    script is left by [AttributeError], whatever the other articles are (and
    also when the title contains a later term of the vocabulary): the one
    request has been sent, nothing is reported and the session is as it
    was. *)
Theorem fetch_articles_null_field_raises (warning : string) (articles : list article)
    (a : article) (config : Config) (w : World) :
  In a articles ->
  a_title a = None
  \/ (exists title, a_title a = Some title /\ ~ occurs_ci "mindfulness" title
                    /\ a_description a = None) ->
  fetch_articles_with warning (HttpOk articles) config w
  = (Raised AttributeError,
     {| session := session w; messages := messages w;
        requests := requests w ++ [GetArticles (fetch_url config)];
        clock := clock w |}).
Proof.
  intros Hin Hnull. apply fetch_articles_null, (filter_articles_raises _ a Hin).
  unfold relevant, required_keywords. cbn [any_keyword].
  destruct Hnull as [-> | (title & -> & Hfirst & ->)]; [reflexivity |].
  cbn [keyword_in].
  destruct (PyStr.contains (PyStr.lower "mindfulness") (PyStr.lower title)) eqn:Hc;
    [| reflexivity].
  exfalso. apply Hfirst, contains_lower_spec, Hc.
Qed.

Lemma stress_title_lacks_first_term : ~ occurs_ci "mindfulness" "Stress at work".
Proof. intros H. apply contains_lower_spec in H. vm_compute in H. discriminate. Qed.

Lemma undescribed_match_listed : In undescribed_match (sample_results ++ [undescribed_match]).
Proof. apply in_or_app. right. left. reflexivity. Qed.

Lemma fetch_articles_null_field_raises_example :
  App.fetch_articles (HttpOk (sample_results ++ [undescribed_match])%list) demo_config world0
  = (Raised AttributeError,
     {| session := None; messages := [];
        requests := [GetArticles (fetch_url demo_config)]; clock := 0 |}).
Proof.
  exact (fetch_articles_null_field_raises no_articles_warning
           (sample_results ++ [undescribed_match]) undescribed_match demo_config world0
           undescribed_match_listed
           (or_intror (ex_intro _ "Stress at work"
                         (conj eq_refl (conj stress_title_lacks_first_term eq_refl))))).
Defined.

(** C6, on the code.  The search answers with one article that matches no
    term of the vocabulary and whose description is null.  The comprehension
    calls [lower] on the description: [fetch_articles] of either script is
    left by [AttributeError], which [except RequestException] does not
    catch, and so is the run that pressed "Start Generation": nothing is
    reported, no draft is requested and the session keeps its first step. *)
Theorem fetch_articles_null_description_raises :
  ~ passes_filter (a_title undescribed_article) (a_description undescribed_article)
  /\ App.fetch_articles (HttpOk [undescribed_article]) demo_config world0
     = (Raised AttributeError,
        {| session := None; messages := [];
           requests := [GetArticles (fetch_url demo_config)]; clock := 0 |})
  /\ Gen.fetch_articles (HttpOk [undescribed_article]) demo_config world0
     = (Raised AttributeError,
        {| session := None; messages := [];
           requests := [GetArticles (fetch_url demo_config)]; clock := 0 |})
  /\ App.main press_start undescribed_env world0
     = (Raised AttributeError,
        {| session := Some fresh_session; messages := [];
           requests := [GetArticles (fetch_url demo_config)]; clock := 0 |}).
Proof.
  split.
  - intros H. apply passes_spec in H. vm_compute in H. discriminate.
  - repeat split; vm_compute; reflexivity.
Qed.

(** The claim of C7 read literally fails: a transport error and an empty
    result set hand the same value, the empty list, to the caller. *)
Lemma fetch_error_returns_like_empty_success :
  fst (App.fetch_articles (RequestException "503 Server Error") demo_config world0)
  = fst (App.fetch_articles (HttpOk []) demo_config world0)
  /\ fst (App.fetch_articles (RequestException "503 Server Error") demo_config world0)
     = Returned [].
Proof. split; reflexivity. Qed.

(** C7, amended. On a transport or HTTP error [fetch_articles] sends the one
    GET and nothing more (no retry), reports "Error fetching articles: e" with
    [st.error], and returns the empty list; the session is untouched.  The
    messages shown differ from those of every successful search. *)
Theorem fetch_articles_error_reported (warning e : string) (config : Config) (w : World) :
  fetch_articles_with warning (RequestException e) config w
  = (Returned [],
     {| session := session w;
        messages := messages w ++ [StError ("Error fetching articles: " ++ e)];
        requests := requests w ++ [GetArticles (fetch_url config)];
        clock := clock w |})
  /\ forall articles,
       messages (snd (fetch_articles_with warning (HttpOk articles) config w))
       <> messages (snd (fetch_articles_with warning (RequestException e) config w)).
Proof.
  split; [reflexivity |].
  intros articles. destruct (filter_articles articles) as [kept |] eqn:Hkept.
  - rewrite (fetch_articles_filtered _ _ _ _ _ Hkept). cbn [snd messages].
    intros H. apply app_inv_head in H. destruct articles; discriminate.
  - rewrite (fetch_articles_null _ _ _ _ Hkept). cbn [snd messages].
    intros H. rewrite <- (app_nil_r (messages w)) in H at 1.
    apply app_inv_head in H. discriminate.
Qed.

End Fetch.

(** ** Fact verification: [fact_check_content] *)

Section FactCheck.

Lemma parse_fact_check_spec (r : string) :
  App.parse_fact_check r
  = match parsed_confidence r, parsed_explanation r with
    | Some c, Some e => Some ((60 <=? c)%Z, c, e)
    | _, _ => None
    end.
Proof.
  unfold App.parse_fact_check, parsed_confidence, parsed_explanation.
  destruct (second (PyStr.split r "Confidence:")) as [after_marker|]; [| reflexivity].
  destruct (PyStr.split_ws after_marker) as [|token rest]; [reflexivity |].
  destruct (PyStr.to_int token); reflexivity.
Qed.

(** The value of [fact_check_content] depends on the answer only. *)
Lemma fact_check_content_value (resp : http string) (content : string) (config : Config)
    (references : list string) (w : World) :
  fst (App.fact_check_content resp content config references w)
  = Returned
      match resp with
      | HttpOk r =>
          if PyStr.truthy r
          then match App.parse_fact_check r with
               | Some verdict => verdict
               | None => unparseable_verdict
               end
          else failed_call_verdict
      | RequestException _ => failed_call_verdict
      end.
Proof.
  unfold App.fact_check_content, generate_content, bind, send, show, ret.
  destruct resp as [r | e]; simpl; [| reflexivity].
  destruct (PyStr.truthy r); [| reflexivity].
  destruct (App.parse_fact_check r); reflexivity.
Qed.

(** The claim of C1 read literally fails on the empty answer: nothing can
    be parsed from it, yet the verdict carries confidence 0, not 50. *)
Lemma fact_check_empty_response :
  parsed_confidence "" = None
  /\ parsed_explanation "" = None
  /\ fst (App.fact_check_content (HttpOk "") "Stress is bad." demo_config [] world0)
     = Returned (false, 0%Z, "Fact-checking failed.").
Proof. repeat split; reflexivity. Qed.

(** C1, amended. For every non-empty answer of the model,
    [fact_check_content] returns normally: when both the confidence and the
    explanation can be parsed, the verdict is (confidence >= 60, confidence,
    explanation); otherwise it is exactly (False, 50, "Failed to parse
    fact-check response."). *)
Theorem fact_check_verdict (r content : string) (config : Config)
    (references : list string) (w : World) :
  PyStr.truthy r = true ->
  fst (App.fact_check_content (HttpOk r) content config references w)
  = Returned
      match parsed_confidence r, parsed_explanation r with
      | Some c, Some e => ((60 <=? c)%Z, c, e)
      | _, _ => (false, 50%Z, "Failed to parse fact-check response.")
      end.
Proof.
  intros Hr. rewrite fact_check_content_value, Hr, parse_fact_check_spec.
  destruct (parsed_confidence r); [destruct (parsed_explanation r) |]; reflexivity.
Qed.

(** The answer "Confidence: 85 - looks accurate" passes with confidence 85. *)
Lemma fact_check_verdict_example :
  PyStr.truthy "Confidence: 85 - looks accurate" = true
  /\ fst (App.fact_check_content (HttpOk "Confidence: 85 - looks accurate")
            "Stress is bad." demo_config [] world0)
     = Returned (true, 85%Z, "looks accurate").
Proof.
  split; [reflexivity |].
  exact (fact_check_verdict "Confidence: 85 - looks accurate" "Stress is bad."
           demo_config [] world0 eq_refl).
Defined.

(** C10. When the call to the model fails, [fact_check_content] returns
    (False, 0, "Fact-checking failed."), a verdict other than the one for an
    answer that cannot be parsed; the failure of the call is reported. *)
Theorem fact_check_failed_call (e content : string) (config : Config)
    (references : list string) (w : World) :
  fst (App.fact_check_content (RequestException e) content config references w)
  = Returned (false, 0%Z, "Fact-checking failed.")
  /\ messages (snd (App.fact_check_content (RequestException e) content config references w))
     = (messages w ++ [StError ("Error generating content: " ++ e)])%list
  /\ (false, 0%Z, "Fact-checking failed.") <> unparseable_verdict.
Proof.
  split; [reflexivity |]. split; [reflexivity | discriminate].
Qed.

End FactCheck.

(** ** Render-job polling: [wait_for_video] *)

Section Polling.

Variable polls : nat -> poll_event.
Variable uid : string.
Variable start_time : Z.

(** The loop, unfolded once. *)
Lemma wait_loop_timeout (k : nat) (w : World) :
  ~ (clock w - start_time < 600)%Z ->
  App.wait_loop polls uid start_time k w
  = (Returned None, with_error "Video rendering timed out." w).
Proof.
  intros H. rewrite App.wait_loop_equation_1.
  destruct (Z_lt_dec (clock w - start_time) 600); [contradiction | reflexivity].
Qed.

Lemma wait_loop_round (k : nat) (w : World) :
  (clock w - start_time < 600)%Z ->
  App.wait_loop polls uid start_time k w
  = match round_result (polls k) with
    | RoundCompleted url => (Returned (Some url), after_poll uid (polls k) w)
    | RoundFailed =>
        (Returned None, with_error "Video rendering failed." (after_poll uid (polls k) w))
    | RoundPending =>
        App.wait_loop polls uid start_time (S k)
          (after_sleep (polls k) (after_poll uid (polls k) w))
    | RoundRaised e => (Raised (RequestError e), after_poll uid (polls k) w)
    end.
Proof.
  intros H. rewrite App.wait_loop_equation_1.
  destruct (Z_lt_dec (clock w - start_time) 600); [| contradiction].
  unfold App.wait_loop_unfold_clause_1, round_result.
  destruct (reply (polls k)) as [r | e]; [| reflexivity].
  destruct (status_code r =? 200)%Z; [| reflexivity].
  destruct (String.eqb (status r) "completed"); [reflexivity |].
  destruct (String.eqb (status r) "failed"); reflexivity.
Qed.

(** Induction along the rounds of the loop. *)
Lemma wait_loop_rule (P : nat -> World -> outcome (option string) * World -> Prop) :
  (forall k w, ~ (clock w - start_time < 600)%Z ->
     P k w (Returned None, with_error "Video rendering timed out." w)) ->
  (forall k w url, (clock w - start_time < 600)%Z ->
     round_result (polls k) = RoundCompleted url ->
     P k w (Returned (Some url), after_poll uid (polls k) w)) ->
  (forall k w, (clock w - start_time < 600)%Z ->
     round_result (polls k) = RoundFailed ->
     P k w (Returned None, with_error "Video rendering failed." (after_poll uid (polls k) w))) ->
  (forall k w e, (clock w - start_time < 600)%Z ->
     round_result (polls k) = RoundRaised e ->
     P k w (Raised (RequestError e), after_poll uid (polls k) w)) ->
  (forall k w res, (clock w - start_time < 600)%Z ->
     round_result (polls k) = RoundPending ->
     P (S k) (after_sleep (polls k) (after_poll uid (polls k) w)) res ->
     P k w res) ->
  forall k w, P k w (App.wait_loop polls uid start_time k w).
Proof.
  intros Htimeout Hdone Hfailed Hraised Hpending k w.
  remember (Z.to_nat (600 - (clock w - start_time))) as m eqn:Hm.
  revert k w Hm. induction m as [m IH] using lt_wf_ind. intros k w Hm.
  destruct (Z_lt_dec (clock w - start_time) 600) as [Hlt | Hge].
  - rewrite (wait_loop_round k w Hlt).
    destruct (round_result (polls k)) eqn:Hround; auto.
    apply Hpending; [exact Hlt | exact Hround |].
    eapply IH; [| reflexivity]. subst m. simpl. lia.
  - rewrite (wait_loop_timeout k w Hge). auto.
Qed.

(** Each round sends one GET; a round starts only before the timeout and
    lasts ten units at least, so there are sixty rounds at most. *)
Lemma wait_loop_requests (k : nat) (w : World) :
  exists n,
    requests (snd (App.wait_loop polls uid start_time k w))
    = (requests w ++ repeat (GetRender uid) n)%list
    /\ (10 * Z.of_nat n <= Z.max 0 (609 - (clock w - start_time)))%Z.
Proof.
  apply (wait_loop_rule
           (fun k w res =>
              exists n, requests (snd res) = (requests w ++ repeat (GetRender uid) n)%list
                        /\ (10 * Z.of_nat n <= Z.max 0 (609 - (clock w - start_time)))%Z)).
  - intros ? w' _. exists 0. simpl. rewrite app_nil_r. split; [reflexivity | lia].
  - intros k' w' url Hlt _. exists 1. simpl. split; [reflexivity | lia].
  - intros k' w' Hlt _. exists 1. simpl. split; [reflexivity | lia].
  - intros k' w' e Hlt _. exists 1. simpl. split; [reflexivity | lia].
  - intros k' w' res Hlt _ [n [Hreq Hn]]. exists (S n). split.
    + rewrite Hreq. simpl. rewrite <- app_assoc. reflexivity.
    + simpl clock in Hn. lia.
Qed.

(** The loop is left less than ten units, the latency of a GET and the
    oversleep of a sleep after the timeout. *)
Lemma wait_loop_elapsed (L O : Z) (k : nat) (w : World) :
  (forall j, Z.of_N (latency (polls j)) <= L /\ Z.of_N (oversleep (polls j)) <= O)%Z ->
  (clock (snd (App.wait_loop polls uid start_time k w)) - start_time
   <= Z.max (clock w - start_time) (609 + L + O))%Z.
Proof.
  intros Hbound.
  apply (wait_loop_rule
           (fun k w res =>
              (clock (snd res) - start_time <= Z.max (clock w - start_time) (609 + L + O))%Z)).
  - intros ? w' _. simpl. lia.
  - intros k' w' url Hlt _. simpl. pose proof (Hbound k'). lia.
  - intros k' w' Hlt _. simpl. pose proof (Hbound k'). lia.
  - intros k' w' e Hlt _. simpl. pose proof (Hbound k'). lia.
  - intros k' w' res Hlt _ H. simpl in H. pose proof (Hbound k'). lia.
Qed.

(** With instantaneous GETs and exact sleeps the elapsed time stays a
    multiple of ten. *)
Lemma wait_loop_elapsed_exact (k : nat) (w : World) :
  (forall j, latency (polls j) = 0%N /\ oversleep (polls j) = 0%N) ->
  ((clock w - start_time) mod 10 = 0)%Z ->
  ((clock (snd (App.wait_loop polls uid start_time k w)) - start_time) mod 10 = 0)%Z.
Proof.
  intros Hzero.
  apply (wait_loop_rule
           (fun k w res =>
              ((clock w - start_time) mod 10 = 0 ->
               (clock (snd res) - start_time) mod 10 = 0)%Z)).
  - intros ? w' _ H. exact H.
  - intros k' w' url _ _ H. simpl. destruct (Hzero k') as [-> _].
    rewrite Z.add_0_r. exact H.
  - intros k' w' _ _ H. simpl. destruct (Hzero k') as [-> _].
    rewrite Z.add_0_r. exact H.
  - intros k' w' e _ _ H. simpl. destruct (Hzero k') as [-> _].
    rewrite Z.add_0_r. exact H.
  - intros k' w' res _ _ IH H. apply IH. simpl.
    destruct (Hzero k') as [-> ->]. simpl Z.of_N.
    replace (clock w' + 0 + (10 + 0) - start_time)%Z
      with ((clock w' - start_time) + 1 * 10)%Z by lia.
    rewrite Z.mod_add by lia. exact H.
Qed.

(** A job that never reaches a terminal state makes the loop time out. *)
Lemma wait_loop_never (k : nat) (w : World) :
  (forall j, round_result (polls j) = RoundPending) ->
  fst (App.wait_loop polls uid start_time k w) = Returned None
  /\ messages (snd (App.wait_loop polls uid start_time k w))
     = (messages w ++ [StError "Video rendering timed out."])%list
  /\ (600 <= clock (snd (App.wait_loop polls uid start_time k w)) - start_time)%Z.
Proof.
  intros Hpending.
  apply (wait_loop_rule
           (fun k w res =>
              fst res = Returned None
              /\ messages (snd res) = (messages w ++ [StError "Video rendering timed out."])%list
              /\ (600 <= clock (snd res) - start_time)%Z)).
  - intros ? w' Hge. simpl. repeat split. lia.
  - intros k' w' url _ H. rewrite Hpending in H. discriminate.
  - intros k' w' _ H. rewrite Hpending in H. discriminate.
  - intros k' w' e _ H. rewrite Hpending in H. discriminate.
  - intros k' w' res _ _ H. exact H.
Qed.

End Polling.

Section PollingResults.

Variable polls : nat -> poll_event.
Variable uid : string.
Variable config : Config.

Lemma wait_for_video_loop (w : World) :
  App.wait_for_video polls uid config w = App.wait_loop polls uid (clock w) 0 w.
Proof. reflexivity. Qed.

(** Polling never touches the session. *)
Lemma wait_loop_session (start_time : Z) (k : nat) (w : World) :
  session (snd (App.wait_loop polls uid start_time k w)) = session w.
Proof.
  apply (wait_loop_rule polls uid start_time
           (fun k w res => session (snd res) = session w)); intros; auto.
Qed.

Lemma round_start_mono (k n : nat) :
  (round_start polls k <= round_start polls (k + n))%Z.
Proof.
  induction n as [|n IH].
  - rewrite Nat.add_0_r. lia.
  - rewrite Nat.add_succ_r. simpl. lia.
Qed.

(** A job seen completed in a round that starts before the timeout yields
    its URL, and nothing is reported. *)
Lemma wait_loop_completes (start_time : Z) (url : string) (n k : nat) (w : World) :
  (forall j, k <= j < k + n -> round_result (polls j) = RoundPending) ->
  round_result (polls (k + n)) = RoundCompleted url ->
  (clock w - start_time + (round_start polls (k + n) - round_start polls k) < 600)%Z ->
  fst (App.wait_loop polls uid start_time k w) = Returned (Some url)
  /\ messages (snd (App.wait_loop polls uid start_time k w)) = messages w.
Proof.
  revert k w. induction n as [|n IH]; intros k w Hpending Hdone Htime.
  - rewrite Nat.add_0_r in *.
    rewrite wait_loop_round by lia. rewrite Hdone. split; reflexivity.
  - pose proof (round_start_mono k (S n)) as Hmono.
    rewrite wait_loop_round by lia.
    rewrite (Hpending k) by lia.
    replace (k + S n) with (S k + n) in * by lia.
    destruct (IH (S k) (after_sleep (polls k) (after_poll uid (polls k) w))) as [Hres Hmsg].
    + intros j Hj. apply Hpending. lia.
    + exact Hdone.
    + change (round_start polls (S k))
        with (round_start polls k + Z.of_N (latency (polls k)) + 10
              + Z.of_N (oversleep (polls k)))%Z.
      cbn [clock after_sleep after_poll]. lia.
    + split; [exact Hres | rewrite Hmsg; reflexivity].
Qed.

Lemma wait_for_video_completes (n : nat) (url : string) (w : World) :
  completes_at polls n url ->
  fst (App.wait_for_video polls uid config w) = Returned (Some url)
  /\ session (snd (App.wait_for_video polls uid config w)) = session w
  /\ messages (snd (App.wait_for_video polls uid config w)) = messages w.
Proof.
  intros [Hpending [Hdone Htime]]. rewrite wait_for_video_loop.
  destruct (wait_loop_completes (clock w) url n 0 w) as [Hres Hmsg].
  - intros j Hj. apply Hpending. lia.
  - exact Hdone.
  - simpl. lia.
  - split; [exact Hres |]. split; [apply wait_loop_session | exact Hmsg].
Qed.

(** C4, amended. For every sequence of poll rounds [wait_for_video]
    returns after at most sixty GETs.  It is left less than ten units plus
    the longest GET and the longest oversleep after the 600-unit timeout, and
    within the 600 units when GETs are instantaneous and sleeps exact.  When
    no round ever shows a terminal state, it reports "Video rendering timed
    out." and returns [None], 600 units or more after it started. *)
Theorem wait_for_video_bounded (w : World) :
  exists n,
    requests (snd (App.wait_for_video polls uid config w))
    = (requests w ++ repeat (GetRender uid) n)%list
    /\ n <= 60
    /\ (forall L O : Z,
          (forall j, Z.of_N (latency (polls j)) <= L /\ Z.of_N (oversleep (polls j)) <= O)%Z ->
          (clock (snd (App.wait_for_video polls uid config w)) - clock w < 610 + L + O)%Z)
    /\ ((forall j, latency (polls j) = 0%N /\ oversleep (polls j) = 0%N) ->
        (clock (snd (App.wait_for_video polls uid config w)) - clock w <= 600)%Z)
    /\ ((forall j, round_result (polls j) = RoundPending) ->
        fst (App.wait_for_video polls uid config w) = Returned None
        /\ messages (snd (App.wait_for_video polls uid config w))
           = (messages w ++ [StError "Video rendering timed out."])%list
        /\ (600 <= clock (snd (App.wait_for_video polls uid config w)) - clock w)%Z).
Proof.
  rewrite wait_for_video_loop.
  destruct (wait_loop_requests polls uid (clock w) 0 w) as [n [Hreq Hn]].
  exists n. split; [exact Hreq |].
  split; [lia |].
  split; [| split].
  - intros L O Hbound.
    pose proof (wait_loop_elapsed polls uid (clock w) L O 0 w Hbound) as H.
    pose proof (Hbound 0) as H0. lia.
  - intros Hzero.
    assert (Hbound : forall j, (Z.of_N (latency (polls j)) <= 0
                                /\ Z.of_N (oversleep (polls j)) <= 0)%Z).
    { intros j. destruct (Hzero j) as [-> ->]. simpl. lia. }
    pose proof (wait_loop_elapsed polls uid (clock w) 0 0 0 w Hbound) as H.
    assert (Hmod : ((clock w - clock w) mod 10 = 0)%Z) by (rewrite Z.sub_diag; reflexivity).
    pose proof (wait_loop_elapsed_exact polls uid (clock w) 0 w Hzero Hmod) as Hm.
    pose proof (Z_div_mod_eq_full
                  (clock (snd (App.wait_loop polls uid (clock w) 0 w)) - clock w) 10) as Hd.
    lia.
  - apply wait_loop_never.
Qed.

End PollingResults.

(** The claim of C4 read literally fails: with a job that keeps rendering
    and GETs that take one unit each, the loop is left 605 units after it
    started, past the 600-unit bound. *)
Lemma wait_for_video_overshoots :
  fst (App.wait_for_video (rendering_forever 1) "render-1" demo_config world0) = Returned None
  /\ (clock (snd (App.wait_for_video (rendering_forever 1) "render-1" demo_config world0))
      - clock world0 = 605)%Z
  /\ (600 < 605)%Z.
Proof. repeat split; vm_compute; reflexivity. Qed.

(** ** Short-form units: the body of the loop of [generate_pinterest_content] *)

Section Units.

Lemma copy_fields_inv (post title description : string) (hashtags : list string) :
  copy_fields post = Some (title, description, hashtags) ->
  exists after_title after_description after_hashtags,
    App.after_label post "Title:" = ret after_title
    /\ App.after_label post "Description:" = ret after_description
    /\ App.after_label post "Hashtags:" = ret after_hashtags
    /\ title = PyStr.strip (App.first_line after_title)
    /\ description = PyStr.strip (App.first_line after_description)
    /\ hashtags = PyStr.split_ws after_hashtags.
Proof.
  unfold copy_fields, App.after_label. intros H.
  destruct (second (PyStr.split post "Title:")) as [x|]; [| discriminate].
  destruct (second (PyStr.split post "Description:")) as [y|]; [| discriminate].
  destruct (second (PyStr.split post "Hashtags:")) as [z|]; [| discriminate].
  injection H as <- <- <-. exists x, y, z. repeat split; reflexivity.
Qed.

Lemma pin_url_truthy (pin_id : string) :
  PyStr.truthy ("https://www.pinterest.com/pin/" ++ pin_id ++ "/") = true.
Proof. reflexivity. Qed.

(** Evaluate the run [E] as far as the answers known so far decide it. *)
Ltac run_in E :=
  cbn -[App.wait_for_video App.after_label PyStr.strip PyStr.split_ws App.first_line
        PyStr.take PyStr.join PyStr.of_nat String.append PyStr.truthy insert
        App.video_filename App.pin_row] in E.

(** The unit from its start to the request for a render job. *)
Ltac run_to_render E Hs Hdraft Hcopy Hfields Himage Himage_t Hup Hup_t Hasset Hasset_t :=
  let Ht := fresh "Ht" in
  let Hd := fresh "Hd" in
  let Hh := fresh "Hh" in
  destruct (copy_fields_inv _ _ _ _ Hfields) as (? & ? & ? & Ht & Hd & Hh & -> & -> & ->);
  unfold App.pinterest_unit in E;
  rewrite Hcopy, Himage, Hup, Hasset in E;
  unfold bind at 1 in E; unfold get_session at 1 in E; rewrite Hs, Hdraft in E;
  run_in E; rewrite Ht in E; run_in E; rewrite Hd in E; run_in E; rewrite Hh in E;
  run_in E; rewrite Himage_t in E; run_in E; rewrite Hup_t in E; run_in E;
  rewrite Hasset_t in E; run_in E.

(** A refused render job ends the unit; the loop goes on. *)
Lemma unit_render_refused (u : UnitEnv) (config : Config) (i : nat) (w w' : World)
    (s : SessionState) (draft title description e : string) (hashtags : list string)
    (r : outcome unit) :
  reaches_render u title description hashtags ->
  u_render u = RequestException e ->
  session w = Some s -> blog_post s = Some draft ->
  App.pinterest_unit u config i w = (r, w') ->
  r = Returned tt /\ session w' = Some s
  /\ messages w' = (messages w ++ [StError ("Error creating video render: " ++ e)])%list.
Proof.
  intros (post & image & upscaled & asset & Hcopy & Hfields & Himage & Himage_t & Hup
          & Hup_t & Hasset & Hasset_t) Hrender Hs Hdraft E.
  run_to_render E Hs Hdraft Hcopy Hfields Himage Himage_t Hup Hup_t Hasset Hasset_t.
  rewrite Hrender in E. run_in E.
  injection E as <- <-. rewrite Hs. repeat split.
Qed.

(** The unit from the request for a render job to the publish request. *)
Ltac run_to_publish E Hs Hrender Hjob_t Hdone Hurl_t Hvideo Hvideo_t :=
  let Ev := fresh "Ev" in
  let Hres := fresh "Hres" in
  let Hsess := fresh "Hsess" in
  let Hmsg := fresh "Hmsg" in
  rewrite Hrender, Hvideo in E; run_in E; rewrite Hjob_t in E; run_in E;
  unfold bind at 1 in E;
  match type of E with
  | context [App.wait_for_video ?polls ?job ?config ?W] =>
      destruct (wait_for_video_completes polls job config _ _ W Hdone)
        as (Hres & Hsess & Hmsg);
      destruct (App.wait_for_video polls job config W) as [? ?] eqn:Ev
  end;
  cbn [fst snd session messages] in Hres, Hsess, Hmsg; subst;
  run_in E; rewrite Hurl_t in E; run_in E; rewrite Hvideo_t in E; run_in E.

Lemma unit_published (u : UnitEnv) (config : Config) (i : nat) (w w' : World)
    (s : SessionState) (draft title description pin_id : string) (hashtags : list string)
    (video : bytes) (r : outcome unit) :
  reaches_publish u title description hashtags video ->
  u_pin u = HttpOk pin_id ->
  session w = Some s -> blog_post s = Some draft ->
  App.pinterest_unit u config i w = (r, w') ->
  r = Returned tt
  /\ session w' = Some (published s config i title description pin_id video)
  /\ messages w' = messages w.
Proof.
  intros [(post & image & upscaled & asset & Hcopy & Hfields & Himage & Himage_t & Hup
           & Hup_t & Hasset & Hasset_t)
          (job & n & url & Hrender & Hjob_t & Hdone & Hurl_t & Hvideo & Hvideo_t)]
         Hpin Hs Hdraft E.
  run_to_render E Hs Hdraft Hcopy Hfields Himage Himage_t Hup Hup_t Hasset Hasset_t.
  run_to_publish E Hs Hrender Hjob_t Hdone Hurl_t Hvideo Hvideo_t.
  rewrite Hpin in E. run_in E. rewrite pin_url_truthy in E.
  unfold append_pin, set_file, bind, get_session, put_session in E. run_in E.
  rewrite Hsess, Hs in E. run_in E.
  injection E as <- <-. repeat split. exact Hmsg.
Qed.

Lemma unit_publish_failed (u : UnitEnv) (config : Config) (i : nat) (w w' : World)
    (s : SessionState) (draft title description e : string) (hashtags : list string)
    (video : bytes) (r : outcome unit) :
  reaches_publish u title description hashtags video ->
  u_pin u = RequestException e ->
  session w = Some s -> blog_post s = Some draft ->
  App.pinterest_unit u config i w = (r, w') ->
  r = Returned tt
  /\ session w' = Some s
  /\ messages w' = (messages w ++ [StError ("Error uploading to Pinterest: " ++ e)])%list.
Proof.
  intros [(post & image & upscaled & asset & Hcopy & Hfields & Himage & Himage_t & Hup
           & Hup_t & Hasset & Hasset_t)
          (job & n & url & Hrender & Hjob_t & Hdone & Hurl_t & Hvideo & Hvideo_t)]
         Hpin Hs Hdraft E.
  run_to_render E Hs Hdraft Hcopy Hfields Himage Himage_t Hup Hup_t Hasset Hasset_t.
  run_to_publish E Hs Hrender Hjob_t Hdone Hurl_t Hvideo Hvideo_t.
  rewrite Hpin in E. run_in E.
  injection E as <- <-. cbn [session messages]. rewrite Hsess, Hmsg. repeat split. exact Hs.
Qed.

End Units.

Section Loop.

Variable config : Config.

(** The session after a publish, with the record and the file name spelled
    out. *)
Lemma published_spelled (s : SessionState) (i : nat) (title description pin_id : string)
    (video : bytes) :
  published s config i title description pin_id video
  = {| step := step s; blog_post := blog_post s;
       pin_data_list :=
         pin_data_list s
         ++ [[("Title", title);
              ("Media URL", "https://www.pinterest.com/pin/" ++ pin_id ++ "/");
              ("Pinterest board", "Mindfulness Tips");
              ("Thumbnail", "");
              ("Description", description);
              ("Link", affiliate_link config);
              ("Publish date", "");
              ("Keywords", PyStr.join ", " (seo_keywords config))]];
       generated_files :=
         <["pinterest_video_" ++ PyStr.of_nat (i + 1) ++ ".mp4" := Bytes video]>
           (generated_files s) |}.
Proof. reflexivity. Qed.

(** C8. For a unit that gets as far as publishing: when the publish
    request succeeds, the unit appends one record to [pin_data_list], made of
    its title, the URL of the pin, the board "Mindfulness Tips", its
    description, the affiliate link and the SEO keywords joined by ", " (the
    thumbnail and the publish date are empty), and stores the video under
    "pinterest_video_N.mp4", N being the number of the unit; nothing else of
    the session changes and nothing is reported.  When the request fails,
    neither is added and "Error uploading to Pinterest: e" is reported.
    Either way the body of the loop returns normally, so the loop goes on. *)
Theorem publish_appends_or_discards (u : UnitEnv) (i : nat) (w : World) (s : SessionState)
    (draft title description : string) (hashtags : list string) (video : bytes) :
  reaches_publish u title description hashtags video ->
  session w = Some s -> blog_post s = Some draft ->
  fst (App.pinterest_unit u config i w) = Returned tt
  /\ match u_pin u with
     | HttpOk pin_id =>
         session (snd (App.pinterest_unit u config i w))
         = Some {| step := step s; blog_post := blog_post s;
                   pin_data_list :=
                     pin_data_list s
                     ++ [[("Title", title);
                          ("Media URL", "https://www.pinterest.com/pin/" ++ pin_id ++ "/");
                          ("Pinterest board", "Mindfulness Tips");
                          ("Thumbnail", "");
                          ("Description", description);
                          ("Link", affiliate_link config);
                          ("Publish date", "");
                          ("Keywords", PyStr.join ", " (seo_keywords config))]];
                   generated_files :=
                     <["pinterest_video_" ++ PyStr.of_nat (i + 1) ++ ".mp4" := Bytes video]>
                       (generated_files s) |}
         /\ messages (snd (App.pinterest_unit u config i w)) = messages w
     | RequestException e =>
         session (snd (App.pinterest_unit u config i w)) = Some s
         /\ messages (snd (App.pinterest_unit u config i w))
            = (messages w ++ [StError ("Error uploading to Pinterest: " ++ e)])%list
     end.
Proof.
  intros Hreach Hs Hdraft.
  destruct (App.pinterest_unit u config i w) as [r w'] eqn:E. cbn [fst snd].
  destruct (u_pin u) as [pin_id | e] eqn:Hpin.
  - destruct (unit_published _ _ _ _ _ _ _ _ _ _ _ _ _ Hreach Hpin Hs Hdraft E)
      as (-> & Hsess & Hmsg). rewrite <- published_spelled. auto.
  - destruct (unit_publish_failed _ _ _ _ _ _ _ _ _ _ _ _ _ Hreach Hpin Hs Hdraft E)
      as (-> & Hsess & Hmsg). auto.
Qed.

(** Three units, the render job of the second one refused. *)
Lemma loop_second_render_refused (units : nat -> UnitEnv) (w w' : World) (s : SessionState)
    (draft e t0 d0 p0 t1 d1 t2 d2 p2 : string) (h0 h1 h2 : list string) (v0 v2 : bytes)
    (r : outcome unit) :
  post_ratio config = 3%Z ->
  session w = Some s -> blog_post s = Some draft ->
  reaches_publish (units 0) t0 d0 h0 v0 -> u_pin (units 0) = HttpOk p0 ->
  reaches_render (units 1) t1 d1 h1 -> u_render (units 1) = RequestException e ->
  reaches_publish (units 2) t2 d2 h2 v2 -> u_pin (units 2) = HttpOk p2 ->
  App.generate_pinterest_content units config w = (r, w') ->
  r = Returned tt
  /\ session w' = Some (published (published s config 0 t0 d0 p0 v0) config 2 t2 d2 p2 v2)
  /\ messages w' = (messages w ++ [StError ("Error creating video render: " ++ e)])%list.
Proof.
  intros Hratio Hs Hdraft Hu0 Hp0 Hu1 Hr1 Hu2 Hp2 E.
  unfold App.generate_pinterest_content in E. rewrite Hratio in E.
  change (Z.to_nat 3) with 3 in E. cbn [for_range] in E.
  unfold bind at 1 in E.
  destruct (App.pinterest_unit (units 0) config 0 w) as [r0 w0] eqn:E0.
  destruct (unit_published _ _ _ _ _ _ _ _ _ _ _ _ _ Hu0 Hp0 Hs Hdraft E0)
    as (-> & Hs0 & Hm0).
  unfold bind at 1 in E.
  destruct (App.pinterest_unit (units 1) config 1 w0) as [r1 w1] eqn:E1.
  destruct (unit_render_refused _ _ _ _ _ _ _ _ _ _ _ _ Hu1 Hr1 Hs0 Hdraft E1)
    as (-> & Hs1 & Hm1).
  unfold bind at 1 in E.
  destruct (App.pinterest_unit (units 2) config 2 w1) as [r2 w2] eqn:E2.
  destruct (unit_published _ _ _ _ _ _ _ _ _ _ _ _ _ Hu2 Hp2 Hs1 Hdraft E2)
    as (-> & Hs2 & Hm2).
  cbn in E. injection E as <- <-.
  split; [reflexivity |]. split; [exact Hs2 |].
  rewrite Hm2, Hm1, Hm0. reflexivity.
Qed.

End Loop.

(** ** Whole runs of app.py *)

Section Runs.

Lemma good_unit_reaches_publish (pin : http string) :
  reaches_publish (good_unit pin) "Breathe" "Calm in five minutes" ["#calm"; "#mindful"] "mp4".
Proof.
  split.
  - exists demo_copy, "png", "PNG", "asset-1". repeat split.
  - exists "render-1", 0, "https://cdn.example/video.mp4".
    repeat split. intros k Hk. lia.
Qed.

Lemma render_refused_unit_reaches_render :
  reaches_render render_refused_unit "Breathe" "Calm in five minutes" ["#calm"; "#mindful"].
Proof. exists demo_copy, "png", "PNG", "asset-1". repeat split. Qed.

(** A successful publish and the manifest, on a sample unit. *)
Lemma publish_appends_or_discards_example :
  fst (App.pinterest_unit (good_unit (HttpOk "41")) demo_config 0
         (awaiting_approval "Mindfulness lowers stress.")) = Returned tt
  /\ session (snd (App.pinterest_unit (good_unit (HttpOk "41")) demo_config 0
                     (awaiting_approval "Mindfulness lowers stress.")))
     = Some {| step := step_approve_blog;
               blog_post := Some "Mindfulness lowers stress.";
               pin_data_list :=
                 [[("Title", "Breathe");
                   ("Media URL", "https://www.pinterest.com/pin/41/");
                   ("Pinterest board", "Mindfulness Tips");
                   ("Thumbnail", "");
                   ("Description", "Calm in five minutes");
                   ("Link", "https://payhip.com/b/tnVQN");
                   ("Publish date", "");
                   ("Keywords", "mindfulness bundle, stress relief")]];
               generated_files :=
                 <["pinterest_video_1.mp4" := Bytes "mp4"]>
                   {["blog_post.txt" := Text "Mindfulness lowers stress."]} |}
  /\ messages (snd (App.pinterest_unit (good_unit (HttpOk "41")) demo_config 0
                      (awaiting_approval "Mindfulness lowers stress."))) = [].
Proof.
  exact (publish_appends_or_discards demo_config (good_unit (HttpOk "41")) 0
           (awaiting_approval "Mindfulness lowers stress.") _
           "Mindfulness lowers stress." _ _ _ _
           (good_unit_reaches_publish (HttpOk "41")) eq_refl eq_refl).
Defined.

(** C3, on the code.  Three units are requested and the draft is approved;
    the polling of the render job of unit 2 loses its connection, units 1
    and 3 would go through.  [wait_for_video] sends its GET outside any
    [try]: the [RequestException] leaves [generate_pinterest_content] and
    [main].  Unit 1 is published, unit 3 is never started (two requests for
    a copy were sent, the last request is the GET of unit 2), and [step]
    stays "generate_images" instead of reaching "done". *)
Theorem polling_error_aborts_run :
  fst polling_error_run = Raised (RequestError "Connection aborted.")
  /\ option_map step (session (snd polling_error_run)) = Some step_generate_images
  /\ option_map pin_data_list (session (snd polling_error_run))
     = Some [manifest_record "Breathe" "https://www.pinterest.com/pin/41/"
               "Calm in five minutes" demo_config]
  /\ stored (snd polling_error_run) "pinterest_video_1.mp4" = Some (Bytes "mp4")
  /\ stored (snd polling_error_run) "pinterest_video_2.mp4" = None
  /\ stored (snd polling_error_run) "pinterest_video_3.mp4" = None
  /\ length (copy_requests (snd polling_error_run)) = 2
  /\ last (requests (snd polling_error_run)) = Some (GetRender "render-2")
  /\ messages (snd polling_error_run) = [].
Proof. repeat split; vm_compute; reflexivity. Qed.

End Runs.

(** ** The manifest is never shrunk *)

Section Manifest.

Lemma keeps_files_refl (a : option SessionState) : keeps_files a a.
Proof. destruct a as [s|]; simpl; eauto. Qed.

Lemma keeps_files_trans (a b c : option SessionState) :
  keeps_files a b -> keeps_files b c -> keeps_files a c.
Proof.
  destruct a as [s|]; simpl; [| auto].
  intros (s1 & -> & H1) (s2 & -> & H2). eauto.
Qed.

Lemma preserves_ret {A} (a : A) : preserves (ret a).
Proof. intros w. apply keeps_files_refl. Qed.

Lemma preserves_raise {A} (e : exn) : preserves (@raise A e).
Proof. intros w. apply keeps_files_refl. Qed.

Lemma preserves_bind {A B} (m : M A) (f : A -> M B) :
  preserves m -> (forall a, preserves (f a)) -> preserves (bind m f).
Proof.
  intros Hm Hf w. unfold bind. specialize (Hm w).
  destruct (m w) as [[a | e] w1]; simpl in *; [| exact Hm].
  eapply keeps_files_trans; [exact Hm | apply Hf].
Qed.

Lemma preserves_same {A} (m : M A) :
  (forall w, session (snd (m w)) = session w) -> preserves m.
Proof. intros H w. rewrite H. apply keeps_files_refl. Qed.

Lemma preserves_show (msg : message) : preserves (show msg).
Proof. apply preserves_same. reflexivity. Qed.

Lemma preserves_send (c : call) : preserves (send c).
Proof. apply preserves_same. reflexivity. Qed.

Lemma preserves_get_session : preserves get_session.
Proof.
  apply preserves_same. intros w. unfold get_session.
  destruct (session w) eqn:E; simpl; rewrite E; reflexivity.
Qed.

Lemma preserves_read_local {A} (x : option A) : preserves (read_local x).
Proof. destruct x; [apply preserves_ret | apply preserves_raise]. Qed.

(** Replacing the session by one with at least the same file names. *)
Lemma preserves_update (f : SessionState -> SessionState) :
  (forall s name, is_Some (generated_files s !! name) ->
                  is_Some (generated_files (f s) !! name)) ->
  preserves (do s <- get_session; put_session (f s)).
Proof.
  intros Hf w. unfold bind, get_session, put_session.
  destruct (session w) as [s|] eqn:Hs; simpl; [| exact I].
  exists (f s). auto.
Qed.

Lemma preserves_set_step (x : Step) : preserves (set_step x).
Proof. apply (preserves_update (fun s => _)). auto. Qed.

Lemma preserves_set_blog_post (b : option string) : preserves (set_blog_post b).
Proof. apply (preserves_update (fun s => _)). auto. Qed.

Lemma preserves_append_pin (r : pin_record) : preserves (append_pin r).
Proof. apply (preserves_update (fun s => _)). auto. Qed.

(** An assignment to [generated_files] adds or overwrites, never removes. *)
Lemma preserves_set_file (name : string) (v : payload) : preserves (set_file name v).
Proof.
  apply (preserves_update (fun s => _)). intros s other H. simpl.
  destruct (decide (name = other)) as [-> | Hne].
  - rewrite lookup_insert_eq. eauto.
  - rewrite lookup_insert_ne by exact Hne. exact H.
Qed.

Lemma preserves_init_session : preserves init_session.
Proof.
  intros w. unfold init_session. destruct (session w) as [s|] eqn:Hs; simpl.
  - rewrite Hs. simpl. eauto.
  - exact I.
Qed.

Lemma preserves_when (b : bool) (m : M unit) : preserves m -> preserves (when b m).
Proof. destruct b; [auto | intros _; apply preserves_ret]. Qed.

Lemma preserves_if_truthy (x : option string) (k : string -> M unit) :
  (forall v, preserves (k v)) -> preserves (App.if_truthy x k).
Proof.
  intros Hk. unfold App.if_truthy. destruct x as [v|]; [| apply preserves_ret].
  destruct (PyStr.truthy v); [apply Hk | apply preserves_ret].
Qed.

Lemma preserves_for_range (body : nat -> M unit) (n i : nat) :
  (forall j, preserves (body j)) -> preserves (for_range i n body).
Proof.
  intros Hbody. revert i. induction n as [|n IH]; intros i; simpl.
  - apply preserves_ret.
  - apply preserves_bind; [apply Hbody | intros _; apply IH].
Qed.

Lemma preserves_wait_for_video (polls : nat -> poll_event) (uid : string) (config : Config) :
  preserves (App.wait_for_video polls uid config).
Proof.
  apply preserves_same. intros w. rewrite wait_for_video_loop. apply wait_loop_session.
Qed.

Create HintDb manifest.

#[local] Hint Resolve preserves_ret preserves_raise preserves_show preserves_send
  preserves_get_session preserves_read_local preserves_set_step preserves_set_blog_post
  preserves_append_pin preserves_set_file preserves_init_session
  preserves_wait_for_video : manifest.

(** Walk through a fragment: binds, conditionals and the cases of answers. *)
Ltac walk :=
  repeat first
    [ solve [auto with manifest]
    | apply preserves_bind; [| intros ?]
    | apply preserves_when
    | apply preserves_if_truthy; intros ?
    | apply preserves_for_range; intros ?
    | match goal with
      | |- preserves (match ?x with _ => _ end) => destruct x
      end ].

Lemma preserves_fetch_articles (warning : string) (resp : http (list article))
    (config : Config) : preserves (fetch_articles_with warning resp config).
Proof. unfold fetch_articles_with. walk. Qed.

Lemma preserves_generate_content (resp : http string) (prompt model : string)
    (config : Config) (system_prompt : string) :
  preserves (generate_content resp prompt model config system_prompt).
Proof. unfold generate_content. walk. Qed.

Lemma preserves_generate_image (resp : http bytes) (platform : string)
    (prompt : option string) (model : string) (config : Config) :
  preserves (App.generate_image resp platform prompt model config).
Proof. unfold App.generate_image. walk. Qed.

Lemma preserves_upscale_image (resp : http bytes) (image : bytes) (scale : Z)
    (config : Config) : preserves (App.upscale_image resp image scale config).
Proof. unfold App.upscale_image. walk. Qed.

Lemma preserves_upload_image (resp : http string) (image : bytes) (config : Config) :
  preserves (App.upload_image_to_bannerbear resp image config).
Proof. unfold App.upload_image_to_bannerbear. walk. Qed.

Lemma preserves_create_video_rendering (resp : http string) (template : string)
    (modifications : list (string * string * string)) (config : Config) :
  preserves (App.create_video_rendering resp template modifications config).
Proof. unfold App.create_video_rendering. walk. Qed.

Lemma preserves_download_video (resp : http bytes) (url : string) :
  preserves (App.download_video resp url).
Proof. unfold App.download_video. walk. Qed.

Lemma preserves_upload_video (resp : http string) (video : bytes)
    (title description board : string) (config : Config) :
  preserves (App.upload_video_to_pinterest resp video title description board config).
Proof. unfold App.upload_video_to_pinterest. walk. Qed.

#[local] Hint Resolve preserves_fetch_articles preserves_generate_content
  preserves_generate_image preserves_upscale_image preserves_upload_image
  preserves_create_video_rendering preserves_download_video preserves_upload_video
  : manifest.

Lemma preserves_fact_check_content (resp : http string) (content : string)
    (config : Config) (references : list string) :
  preserves (App.fact_check_content resp content config references).
Proof. unfold App.fact_check_content. walk. Qed.

Lemma preserves_pinterest_unit (u : UnitEnv) (config : Config) (i : nat) :
  preserves (App.pinterest_unit u config i).
Proof. unfold App.pinterest_unit, App.after_label. walk. Qed.

Lemma preserves_generate_pinterest_content (units : nat -> UnitEnv) (config : Config) :
  preserves (App.generate_pinterest_content units config).
Proof.
  unfold App.generate_pinterest_content. apply preserves_for_range.
  intros j. apply preserves_pinterest_unit.
Qed.

#[local] Hint Resolve preserves_fact_check_content preserves_generate_pinterest_content
  : manifest.

Lemma preserves_start_block (env : Env) (config : Config) :
  preserves (App.start_block env config).
Proof.
  unfold App.start_block, App.fetch_articles, App.generate_blog_post.
  walk.
Qed.

Lemma preserves_approval_block (ui : Ui) (env : Env) (config : Config)
    (links : option (list string)) :
  preserves (App.approval_block ui env config links).
Proof. unfold App.approval_block, App.revise_blog_post. walk. Qed.

Lemma preserves_media_block (env : Env) (config : Config) :
  preserves (App.media_block env config).
Proof. unfold App.media_block. walk. Qed.

#[local] Hint Resolve preserves_start_block preserves_approval_block preserves_media_block
  : manifest.

Lemma preserves_main (ui : Ui) (env : Env) : preserves (App.main ui env).
Proof. unfold App.main. walk. Qed.

End Manifest.

Section ManifestClaims.




End ManifestClaims.

Section Defects.

(** A copy without one of the labels makes the body of the loop raise
    [IndexError]; nothing is added to the session. *)
Lemma unit_copy_unlabelled (u : UnitEnv) (config : Config) (i : nat) (w : World)
    (s : SessionState) (draft post : string) :
  session w = Some s -> blog_post s = Some draft ->
  u_copy u = HttpOk post -> copy_fields post = None ->
  fst (App.pinterest_unit u config i w) = Raised IndexError
  /\ session (snd (App.pinterest_unit u config i w)) = Some s.
Proof.
  intros Hs Hdraft Hcopy Hfields.
  destruct (App.pinterest_unit u config i w) as [r w'] eqn:E. cbn [fst snd].
  unfold App.pinterest_unit in E. rewrite Hcopy in E.
  unfold bind at 1 in E. unfold get_session at 1 in E. rewrite Hs, Hdraft in E.
  cbn -[PyStr.split PyStr.strip PyStr.split_ws App.first_line PyStr.take PyStr.join
        PyStr.of_nat String.append second] in E.
  unfold copy_fields in Hfields. unfold App.after_label in E.
  revert Hfields E.
  destruct (second (PyStr.split post "Title:")) as [x|];
    [destruct (second (PyStr.split post "Description:")) as [y|];
       [destruct (second (PyStr.split post "Hashtags:")) as [z|] | ] | ];
    intros Hfields E; try discriminate;
    cbn in E; injection E as <- <-; auto.
Qed.

(** C2, on the code.  Three units are requested and the model's copy for
    the first one has no labels: [main] raises [IndexError] out of
    [generate_pinterest_content]; the second and the third unit are never
    started (the only request sent is the first unit's), nothing is
    published, and [step] stays "generate_images" instead of reaching
    "done". *)
Theorem unlabelled_copy_aborts_run :
  copy_fields "Five ways to calm down #calm" = None
  /\ fst unlabelled_run = Raised IndexError
  /\ option_map step (session (snd unlabelled_run)) = Some step_generate_images
  /\ option_map pin_data_list (session (snd unlabelled_run)) = Some []
  /\ length (requests (snd unlabelled_run)) = 1
  /\ messages (snd unlabelled_run) = [].
Proof. repeat split; vm_compute; reflexivity. Qed.

(** C5, on the code.  gen.py stores a fresh draft and moves to the
    approval step without any verification request, although the
    fact-checker would have rejected the draft; app.py, on the same answers,
    keeps the draft out of the session and reports the verdict. *)
Theorem gen_exposes_unchecked_draft :
  fst gen_doubtful_run = Returned tt
  /\ option_map blog_post (session (snd gen_doubtful_run))
     = Some (Some "Mindfulness lowers stress.")
  /\ option_map step (session (snd gen_doubtful_run)) = Some step_approve_blog
  /\ stored (snd gen_doubtful_run) "blog_post.txt" = Some (Text "Mindfulness lowers stress.")
  /\ requests (snd gen_doubtful_run)
     = [GetArticles (fetch_url demo_config);
        PostChat "llama-3.3-70b" default_system_prompt draft_prompt]
  /\ verdict_of doubtful = (false, 10%Z, "unsupported claims")
  /\ option_map blog_post (session (snd app_doubtful_run)) = Some None
  /\ option_map step (session (snd app_doubtful_run)) = Some step_start
  /\ stored (snd app_doubtful_run) "blog_post.txt" = None
  /\ In (StWarning "Fact-check failed: 10% - unsupported claims")
        (messages (snd app_doubtful_run)).
Proof. repeat split; vm_compute; auto. Qed.

End Defects.

(** * Further properties of the scripts *)

(** ** The start of a run *)

Section Start.

(** Evaluate the run [E] as far as the known answers decide it, without
    opening the text primitives. *)
Ltac exec_in E :=
  repeat progress
    (cbv beta iota zeta delta
       [bind ret raise when show send elapse now get_session put_session set_step
        set_blog_post set_file append_pin init_session read_local generate_content
        App.if_truthy App.fact_check_content App.generate_blog_post App.revise_blog_post
        truthy_opt step_eqb andb orb negb] in E;
     cbn [fst snd session messages requests clock step blog_post pin_data_list
          generated_files] in E).

Lemma start_block_after_search (env : Env) (config : Config) (w : World) :
  readable (e_articles env) ->
  exists links w1,
    App.fetch_articles (e_articles env) config w = (Returned links, w1)
    /\ session w1 = session w
    /\ requests w1 = (requests w ++ [GetArticles (fetch_url config)])%list.
Proof. apply fetch_articles_returns. Qed.

(** X1.  The fact-check gate of app.py.  When the text service returns a
    non-empty draft, the start block sends three requests and no more
    (search, draft, verification: no second generation).  The draft is stored
    and the step moves to approval exactly when the verdict passes; otherwise
    the session is left as it was and the verdict is shown as a warning. *)
Theorem start_block_fact_check_gate (env : Env) (config : Config) (w : World)
    (s : SessionState) (draft : string) :
  session w = Some s ->
  mem "blog" (outputs config) || mem "pinterest" (outputs config) = true ->
  readable (e_articles env) ->
  e_draft env = HttpOk draft -> PyStr.truthy draft = true ->
  (exists links, fst (App.start_block env config w) = Returned links)
  /\ length (requests (snd (App.start_block env config w))) = length (requests w) + 3
  /\ match verdict_of (e_factcheck env) with
     | (true, _, _) =>
         session (snd (App.start_block env config w)) = Some (with_draft s draft)
     | (false, score, explanation) =>
         session (snd (App.start_block env config w)) = Some s
         /\ exists shown,
              messages (snd (App.start_block env config w))
              = (shown ++ [StWarning ("Fact-check failed: " ++ PyStr.of_Z score
                                      ++ "% - " ++ explanation)])%list
     end.
Proof.
  intros Hs Hout Hread Hdraft Htruthy.
  destruct (App.start_block env config w) as [r w'] eqn:E. cbn [fst snd].
  unfold App.start_block in E. unfold bind at 1 in E.
  destruct (start_block_after_search env config w Hread)
    as (links & w1 & -> & Hs1 & Hr1) in E.
  rewrite Hout, Hdraft in E. exec_in E. rewrite Htruthy in E. exec_in E.
  unfold verdict_of.
  destruct (e_factcheck env) as [answer | err]; exec_in E.
  - destruct (PyStr.truthy answer); exec_in E.
    + destruct (App.parse_fact_check answer) as [[[passed score] explanation] |]; exec_in E.
      * destruct passed; exec_in E; rewrite ?Hs1, ?Hs in E; exec_in E;
          injection E as <- <-; cbn [session messages requests];
          rewrite ?Hs1, ?Hr1, !length_app; cbn [length];
          (split; [eauto |]); (split; [lia |]); [reflexivity | eauto].
      * injection E as <- <-. cbn [session messages requests unparseable_verdict].
        rewrite Hs1, Hr1, !length_app. cbn [length]. split; [eauto |]. split; [lia | eauto].
    + injection E as <- <-. cbn [session messages requests failed_call_verdict].
      rewrite Hs1, Hr1, !length_app. cbn [length]. split; [eauto |]. split; [lia | eauto].
  - injection E as <- <-. cbn [session messages requests failed_call_verdict].
    rewrite Hs1, Hr1, !length_app. cbn [length]. split; [eauto |]. split; [lia | eauto].
Qed.

Lemma start_block_fact_check_gate_example :
  (exists links, fst (App.start_block doubtful_env demo_config sample_world) = Returned links)
  /\ length (requests (snd (App.start_block doubtful_env demo_config sample_world))) = 0 + 3
  /\ session (snd (App.start_block doubtful_env demo_config sample_world))
     = Some sample_session
  /\ exists shown,
       messages (snd (App.start_block doubtful_env demo_config sample_world))
       = (shown ++ [StWarning "Fact-check failed: 10% - unsupported claims"])%list.
Proof.
  exact (start_block_fact_check_gate doubtful_env demo_config sample_world sample_session
           sample_draft eq_refl eq_refl no_results_readable eq_refl eq_refl).
Defined.

(** X2.  When the draft request fails, or the draft comes back empty, the start
    block stops after two requests (search and draft): nothing is verified
    and the session is left as it was. *)
Theorem start_block_without_draft (env : Env) (config : Config) (w : World) :
  mem "blog" (outputs config) || mem "pinterest" (outputs config) = true ->
  readable (e_articles env) ->
  truthy_opt (content_of (e_draft env)) = false ->
  (exists links, fst (App.start_block env config w) = Returned links)
  /\ session (snd (App.start_block env config w)) = session w
  /\ exists prompt,
       requests (snd (App.start_block env config w))
       = (requests w ++ [GetArticles (fetch_url config);
                         PostChat (text_model config) default_system_prompt prompt])%list.
Proof.
  intros Hout Hread Hnone.
  destruct (App.start_block env config w) as [r w'] eqn:E. cbn [fst snd].
  unfold App.start_block in E. unfold bind at 1 in E.
  destruct (start_block_after_search env config w Hread)
    as (links & w1 & -> & Hs1 & Hr1) in E.
  rewrite Hout in E. exec_in E.
  destruct (e_draft env) as [draft | err]; cbn [content_of truthy_opt] in Hnone; exec_in E.
  - rewrite Hnone in E. exec_in E. injection E as <- <-. cbn [session requests].
    rewrite Hs1, Hr1, <- app_assoc. eauto.
  - injection E as <- <-. cbn [session requests].
    rewrite Hs1, Hr1, <- app_assoc. eauto.
Qed.

Lemma start_block_without_draft_example :
  (exists links, fst (App.start_block offline_env demo_config sample_world) = Returned links)
  /\ session (snd (App.start_block offline_env demo_config sample_world))
     = session sample_world
  /\ exists prompt,
       requests (snd (App.start_block offline_env demo_config sample_world))
       = (requests sample_world
          ++ [GetArticles (fetch_url demo_config);
              PostChat (text_model demo_config) default_system_prompt prompt])%list.
Proof.
  exact (start_block_without_draft offline_env demo_config sample_world eq_refl
           (failed_search_readable "timeout") eq_refl).
Defined.

(** X3.  When neither "blog" nor "pinterest" is among the outputs, the start
    block only searches for articles: one request, no draft, the session
    left as it was. *)
Theorem start_block_nothing_requested (env : Env) (config : Config) (w : World) :
  mem "blog" (outputs config) || mem "pinterest" (outputs config) = false ->
  (readable (e_articles env) ->
   exists links, fst (App.start_block env config w) = Returned links)
  /\ session (snd (App.start_block env config w)) = session w
  /\ requests (snd (App.start_block env config w))
     = (requests w ++ [GetArticles (fetch_url config)])%list.
Proof.
  intros Hout.
  destruct (App.start_block env config w) as [r w'] eqn:E. cbn [fst snd].
  unfold App.start_block in E. unfold bind at 1 in E.
  pose proof (fetch_articles_world no_articles_warning (e_articles env) config w)
    as [Hs1 Hr1].
  pose proof (fetch_articles_returns no_articles_warning (e_articles env) config w)
    as Hret.
  fold App.fetch_articles in Hs1, Hr1, Hret.
  destruct (App.fetch_articles (e_articles env) config w) as [[links | e] w1].
  - rewrite Hout in E. exec_in E. injection E as <- <-. cbn [snd] in Hs1, Hr1. eauto.
  - injection E as <- <-. cbn [snd] in Hs1, Hr1. repeat split; try assumption.
    intros Hread. destruct (Hret Hread) as (links & w2 & Heq & _). discriminate.
Qed.

Lemma start_block_nothing_requested_example :
  (exists links, fst (App.start_block accurate_env keyless_config sample_world)
                 = Returned links)
  /\ session (snd (App.start_block accurate_env keyless_config sample_world))
     = session sample_world
  /\ requests (snd (App.start_block accurate_env keyless_config sample_world))
     = (requests sample_world ++ [GetArticles (fetch_url keyless_config)])%list.
Proof.
  destruct (start_block_nothing_requested accurate_env keyless_config sample_world eq_refl)
    as (Hret & Hsession & Hrequests).
  exact (conj (Hret no_results_readable) (conj Hsession Hrequests)).
Defined.

End Start.

(** ** Validation and the approval buttons *)

Section Buttons.

Ltac exec_main E :=
  repeat progress
    (cbv beta iota zeta delta
       [bind ret raise when show send elapse now get_session put_session set_step
        set_blog_post set_file append_pin init_session read_local generate_content
        App.if_truthy App.revise_blog_post Gen.revise_blog_post
        App.approval_block Gen.approval_block
        truthy_opt step_eqb andb orb negb] in E;
     cbn [fst snd session messages requests clock step blog_post pin_data_list
          generated_files ui_config start_generation approve_blog reject_blog
          revise_blog feedback] in E).

Lemma empty_field_rejected (config : Config) :
  empty_field config -> required_fields_present config = false.
Proof.
  unfold empty_field, required_fields_present.
  intros [Hin | Hlen].
  - simpl in Hin.
    repeat (destruct Hin as [Hin | Hin];
            [rewrite Hin; cbn [PyStr.truthy PyStr.is_empty negb];
             repeat match goal with
                    | |- context [PyStr.truthy (?f config)] => destruct (PyStr.truthy (f config))
                    end;
             destruct (article_length config =? 0)%Z; reflexivity |]).
    destruct Hin.
  - rewrite Hlen. cbn [Z.eqb negb]. rewrite ?andb_false_r. reflexivity.
Qed.

(** X4.  Validation comes first.  When one of the ten required fields of the
    configuration is empty (or the article length is 0), a run of either
    script only reports "Missing required fields in config.": no request is
    sent and the session is neither initialised nor changed. *)
Theorem incomplete_config_stops_run (ui : Ui) (env : Env) (w : World) (config : Config) :
  ui_config ui = Some config -> empty_field config ->
  App.main ui env w = (Returned tt, with_error "Missing required fields in config." w)
  /\ Gen.main ui env w = (Returned tt, with_error "Missing required fields in config." w).
Proof.
  intros Hui Hempty. apply empty_field_rejected in Hempty.
  unfold App.main, Gen.main. rewrite Hui, Hempty. split; reflexivity.
Qed.

Lemma incomplete_config_stops_run_example :
  App.main (ui_of keyless_config true true false false "") accurate_env world0
  = (Returned tt, with_error "Missing required fields in config." world0)
  /\ Gen.main (ui_of keyless_config true true false false "") accurate_env world0
     = (Returned tt, with_error "Missing required fields in config." world0).
Proof.
  exact (incomplete_config_stops_run (ui_of keyless_config true true false false "")
           accurate_env world0 keyless_config eq_refl
           (or_introl (or_introl eq_refl))).
Defined.

(** X5.  "Revise Blog" pressed in a run in which "Start Generation" is not
    pressed (the two buttons are never pressed in the same rerun) reads the
    local variable [reference_links] before it is bound: both scripts raise
    [UnboundLocalError], send no revision request and leave the stored draft
    file as it was. *)
Theorem revise_alone_raises (ui : Ui) (env : Env) (w : World) (config : Config)
    (s : SessionState) :
  ui_config ui = Some config -> required_fields_present config = true ->
  start_generation ui = false -> revise_blog ui = true -> PyStr.truthy (feedback ui) = true ->
  session w = Some s -> step s = step_approve_blog -> truthy_opt (blog_post s) = true ->
  (fst (App.main ui env w) = Raised UnboundLocalError
   /\ requests (snd (App.main ui env w)) = requests w
   /\ stored (snd (App.main ui env w)) "blog_post.txt" = stored w "blog_post.txt")
  /\ (fst (Gen.main ui env w) = Raised UnboundLocalError
      /\ requests (snd (Gen.main ui env w)) = requests w
      /\ stored (snd (Gen.main ui env w)) "blog_post.txt" = stored w "blog_post.txt").
Proof.
  intros Hui Hvalid Hstart Hrevise Hfeedback Hs Hstep Hdraft.
  destruct w as [so ms rq ck]. cbn [session] in Hs. subst so.
  destruct s as [st bp pins files]. cbn [step blog_post] in Hstep, Hdraft. subst st.
  destruct bp as [draft |]; [| discriminate]. cbn [truthy_opt] in Hdraft.
  unfold stored. cbn [session requests generated_files].
  split.
  - destruct (App.main ui env _) as [r w'] eqn:E. cbn [fst snd].
    unfold App.main in E. rewrite Hui, Hvalid, Hstart in E. exec_main E.
    rewrite Hdraft in E. exec_main E. rewrite Hrevise, Hfeedback in E.
    destruct (approve_blog ui), (reject_blog ui); exec_main E;
      injection E as <- <-; repeat split.
  - destruct (Gen.main ui env _) as [r w'] eqn:E. cbn [fst snd].
    unfold Gen.main in E. rewrite Hui, Hvalid, Hstart in E. exec_main E.
    rewrite Hdraft in E. exec_main E. rewrite Hrevise, Hfeedback in E.
    destruct (approve_blog ui), (reject_blog ui); exec_main E;
      injection E as <- <-; repeat split.
Qed.

Lemma revise_alone_raises_example :
  (fst (App.main press_revise accurate_env sample_world) = Raised UnboundLocalError
   /\ requests (snd (App.main press_revise accurate_env sample_world))
      = requests sample_world
   /\ stored (snd (App.main press_revise accurate_env sample_world)) "blog_post.txt"
      = stored sample_world "blog_post.txt")
  /\ (fst (Gen.main press_revise accurate_env sample_world) = Raised UnboundLocalError
      /\ requests (snd (Gen.main press_revise accurate_env sample_world))
         = requests sample_world
      /\ stored (snd (Gen.main press_revise accurate_env sample_world)) "blog_post.txt"
         = stored sample_world "blog_post.txt").
Proof.
  exact (revise_alone_raises press_revise accurate_env sample_world demo_config
           sample_session eq_refl eq_refl eq_refl eq_refl eq_refl eq_refl eq_refl eq_refl).
Defined.

(** X6.  "Reject Blog" sends nothing and shows nothing: it sets the step back to
    "start" and clears the draft, while the rejected text stays in
    [generated_files] and the published records stay in [pin_data_list]. *)
Theorem reject_clears_draft_only (ui : Ui) (env : Env) (w : World) (config : Config)
    (s : SessionState) :
  ui_config ui = Some config -> required_fields_present config = true ->
  start_generation ui = false -> approve_blog ui = false -> reject_blog ui = true ->
  revise_blog ui = false ->
  session w = Some s -> step s = step_approve_blog -> truthy_opt (blog_post s) = true ->
  App.main ui env w
  = (Returned tt,
     {| session := Some (rejected s); messages := messages w;
        requests := requests w; clock := clock w |}).
Proof.
  intros Hui Hvalid Hstart Happrove Hreject Hrevise Hs Hstep Hdraft.
  destruct w as [so ms rq ck]. cbn [session] in Hs. subst so.
  destruct s as [st bp pins files]. cbn [step blog_post] in Hstep, Hdraft. subst st.
  destruct bp as [draft |]; [| discriminate]. cbn [truthy_opt] in Hdraft.
  destruct (App.main ui env _) as [r w'] eqn:E.
  unfold App.main in E. rewrite Hui, Hvalid, Hstart in E. exec_main E.
  rewrite Hdraft in E. exec_main E. rewrite Happrove, Hreject, Hrevise in E. exec_main E.
  injection E as <- <-. reflexivity.
Qed.

Lemma reject_clears_draft_only_example :
  App.main press_reject accurate_env sample_world
  = (Returned tt,
     {| session := Some (rejected sample_session); messages := messages sample_world;
        requests := requests sample_world; clock := clock sample_world |}).
Proof.
  exact (reject_clears_draft_only press_reject accurate_env sample_world demo_config
           sample_session eq_refl eq_refl eq_refl eq_refl eq_refl eq_refl eq_refl eq_refl
           eq_refl).
Defined.

(** X7.  A revision (with the references bound, that is in a run that also
    started the generation) sends exactly one request, to the text service
    and with the writer's role: the revised text is not fact-checked.  What
    comes back replaces the draft and the payload of "blog_post.txt", also
    when the request failed: then both become [None].  The run ends with a
    rerun. *)
Theorem revision_replaces_draft_unchecked (ui : Ui) (env : Env) (config : Config)
    (links : list string) (w : World) (s : SessionState) :
  approve_blog ui = false -> reject_blog ui = false ->
  revise_blog ui = true -> PyStr.truthy (feedback ui) = true ->
  session w = Some s ->
  fst (App.approval_block ui env config (Some links) w) = Raised RerunException
  /\ session (snd (App.approval_block ui env config (Some links) w))
     = Some (with_revision s (content_of (e_revision env)))
  /\ exists prompt,
       requests (snd (App.approval_block ui env config (Some links) w))
       = (requests w ++ [PostChat (text_model config) default_system_prompt prompt])%list.
Proof.
  intros Happrove Hreject Hrevise Hfeedback Hs.
  destruct w as [so ms rq ck]. cbn [session] in Hs. subst so.
  destruct (App.approval_block ui env config (Some links) _) as [r w'] eqn:E.
  cbn [fst snd]. unfold App.approval_block in E.
  rewrite Happrove, Hreject, Hrevise, Hfeedback in E. exec_main E.
  destruct (e_revision env) as [revised | err]; exec_main E;
    injection E as <- <-; cbn [session requests content_of]; eauto.
Qed.

Lemma revision_replaces_draft_unchecked_example :
  fst (App.approval_block press_revise offline_env demo_config (Some []) sample_world)
  = Raised RerunException
  /\ session (snd (App.approval_block press_revise offline_env demo_config (Some [])
                     sample_world))
     = Some (with_revision sample_session None)
  /\ exists prompt,
       requests (snd (App.approval_block press_revise offline_env demo_config (Some [])
                        sample_world))
       = (requests sample_world
          ++ [PostChat (text_model demo_config) default_system_prompt prompt])%list.
Proof.
  exact (revision_replaces_draft_unchecked press_revise offline_env demo_config []
           sample_world sample_session eq_refl eq_refl eq_refl eq_refl eq_refl).
Defined.

End Buttons.

(** ** How polling ends *)

Section PollingEnds.

Variable polls : nat -> poll_event.
Variable uid : string.

Lemma wait_loop_first_terminal (start_time : Z) (kind : round_kind) (n k : nat) (w : World) :
  (forall j, k <= j < k + n -> round_result (polls j) = RoundPending) ->
  round_result (polls (k + n)) = kind -> kind <> RoundPending ->
  (clock w - start_time + (round_start polls (k + n) - round_start polls k) < 600)%Z ->
  App.wait_loop polls uid start_time k w
  = (poll_outcome kind,
     {| session := session w;
        messages := messages w ++ poll_report kind;
        requests := requests w ++ repeat (GetRender uid) (S n);
        clock := (clock w + (round_start polls (k + n) - round_start polls k)
                  + Z.of_N (latency (polls (k + n))))%Z |}).
Proof.
  revert k w. induction n as [|n IH]; intros k w Hpending Hkind Hterminal Htime.
  - rewrite Nat.add_0_r in *.
    rewrite wait_loop_round by lia. rewrite Hkind.
    destruct kind; try contradiction; unfold after_poll, with_error; cbn;
      rewrite ?app_nil_r; repeat f_equal; lia.
  - pose proof (round_start_mono polls k (S n)) as Hmono.
    rewrite wait_loop_round by lia.
    rewrite (Hpending k) by lia.
    replace (k + S n) with (S k + n) in * by lia.
    rewrite (IH (S k)); cycle 1.
    + intros j Hj. apply Hpending. lia.
    + exact Hkind.
    + exact Hterminal.
    + change (round_start polls (S k))
        with (round_start polls k + Z.of_N (latency (polls k)) + 10
              + Z.of_N (oversleep (polls k)))%Z.
      cbn [clock after_sleep after_poll]. lia.
    + change (round_start polls (S k))
        with (round_start polls k + Z.of_N (latency (polls k)) + 10
              + Z.of_N (oversleep (polls k)))%Z.
      cbn [clock after_sleep after_poll session messages requests].
      f_equal. f_equal; [| lia].
      rewrite <- app_assoc. reflexivity.
Qed.

(** X8.  The first round that is not pending decides, when it starts before the
    timeout: a completed job yields its URL, a failed job yields [None] with
    "Video rendering failed." (not the timeout message), and a GET that
    raises leaves [wait_for_video] by its exception.  One GET is sent per
    round, the session is not touched, and the clock has advanced by the
    rounds before and the latency of the last GET. *)
Theorem wait_for_video_first_terminal (config : Config) (n : nat) (kind : round_kind)
    (w : World) :
  ends_at polls n kind -> kind <> RoundPending ->
  App.wait_for_video polls uid config w
  = (poll_outcome kind,
     {| session := session w;
        messages := messages w ++ poll_report kind;
        requests := requests w ++ repeat (GetRender uid) (S n);
        clock := (clock w + round_start polls n + Z.of_N (latency (polls n)))%Z |}).
Proof.
  intros (Hpending & Hkind & Htime) Hterminal. rewrite wait_for_video_loop.
  rewrite (wait_loop_first_terminal (clock w) kind n 0 w); cbn [Nat.add round_start].
  - f_equal. f_equal. lia.
  - intros j Hj. apply Hpending. lia.
  - exact Hkind.
  - exact Hterminal.
  - lia.
Qed.

(** However polling ends, it hands back a value or the error of a GET. *)
Lemma wait_for_video_outcomes (config : Config) (w : World) :
  (exists v, fst (App.wait_for_video polls uid config w) = Returned v)
  \/ (exists e j, fst (App.wait_for_video polls uid config w) = Raised (RequestError e)
                  /\ round_result (polls j) = RoundRaised e).
Proof.
  rewrite wait_for_video_loop.
  apply (wait_loop_rule polls uid (clock w)
           (fun k w res =>
              (exists v, fst res = Returned v)
              \/ (exists e j, fst res = Raised (RequestError e)
                              /\ round_result (polls j) = RoundRaised e)));
    cbn [fst]; eauto.
Qed.

End PollingEnds.

Lemma fails_on_second_poll_ends : ends_at fails_on_second_poll 1 RoundFailed.
Proof.
  split; [| split]; [| reflexivity | reflexivity].
  intros j Hj. assert (j = 0) as -> by lia. reflexivity.
Qed.

Lemma failed_is_terminal : RoundFailed <> RoundPending.
Proof. discriminate. Qed.

Lemma wait_for_video_first_terminal_example :
  App.wait_for_video fails_on_second_poll "render-1" demo_config world0
  = (poll_outcome RoundFailed,
     {| session := session world0;
        messages := messages world0 ++ poll_report RoundFailed;
        requests := requests world0 ++ repeat (GetRender "render-1") 2;
        clock := (clock world0 + round_start fails_on_second_poll 1
                  + Z.of_N (latency (fails_on_second_poll 1)))%Z |}).
Proof.
  exact (wait_for_video_first_terminal fails_on_second_poll "render-1" demo_config 1
           RoundFailed world0 fails_on_second_poll_ends failed_is_terminal).
Defined.

(** ** What a unit can and cannot do *)

Section UnitEdges.

Ltac exec_unit E :=
  repeat progress
    (cbv beta iota zeta delta
       [bind ret raise when show send elapse now get_session put_session set_step
        set_blog_post set_file append_pin generate_content
        App.if_truthy App.generate_image App.upscale_image App.upload_image_to_bannerbear
        App.create_video_rendering App.download_video App.upload_video_to_pinterest] in E;
     cbn [fst snd session messages requests clock step blog_post pin_data_list
          generated_files] in E).

(** X9.  When the request for the copy of a unit fails, [generate_content]
    returns [None] and the unit calls [split] on it: the body of the loop
    raises [AttributeError] after one request, having reported the failed
    request and changed nothing in the session. *)
Theorem unit_without_copy_raises (u : UnitEnv) (config : Config) (i : nat) (w : World)
    (s : SessionState) (draft e : string) :
  session w = Some s -> blog_post s = Some draft ->
  u_copy u = RequestException e ->
  fst (App.pinterest_unit u config i w) = Raised AttributeError
  /\ session (snd (App.pinterest_unit u config i w)) = Some s
  /\ messages (snd (App.pinterest_unit u config i w))
     = (messages w ++ [StError ("Error generating content: " ++ e)])%list
  /\ length (requests (snd (App.pinterest_unit u config i w))) = length (requests w) + 1.
Proof.
  intros Hs Hdraft Hcopy.
  destruct (App.pinterest_unit u config i w) as [r w'] eqn:E. cbn [fst snd].
  unfold App.pinterest_unit in E. rewrite Hcopy in E. exec_unit E.
  rewrite Hs in E. exec_unit E. rewrite Hdraft in E. exec_unit E.
  injection E as <- <-. cbn [session messages requests].
  rewrite length_app. cbn [length]. auto.
Qed.

(** X10.  Failures of the media stages are contained.  For a unit whose copy has
    the three labels, whatever the image, upscale, upload, render, polling,
    download and publish services answer, the body of the loop returns
    normally unless a GET of the polling loop raises, and the session is
    either left as it was or extended by the unit's record and video after
    a successful publish. *)
Theorem unit_failures_contained (u : UnitEnv) (config : Config) (i : nat) (w : World)
    (s : SessionState) (draft post title description : string) (hashtags : list string) :
  session w = Some s -> blog_post s = Some draft ->
  u_copy u = HttpOk post -> copy_fields post = Some (title, description, hashtags) ->
  (fst (App.pinterest_unit u config i w) = Returned tt
   \/ exists e j, fst (App.pinterest_unit u config i w) = Raised (RequestError e)
                  /\ round_result (u_polls u j) = RoundRaised e)
  /\ (session (snd (App.pinterest_unit u config i w)) = Some s
      \/ exists pin_id video,
           u_pin u = HttpOk pin_id /\ u_video u = HttpOk video
           /\ session (snd (App.pinterest_unit u config i w))
              = Some (published s config i title description pin_id video)).
Proof.
  intros Hs Hdraft Hcopy Hfields.
  destruct (copy_fields_inv _ _ _ _ Hfields) as (x & y & z & Ht & Hd & Hh & -> & -> & ->).
  destruct w as [so ms rq ck]. cbn [session] in Hs. subst so.
  destruct (App.pinterest_unit u config i _) as [r w'] eqn:E. cbn [fst snd].
  unfold App.pinterest_unit in E. rewrite Hcopy in E. exec_unit E.
  rewrite Hdraft in E. exec_unit E. rewrite Ht, Hd, Hh in E. exec_unit E.
  destruct (u_image u) as [image | e1]; exec_unit E;
    [destruct (PyStr.truthy image); exec_unit E |];
    try (injection E as <- <-; cbn [session]; auto; fail).
  destruct (u_upscale u) as [upscaled | e2]; exec_unit E;
    [destruct (PyStr.truthy upscaled); exec_unit E |];
    try (injection E as <- <-; cbn [session]; auto; fail).
  destruct (u_asset u) as [asset | e3]; exec_unit E;
    [destruct (PyStr.truthy asset); exec_unit E |];
    try (injection E as <- <-; cbn [session]; auto; fail).
  destruct (u_render u) as [job | e4]; exec_unit E;
    [destruct (PyStr.truthy job); exec_unit E |];
    try (injection E as <- <-; cbn [session]; auto; fail).
  match type of E with
  | context [App.wait_for_video ?polls ?job ?config ?W] =>
      pose proof (wait_for_video_outcomes polls job config W) as Hout;
      pose proof (wait_loop_session polls job (clock W) 0 W) as Hsess;
      rewrite <- wait_for_video_loop with (config := config) in Hsess;
      destruct (App.wait_for_video polls job config W) as [rv wv] eqn:Ev
  end.
  cbn [fst snd session] in Hout, Hsess.
  destruct Hout as [[v ->] | (e & j & -> & Hraised)]; exec_unit E.
  2: { injection E as <- <-. split; [right; eauto | left; exact Hsess]. }
  destruct v as [url |]; exec_unit E;
    [destruct (PyStr.truthy url); exec_unit E |];
    try (injection E as <- <-; cbn [session]; auto; fail).
  destruct (u_video u) as [video | e5]; exec_unit E;
    [destruct (PyStr.truthy video); exec_unit E |];
    try (injection E as <- <-; cbn [session]; auto; fail).
  destruct (u_pin u) as [pin_id | e6]; exec_unit E.
  - rewrite pin_url_truthy in E. exec_unit E. rewrite Hsess in E. exec_unit E.
    injection E as <- <-. split; [auto |]. right. exists pin_id, video. auto.
  - injection E as <- <-. cbn [session]. auto.
Qed.

(** X11.  With [post_ratio] zero or negative the loop of either script has no
    iteration: nothing is sent and nothing changes. *)
Theorem no_units_requested (units : nat -> UnitEnv) (config : Config) (w : World) :
  (post_ratio config <= 0)%Z ->
  App.generate_pinterest_content units config w = (Returned tt, w)
  /\ Gen.generate_pinterest_content config w = (Returned tt, w).
Proof.
  intros H. unfold App.generate_pinterest_content, Gen.generate_pinterest_content.
  replace (Z.to_nat (post_ratio config)) with 0 by lia. split; reflexivity.
Qed.

Lemma placeholder_loop (n i : nat) (w : World) (s : SessionState) :
  session w = Some s ->
  for_range i n (fun j => append_pin (placeholder_pin j)) w
  = (Returned tt,
     {| session := Some {| step := step s; blog_post := blog_post s;
                           pin_data_list :=
                             pin_data_list s ++ map placeholder_pin (seq i n);
                           generated_files := generated_files s |};
        messages := messages w; requests := requests w; clock := clock w |}).
Proof.
  revert i w s. induction n as [|n IH]; intros i w s Hs.
  - cbn [for_range seq map]. rewrite app_nil_r. unfold ret.
    destruct w as [so ms rq ck], s. cbn in *. subst so. reflexivity.
  - cbn [for_range]. unfold bind at 1. unfold append_pin at 1.
    unfold bind at 1, get_session at 1. rewrite Hs. unfold put_session at 1.
    erewrite (IH (S i)) by reflexivity.
    cbn [session messages requests clock step blog_post pin_data_list generated_files
         seq map].
    rewrite <- app_assoc. reflexivity.
Qed.

(** X12.  The loop of gen.py appends one placeholder record per requested post,
    "Pin 1", "Pin 2", ..., in this order, without sending any request or
    storing any file. *)
Theorem gen_appends_placeholders (config : Config) (w : World) (s : SessionState) :
  session w = Some s ->
  fst (Gen.generate_pinterest_content config w) = Returned tt
  /\ option_map pin_data_list (session (snd (Gen.generate_pinterest_content config w)))
     = Some (pin_data_list s
             ++ map placeholder_pin (seq 0 (Z.to_nat (post_ratio config))))%list
  /\ requests (snd (Gen.generate_pinterest_content config w)) = requests w
  /\ option_map generated_files (session (snd (Gen.generate_pinterest_content config w)))
     = Some (generated_files s).
Proof.
  intros Hs. unfold Gen.generate_pinterest_content.
  change (fun i => append_pin [("Title", "Pin " ++ PyStr.of_nat (i + 1));
                               ("Media URL", "example.com")])
    with (fun j => append_pin (placeholder_pin j)).
  rewrite (placeholder_loop _ 0 w s Hs). repeat split.
Qed.

End UnitEdges.

Lemma unit_without_copy_raises_example :
  fst (App.pinterest_unit silent_unit demo_config 0 sample_world) = Raised AttributeError
  /\ session (snd (App.pinterest_unit silent_unit demo_config 0 sample_world))
     = Some sample_session
  /\ messages (snd (App.pinterest_unit silent_unit demo_config 0 sample_world))
     = (messages sample_world ++ [StError ("Error generating content: " ++ "timeout")])%list
  /\ length (requests (snd (App.pinterest_unit silent_unit demo_config 0 sample_world)))
     = length (requests sample_world) + 1.
Proof.
  exact (unit_without_copy_raises silent_unit demo_config 0 sample_world sample_session
           sample_draft "timeout" eq_refl eq_refl eq_refl).
Defined.

Lemma unit_failures_contained_example :
  (fst (App.pinterest_unit render_refused_unit demo_config 1 sample_world) = Returned tt
   \/ exists e j,
        fst (App.pinterest_unit render_refused_unit demo_config 1 sample_world)
        = Raised (RequestError e)
        /\ round_result (u_polls render_refused_unit j) = RoundRaised e)
  /\ (session (snd (App.pinterest_unit render_refused_unit demo_config 1 sample_world))
      = Some sample_session
      \/ exists pin_id video,
           u_pin render_refused_unit = HttpOk pin_id
           /\ u_video render_refused_unit = HttpOk video
           /\ session (snd (App.pinterest_unit render_refused_unit demo_config 1
                              sample_world))
              = Some (published sample_session demo_config 1 "Breathe"
                        "Calm in five minutes" pin_id video)).
Proof.
  exact (unit_failures_contained render_refused_unit demo_config 1 sample_world
           sample_session sample_draft demo_copy "Breathe" "Calm in five minutes"
           ["#calm"; "#mindful"] eq_refl eq_refl eq_refl eq_refl).
Defined.

Lemma no_units_requested_example :
  App.generate_pinterest_content second_render_refused keyless_config sample_world
  = (Returned tt, sample_world)
  /\ Gen.generate_pinterest_content keyless_config sample_world = (Returned tt, sample_world).
Proof.
  exact (no_units_requested second_render_refused keyless_config sample_world
           (Z.le_refl 0)).
Defined.

Lemma gen_appends_placeholders_example :
  fst (Gen.generate_pinterest_content demo_config sample_world) = Returned tt
  /\ option_map pin_data_list
       (session (snd (Gen.generate_pinterest_content demo_config sample_world)))
     = Some (pin_data_list sample_session
             ++ map placeholder_pin (seq 0 (Z.to_nat (post_ratio demo_config))))%list
  /\ requests (snd (Gen.generate_pinterest_content demo_config sample_world))
     = requests sample_world
  /\ option_map generated_files
       (session (snd (Gen.generate_pinterest_content demo_config sample_world)))
     = Some (generated_files sample_session).
Proof.
  exact (gen_appends_placeholders demo_config sample_world sample_session eq_refl).
Defined.

(** ** Invariants of whole runs *)

Section Keeping.

Variable I : option SessionState -> Prop.
Variable R : call -> Prop.

Lemma keeps_same {A} (m : M A) :
  (forall w, session (snd (m w)) = session w /\ requests (snd (m w)) = requests w) ->
  keeps I R m.
Proof.
  intros H w HI. destruct (H w) as [-> ->]. split; [exact HI |].
  exists []. rewrite app_nil_r. auto.
Qed.

Lemma keeps_ret {A} (a : A) : keeps I R (ret a).
Proof. apply keeps_same. auto. Qed.

Lemma keeps_raise {A} (e : exn) : keeps I R (@raise A e).
Proof. apply keeps_same. auto. Qed.

Lemma keeps_show (msg : message) : keeps I R (show msg).
Proof. apply keeps_same. auto. Qed.

Lemma keeps_read_local {A} (x : option A) : keeps I R (read_local x).
Proof. destruct x; [apply keeps_ret | apply keeps_raise]. Qed.

Lemma keeps_send (c : call) : R c -> keeps I R (send c).
Proof. intros Hc w HI. split; [exact HI |]. exists [c]. auto. Qed.

Lemma keeps_bind {A B} (m : M A) (f : A -> M B) :
  keeps I R m -> (forall a, keeps I R (f a)) -> keeps I R (bind m f).
Proof.
  intros Hm Hf w HI. unfold bind. destruct (Hm w HI) as (HI1 & sent1 & Hreq1 & HR1).
  destruct (m w) as [[a | e] w1]; cbn [snd] in *.
  - destruct (Hf a w1 HI1) as (HI2 & sent2 & Hreq2 & HR2).
    split; [exact HI2 |]. exists (sent1 ++ sent2)%list.
    rewrite Hreq2, Hreq1, app_assoc. split; [reflexivity | apply Forall_app; auto].
  - eauto.
Qed.

(** What [get_session] hands on satisfies the invariant. *)
Lemma keeps_with_session {B} (f : SessionState -> M B) :
  (forall s, I (Some s) -> keeps I R (f s)) -> keeps I R (bind get_session f).
Proof.
  intros Hf w HI. unfold bind, get_session.
  destruct (session w) as [s |] eqn:Hs.
  - apply Hf; [exact HI | rewrite Hs; exact HI].
  - cbn [snd]. rewrite Hs. split; [exact HI |]. exists []. rewrite app_nil_r. auto.
Qed.

Lemma keeps_update (f : SessionState -> SessionState) :
  (forall s, I (Some s) -> I (Some (f s))) ->
  keeps I R (do s <- get_session; put_session (f s)).
Proof.
  intros Hf. apply keeps_with_session. intros s Hs w _.
  cbn [put_session snd session requests]. split; [auto |].
  exists []. rewrite app_nil_r. auto.
Qed.

Lemma keeps_init_session :
  (I None -> I (Some fresh_session)) -> keeps I R init_session.
Proof.
  intros Hfresh w HI. unfold init_session.
  destruct (session w) as [s |] eqn:Hs; cbn [snd put_session session requests].
  - rewrite Hs. split; [exact HI |]. exists []. rewrite app_nil_r. auto.
  - split; [auto |]. exists []. rewrite app_nil_r. auto.
Qed.

Lemma keeps_when (b : bool) (m : M unit) : keeps I R m -> keeps I R (when b m).
Proof. destruct b; [auto | intros _; apply keeps_ret]. Qed.

Lemma keeps_if_truthy (x : option string) (k : string -> M unit) :
  (forall v, keeps I R (k v)) -> keeps I R (App.if_truthy x k).
Proof.
  intros Hk. unfold App.if_truthy. destruct x as [v |]; [| apply keeps_ret].
  destruct (PyStr.truthy v); [apply Hk | apply keeps_ret].
Qed.

Lemma keeps_for_range (body : nat -> M unit) (n i : nat) :
  (forall j, keeps I R (body j)) -> keeps I R (for_range i n body).
Proof.
  intros Hbody. revert i. induction n as [|n IH]; intros i; cbn [for_range].
  - apply keeps_ret.
  - apply keeps_bind; [apply Hbody | intros _; apply IH].
Qed.

Lemma keeps_wait_for_video (polls : nat -> poll_event) (uid : string) (config : Config) :
  R (GetRender uid) -> keeps I R (App.wait_for_video polls uid config).
Proof.
  intros HR w HI. rewrite wait_for_video_loop, wait_loop_session. split; [exact HI |].
  destruct (wait_loop_requests polls uid (clock w) 0 w) as (n & Hreq & _).
  exists (repeat (GetRender uid) n). split; [exact Hreq |].
  apply List.Forall_forall. intros c Hc. apply repeat_spec in Hc. subst c. exact HR.
Qed.

End Keeping.

(** Walk through a fragment: binds, reads of the session, conditionals and
    the cases of answers; [solve_leaf] closes what is specific to an invariant. *)
Ltac keep_with solve_leaf :=
  repeat first
    [ apply keeps_ret | apply keeps_raise | apply keeps_show | apply keeps_read_local
    | apply keeps_send; exact Logic.I
    | solve [solve_leaf]
    | apply keeps_with_session; intros ? ?
    | apply keeps_bind; [| intros ?]
    | apply keeps_when
    | apply keeps_if_truthy; intros ?
    | apply keeps_for_range; intros ?
    | apply keeps_wait_for_video; exact Logic.I
    | match goal with
      | |- keeps _ _ (match ?x with _ => _ end) => destruct x
      end ].

Ltac open_wrappers :=
  unfold App.fetch_articles, fetch_articles_with, App.generate_blog_post,
    App.revise_blog_post, App.fact_check_content, generate_content, App.generate_image,
    App.upscale_image, App.upload_image_to_bannerbear, App.create_video_rendering,
    App.download_video, App.upload_video_to_pinterest, App.after_label.

Section Checkpoint.

Lemma quiet_session_update (f : SessionState -> SessionState) :
  (forall s, step s <> step_generate_images -> step (f s) <> step_generate_images) ->
  keeps not_generating text_call (do s <- get_session; put_session (f s)).
Proof. intros H. apply keeps_update. exact H. Qed.

Lemma quiet_init_session : keeps not_generating text_call init_session.
Proof. apply keeps_init_session. intros _. discriminate. Qed.

Ltac quiet_leaf :=
  first
    [ apply quiet_init_session
    | apply (quiet_session_update (fun s => _)); cbn [step]; intros; congruence ].

Lemma quiet_start_block (env : Env) (config : Config) :
  keeps not_generating text_call (App.start_block env config).
Proof.
  unfold App.start_block, set_step, set_blog_post, set_file. open_wrappers.
  keep_with quiet_leaf.
Qed.

Lemma quiet_approval_block (ui : Ui) (env : Env) (config : Config)
    (links : option (list string)) :
  approve_blog ui = false ->
  keeps not_generating text_call (App.approval_block ui env config links).
Proof.
  intros Happrove. unfold App.approval_block, set_step, set_blog_post, set_file.
  rewrite Happrove. open_wrappers. cbn [when].
  keep_with quiet_leaf.
Qed.

(** X13.  The approval checkpoint of app.py.  In a run in which "Approve Blog"
    is not pressed, started from a session that is not at the step
    "generate_images", the only requests sent go to the article search and
    to the text service: no image is generated, no render job is submitted
    and nothing is published; and the run does not end at "generate_images". *)
Theorem no_media_before_approval (ui : Ui) (env : Env) (w : World) :
  approve_blog ui = false -> not_generating (session w) ->
  not_generating (session (snd (App.main ui env w)))
  /\ exists sent,
       requests (snd (App.main ui env w)) = (requests w ++ sent)%list
       /\ Forall text_call sent.
Proof.
  intros Happrove. revert w.
  change (keeps not_generating text_call (App.main ui env)).
  unfold App.main.
  destruct (ui_config ui) as [config |]; [| apply keeps_show].
  destruct (negb (required_fields_present config)); [apply keeps_show |].
  apply keeps_bind; [apply quiet_init_session | intros _].
  apply keeps_bind.
  { destruct (start_generation ui); [| apply keeps_ret].
    apply keeps_bind; [apply quiet_start_block | intros links; apply keeps_ret]. }
  intros links. apply keeps_with_session. intros s Hs.
  apply keeps_bind; [apply keeps_when; apply quiet_approval_block; exact Happrove |].
  intros _. apply keeps_with_session. intros s1 Hs1.
  apply keeps_bind.
  { cbn in Hs1. destruct (step s1); try congruence; apply keeps_ret. }
  intros _. apply keeps_with_session. intros s2 Hs2.
  apply keeps_when. apply keeps_show.
Qed.

End Checkpoint.

Lemma sample_not_generating : not_generating (session sample_world).
Proof. cbn. discriminate. Qed.

Lemma no_media_before_approval_example :
  not_generating (session (snd (App.main press_start accurate_env sample_world)))
  /\ exists sent,
       requests (snd (App.main press_start accurate_env sample_world))
       = (requests sample_world ++ sent)%list
       /\ Forall text_call sent.
Proof.
  exact (no_media_before_approval press_start accurate_env sample_world
           eq_refl sample_not_generating).
Defined.

(** *** Invariants that every assignment of app.py respects *)

Lemma written_blog_post : written_name "blog_post.txt".
Proof. left. reflexivity. Qed.

Lemma written_blog_image : written_name "blog_image_upscaled.png".
Proof. right. left. reflexivity. Qed.

Lemma written_video (i : nat) : written_name (App.video_filename i).
Proof. right. right. exists i. reflexivity. Qed.

Create HintDb frame.

Ltac frame_walk :=
  repeat first
    [ solve [auto with frame]
    | apply keeps_bind; [| intros ?]
    | apply keeps_when
    | apply keeps_if_truthy; intros ?
    | apply keeps_for_range; intros ?
    | match goal with
      | |- keeps _ _ (match ?x with _ => _ end) => destruct x
      end ].

Section Frame.

Variable I : option SessionState -> Prop.

Hypothesis I_init : I None -> I (Some fresh_session).
Hypothesis I_step : forall s x,
  I (Some s) ->
  I (Some {| step := x; blog_post := blog_post s; pin_data_list := pin_data_list s;
             generated_files := generated_files s |}).
Hypothesis I_draft : forall s b,
  I (Some s) ->
  I (Some {| step := step s; blog_post := b; pin_data_list := pin_data_list s;
             generated_files := generated_files s |}).
Hypothesis I_pin : forall s r,
  I (Some s) ->
  I (Some {| step := step s; blog_post := blog_post s;
             pin_data_list := pin_data_list s ++ [r];
             generated_files := generated_files s |}).
Hypothesis I_file : forall s name v,
  written_name name -> I (Some s) ->
  I (Some {| step := step s; blog_post := blog_post s; pin_data_list := pin_data_list s;
             generated_files := <[name := v]> (generated_files s) |}).

Lemma frame_ret {A} (a : A) : keeps I any_call (ret a).
Proof. apply keeps_ret. Qed.

Lemma frame_raise {A} (e : exn) : keeps I any_call (@raise A e).
Proof. apply keeps_raise. Qed.

Lemma frame_show (msg : message) : keeps I any_call (show msg).
Proof. apply keeps_show. Qed.

Lemma frame_send (c : call) : keeps I any_call (send c).
Proof. apply keeps_send. exact Logic.I. Qed.

Lemma frame_read_local {A} (x : option A) : keeps I any_call (read_local x).
Proof. apply keeps_read_local. Qed.

Lemma frame_get_session : keeps I any_call get_session.
Proof.
  apply keeps_same. intros w. unfold get_session.
  destruct (session w) eqn:E; cbn [snd]; rewrite ?E; auto.
Qed.

Lemma frame_init_session : keeps I any_call init_session.
Proof. apply keeps_init_session. exact I_init. Qed.

Lemma frame_set_step (x : Step) : keeps I any_call (set_step x).
Proof. apply (keeps_update I any_call (fun s => _)). intros s. apply I_step. Qed.

Lemma frame_set_blog_post (b : option string) : keeps I any_call (set_blog_post b).
Proof. apply (keeps_update I any_call (fun s => _)). intros s. apply I_draft. Qed.

Lemma frame_append_pin (r : pin_record) : keeps I any_call (append_pin r).
Proof. apply (keeps_update I any_call (fun s => _)). intros s. apply I_pin. Qed.

Lemma frame_set_file (name : string) (v : payload) :
  written_name name -> keeps I any_call (set_file name v).
Proof.
  intros Hname. apply (keeps_update I any_call (fun s => _)). intros s. apply I_file.
  exact Hname.
Qed.

Lemma frame_wait_for_video (polls : nat -> poll_event) (uid : string) (config : Config) :
  keeps I any_call (App.wait_for_video polls uid config).
Proof. apply keeps_wait_for_video. exact Logic.I. Qed.

#[local] Hint Resolve frame_ret frame_raise frame_show frame_send frame_read_local
  frame_get_session frame_init_session frame_set_step frame_set_blog_post
  frame_append_pin frame_set_file frame_wait_for_video
  written_blog_post written_blog_image written_video : frame.

Lemma frame_fetch_articles (warning : string) (resp : http (list article))
    (config : Config) : keeps I any_call (fetch_articles_with warning resp config).
Proof. unfold fetch_articles_with. frame_walk. Qed.

Lemma frame_generate_content (resp : http string) (prompt model : string)
    (config : Config) (system_prompt : string) :
  keeps I any_call (generate_content resp prompt model config system_prompt).
Proof. unfold generate_content. frame_walk. Qed.

Lemma frame_generate_image (resp : http bytes) (platform : string)
    (prompt : option string) (model : string) (config : Config) :
  keeps I any_call (App.generate_image resp platform prompt model config).
Proof. unfold App.generate_image. frame_walk. Qed.

Lemma frame_upscale_image (resp : http bytes) (image : bytes) (scale : Z)
    (config : Config) : keeps I any_call (App.upscale_image resp image scale config).
Proof. unfold App.upscale_image. frame_walk. Qed.

Lemma frame_upload_image (resp : http string) (image : bytes) (config : Config) :
  keeps I any_call (App.upload_image_to_bannerbear resp image config).
Proof. unfold App.upload_image_to_bannerbear. frame_walk. Qed.

Lemma frame_create_video_rendering (resp : http string) (template : string)
    (modifications : list (string * string * string)) (config : Config) :
  keeps I any_call (App.create_video_rendering resp template modifications config).
Proof. unfold App.create_video_rendering. frame_walk. Qed.

Lemma frame_download_video (resp : http bytes) (url : string) :
  keeps I any_call (App.download_video resp url).
Proof. unfold App.download_video. frame_walk. Qed.

Lemma frame_upload_video (resp : http string) (video : bytes)
    (title description board : string) (config : Config) :
  keeps I any_call (App.upload_video_to_pinterest resp video title description board config).
Proof. unfold App.upload_video_to_pinterest. frame_walk. Qed.

Lemma frame_after_label (x label : string) : keeps I any_call (App.after_label x label).
Proof. unfold App.after_label. frame_walk. Qed.

#[local] Hint Resolve frame_fetch_articles frame_generate_content frame_generate_image
  frame_upscale_image frame_upload_image frame_create_video_rendering
  frame_download_video frame_upload_video frame_after_label : frame.

Lemma frame_fact_check_content (resp : http string) (content : string)
    (config : Config) (references : list string) :
  keeps I any_call (App.fact_check_content resp content config references).
Proof. unfold App.fact_check_content. frame_walk. Qed.

Lemma frame_pinterest_unit (u : UnitEnv) (config : Config) (i : nat) :
  keeps I any_call (App.pinterest_unit u config i).
Proof. unfold App.pinterest_unit. frame_walk. Qed.

Lemma frame_generate_pinterest_content (units : nat -> UnitEnv) (config : Config) :
  keeps I any_call (App.generate_pinterest_content units config).
Proof.
  unfold App.generate_pinterest_content. apply keeps_for_range.
  intros j. apply frame_pinterest_unit.
Qed.

#[local] Hint Resolve frame_fact_check_content frame_generate_pinterest_content : frame.

Lemma frame_start_block (env : Env) (config : Config) :
  keeps I any_call (App.start_block env config).
Proof.
  unfold App.start_block, App.fetch_articles, App.generate_blog_post. frame_walk.
Qed.

Lemma frame_approval_block (ui : Ui) (env : Env) (config : Config)
    (links : option (list string)) :
  keeps I any_call (App.approval_block ui env config links).
Proof. unfold App.approval_block, App.revise_blog_post. frame_walk. Qed.

Lemma frame_media_block (env : Env) (config : Config) :
  keeps I any_call (App.media_block env config).
Proof. unfold App.media_block. frame_walk. Qed.

#[local] Hint Resolve frame_start_block frame_approval_block frame_media_block : frame.

(** An invariant of the session that the initialisation and each kind of
    assignment respect holds after a run if it held before it. *)
Lemma frame_main (ui : Ui) (env : Env) : keeps I any_call (App.main ui env).
Proof. unfold App.main. frame_walk. Qed.

End Frame.

Section Downloads.

Lemma ends_with_app (a s suffix : string) :
  ends_with s suffix = true -> ends_with (a ++ s) suffix = true.
Proof.
  intros H. induction a as [|c a IH]; [exact H |].
  simpl. rewrite IH. apply orb_true_r.
Qed.

(** The three kinds of file names that app.py writes are recognised. *)
Lemma written_name_downloadable (name : string) :
  written_name name -> is_Some (download_mime name).
Proof.
  intros [-> | [-> | [i ->]]]; [vm_compute; eauto | vm_compute; eauto |].
  unfold download_mime, App.video_filename.
  rewrite (ends_with_app "pinterest_video_" _ ".mp4")
    by (apply ends_with_app; reflexivity).
  destruct (ends_with _ ".txt"); [eauto |]. destruct (ends_with _ ".png"); eauto.
Qed.

Lemma keeps_downloadable_main (ui : Ui) (env : Env) :
  keeps downloadable any_call (App.main ui env).
Proof.
  apply frame_main; cbn [downloadable generated_files fresh_session]; auto.
  - intros _ name. rewrite lookup_empty. intros [x Hx]. discriminate.
  - intros s name v Hname Hs other.
    destruct (decide (name = other)) as [<- | Hne].
    + intros _. apply written_name_downloadable. exact Hname.
    + rewrite lookup_insert_ne by exact Hne. apply Hs.
Qed.

End Downloads.

(** X14.  Every file that app.py stores can be downloaded.  When every name in
    [generated_files] ends in ".txt", ".png" or ".mp4" before a run, the
    same holds after it: the names the script writes ("blog_post.txt",
    "blog_image_upscaled.png" and "pinterest_video_N.mp4" for every N) all
    fall under a branch of the download block. *)
Theorem stored_files_downloadable (ui : Ui) (env : Env) (w : World) (s : SessionState) :
  session w = Some s ->
  (forall name, is_Some (generated_files s !! name) -> is_Some (download_mime name)) ->
  exists s',
    session (snd (App.main ui env w)) = Some s'
    /\ forall name, is_Some (generated_files s' !! name) -> is_Some (download_mime name).
Proof.
  intros Hs Hfiles.
  pose proof (preserves_main ui env w) as Hkeep. rewrite Hs in Hkeep.
  destruct Hkeep as (s' & Hs' & _).
  exists s'. split; [exact Hs' |].
  assert (H : downloadable (session w)) by (rewrite Hs; exact Hfiles).
  destruct (keeps_downloadable_main ui env w H) as [Hafter _].
  rewrite Hs' in Hafter. exact Hafter.
Qed.

Lemma keeps_records_main (pins : list pin_record) (ui : Ui) (env : Env) :
  keeps (extends_pins pins) any_call (App.main ui env).
Proof.
  apply frame_main.
  - intros (s & more & Heq & _). discriminate.
  - intros s x (s0 & more & Heq & Hpins). injection Heq as <-. eexists _, more. eauto.
  - intros s b (s0 & more & Heq & Hpins). injection Heq as <-. eexists _, more. eauto.
  - intros s r (s0 & more & Heq & Hpins). injection Heq as <-.
    eexists _, (more ++ [r])%list. split; [reflexivity |].
    cbn [pin_data_list]. rewrite Hpins, app_assoc. reflexivity.
  - intros s name v _ (s0 & more & Heq & Hpins). injection Heq as <-.
    eexists _, more. eauto.
Qed.

(** X15.  [pin_data_list] is append-only.  Whatever the buttons and the services
    do in a run of app.py, and whether the run returns or raises, the
    records stored before the run are still there after it, in the same
    order and at the front of the list. *)
Theorem published_records_kept (ui : Ui) (env : Env) (w : World) (s : SessionState) :
  session w = Some s ->
  exists s' more,
    session (snd (App.main ui env w)) = Some s'
    /\ pin_data_list s' = (pin_data_list s ++ more)%list.
Proof.
  intros Hs.
  assert (H : extends_pins (pin_data_list s) (session w)).
  { exists s, []. rewrite app_nil_r. auto. }
  destruct (keeps_records_main (pin_data_list s) ui env w H) as [Hafter _].
  exact Hafter.
Qed.

Lemma sample_files_downloadable (name : string) :
  is_Some (generated_files sample_session !! name) -> is_Some (download_mime name).
Proof.
  cbn [sample_session generated_files]. intros [v Hv].
  apply lookup_singleton_Some in Hv. destruct Hv as [<- _]. vm_compute. eauto.
Qed.

Lemma stored_files_downloadable_example :
  exists s',
    session (snd (App.main press_approve accurate_env sample_world)) = Some s'
    /\ forall name, is_Some (generated_files s' !! name) -> is_Some (download_mime name).
Proof.
  exact (stored_files_downloadable press_approve accurate_env sample_world sample_session
           eq_refl sample_files_downloadable).
Defined.

Lemma published_records_kept_example :
  exists s' more,
    session (snd (App.main press_approve accurate_env sample_world)) = Some s'
    /\ pin_data_list s' = (pin_data_list sample_session ++ more)%list.
Proof.
  exact (published_records_kept press_approve accurate_env sample_world sample_session
           eq_refl).
Defined.

(** ** The draft without references *)

Section Fallback.

Ltac exec_start E :=
  repeat progress
    (cbv beta iota zeta delta
       [bind ret raise when show send elapse now get_session put_session set_step
        set_blog_post set_file append_pin init_session read_local generate_content
        App.if_truthy App.fact_check_content App.generate_blog_post App.revise_blog_post
        truthy_opt step_eqb andb orb negb] in E;
     cbn [fst snd session messages requests clock step blog_post pin_data_list
          generated_files] in E).

Lemma contains_app_r (t x s : string) :
  PyStr.contains t s = true -> PyStr.contains t (x ++ s) = true.
Proof.
  intros H. induction x as [|c x IH]; [exact H |].
  simpl. rewrite IH. apply orb_true_r.
Qed.

Lemma filter_none (articles : list article) :
  (forall a, In a articles -> ~ passes_filter (a_title a) (a_description a)) ->
  List.filter passes articles = [].
Proof.
  induction articles as [|a articles IH]; intros Hnone; [reflexivity |].
  simpl. destruct (passes a) eqn:Hrel.
  - exfalso. apply (Hnone a); [left; reflexivity | apply passes_spec; exact Hrel].
  - apply IH. intros b Hb. apply Hnone. right. exact Hb.
Qed.

Lemma search_without_matches (env : Env) (config : Config) (w : World) :
  readable (e_articles env) ->
  (forall articles, e_articles env = HttpOk articles ->
     forall a, In a articles -> ~ passes_filter (a_title a) (a_description a)) ->
  exists w1,
    App.fetch_articles (e_articles env) config w = (Returned [], w1)
    /\ session w1 = session w
    /\ requests w1 = (requests w ++ [GetArticles (fetch_url config)])%list.
Proof.
  intros Hread Hnone. unfold App.fetch_articles.
  destruct (e_articles env) as [articles | err].
  - rewrite (fetch_articles_ok _ _ _ _ (Hread articles eq_refl)),
      (filter_none articles (Hnone articles eq_refl)).
    eauto.
  - eexists. split; [reflexivity |]. split; reflexivity.
Qed.

Ltac find_fallback :=
  repeat match goal with
         | |- PyStr.contains _ (?x ++ _) = true =>
             lazymatch x with
             | "References: " => fail
             | _ => apply contains_app_r
             end
         end;
  reflexivity.

Ltac fallback_sent Hr1 :=
  cbn [requests]; rewrite Hr1; (split; [reflexivity |]); eexists _, _;
  (split; [rewrite <- !app_assoc; reflexivity | find_fallback]).

(** X16.  The degraded mode.  When the search fails, or answers with articles
    whose titles and descriptions are strings and none of which passes the
    filter, the run is not stopped: the start block returns normally with no
    reference links, and the request for the draft, which follows the search
    request at once, carries a prompt that contains "References: Use general
    knowledge.". *)
Theorem draft_without_references (env : Env) (config : Config) (w : World)
    (s : SessionState) :
  session w = Some s ->
  mem "blog" (outputs config) || mem "pinterest" (outputs config) = true ->
  readable (e_articles env) ->
  (forall articles, e_articles env = HttpOk articles ->
     forall a, In a articles -> ~ passes_filter (a_title a) (a_description a)) ->
  fst (App.start_block env config w) = Returned []
  /\ exists prompt more,
       requests (snd (App.start_block env config w))
       = (requests w ++ [GetArticles (fetch_url config);
                         PostChat (text_model config) default_system_prompt prompt]
          ++ more)%list
       /\ PyStr.contains "References: Use general knowledge." prompt = true.
Proof.
  intros Hs Hout Hread Hnone.
  destruct (App.start_block env config w) as [r w'] eqn:E. cbn [fst snd].
  unfold App.start_block in E. unfold bind at 1 in E.
  destruct (search_without_matches env config w Hread Hnone)
    as (w1 & -> & Hs1 & Hr1) in E.
  rewrite Hs in Hs1.
  rewrite Hout in E. exec_start E. cbn [map App.references_clause] in E.
  destruct (e_draft env) as [draft | err]; exec_start E.
  - destruct (PyStr.truthy draft); exec_start E.
    + destruct (e_factcheck env) as [answer | err]; exec_start E.
      * destruct (PyStr.truthy answer); exec_start E.
        -- destruct (App.parse_fact_check answer) as [[[passed score] explanation] |];
             exec_start E.
           ++ destruct passed; exec_start E; rewrite ?Hs1 in E; exec_start E;
                injection E as <- <-; fallback_sent Hr1.
           ++ injection E as <- <-. fallback_sent Hr1.
        -- injection E as <- <-. fallback_sent Hr1.
      * injection E as <- <-. fallback_sent Hr1.
    + injection E as <- <-. fallback_sent Hr1.
  - injection E as <- <-. fallback_sent Hr1.
Qed.

End Fallback.

Lemma unrelated_search_readable : readable (e_articles unrelated_env).
Proof.
  intros articles H. injection H as <-.
  repeat constructor; eexists _, _; split; reflexivity.
Qed.

Lemma unrelated_search_has_no_match (articles : list article) :
  e_articles unrelated_env = HttpOk articles ->
  forall a, In a articles -> ~ passes_filter (a_title a) (a_description a).
Proof.
  intros H. injection H as <-. intros a [<- | []] Hpass.
  apply passes_spec in Hpass. vm_compute in Hpass. discriminate.
Qed.

Lemma draft_without_references_example :
  fst (App.start_block unrelated_env demo_config sample_world) = Returned []
  /\ exists prompt more,
       requests (snd (App.start_block unrelated_env demo_config sample_world))
       = (requests sample_world
          ++ [GetArticles (fetch_url demo_config);
              PostChat (text_model demo_config) default_system_prompt prompt]
          ++ more)%list
       /\ PyStr.contains "References: Use general knowledge." prompt = true.
Proof.
  exact (draft_without_references unrelated_env demo_config sample_world sample_session
           eq_refl eq_refl unrelated_search_readable unrelated_search_has_no_match).
Defined.

(** ** Answers in the requested format *)

Section Parsing.

Lemma digit_facts (c : ascii) :
  is_digit c = true ->
  Ascii.eqb " " c = false /\ Ascii.eqb "C" c = false /\ Ascii.eqb "-" c = false
  /\ PyStr.is_space c = false /\ Ascii.eqb c "_" = false
  /\ PyStr.digit_val c = Some (Z.of_nat (nat_of_ascii c) - 48)%Z.
Proof.
  destruct c as [[] [] [] [] [] [] [] []]; intros H; try discriminate H;
    repeat split; reflexivity.
Qed.

Lemma append_nil_r (s : string) : s ++ "" = s.
Proof.
  induction s as [|c s IH]; [reflexivity |].
  change (String c (s ++ "") = String c s). rewrite IH. reflexivity.
Qed.

Lemma split_go_absent (sep s : string) :
  PyStr.contains sep s = false -> PyStr.split_go sep s 0 = (s, []).
Proof.
  induction s as [|c s IH]; intros H; [reflexivity |].
  cbn [PyStr.contains] in H. apply orb_false_iff in H. destruct H as [Hstart Hrest].
  cbn [PyStr.split_go]. rewrite Hstart, (IH Hrest). reflexivity.
Qed.

Lemma split_go_digits (a : ascii) (sep x s : string) :
  (forall c, is_digit c = true -> Ascii.eqb a c = false) ->
  all_digits x = true ->
  PyStr.split_go (String a sep) (x ++ s) 0
  = let '(p, ps) := PyStr.split_go (String a sep) s 0 in (x ++ p, ps).
Proof.
  intros Ha. induction x as [|c x IH]; intros Hx.
  - change ("" ++ s) with s. destruct (PyStr.split_go _ s 0). reflexivity.
  - cbn [all_digits] in Hx. apply andb_true_iff in Hx. destruct Hx as [Hc Hx].
    change (String c x ++ s) with (String c (x ++ s)).
    cbn [PyStr.split_go PyStr.starts_with]. rewrite (Ha c Hc). cbn [andb].
    rewrite (IH Hx). destruct (PyStr.split_go _ s 0). reflexivity.
Qed.

Lemma words_go_digits (x s : string) :
  all_digits x = true ->
  PyStr.words_go (x ++ s) = let '(p, ps) := PyStr.words_go s in (x ++ p, ps).
Proof.
  induction x as [|c x IH]; intros Hx.
  - change ("" ++ s) with s. destruct (PyStr.words_go s). reflexivity.
  - cbn [all_digits] in Hx. apply andb_true_iff in Hx. destruct Hx as [Hc Hx].
    change (String c x ++ s) with (String c (x ++ s)).
    cbn [PyStr.words_go]. rewrite (IH Hx).
    destruct (digit_facts c Hc) as (_ & _ & _ & -> & _).
    destruct (PyStr.words_go s). reflexivity.
Qed.

Lemma rstrip_digits (x : string) : all_digits x = true -> PyStr.rstrip x = x.
Proof.
  induction x as [|c x IH]; intros Hx; [reflexivity |].
  cbn [all_digits] in Hx. apply andb_true_iff in Hx. destruct Hx as [Hc Hx].
  cbn [PyStr.rstrip]. rewrite (IH Hx).
  destruct (digit_facts c Hc) as (_ & _ & _ & -> & _). reflexivity.
Qed.

Lemma count_digits_all (x : string) :
  all_digits x = true -> PyStr.count_digits x = String.length x.
Proof.
  induction x as [|c x IH]; intros Hx; [reflexivity |].
  cbn [all_digits] in Hx. apply andb_true_iff in Hx. destruct Hx as [Hc Hx].
  cbn [PyStr.count_digits String.length].
  destruct (digit_facts c Hc) as (_ & _ & _ & _ & _ & ->). rewrite (IH Hx). reflexivity.
Qed.

Lemma int_digits_all (x : string) (acc : Z) :
  all_digits x = true -> PyStr.int_digits x acc true = Some (decimal_from acc x).
Proof.
  revert acc. induction x as [|c x IH]; intros acc Hx; [reflexivity |].
  cbn [all_digits] in Hx. apply andb_true_iff in Hx. destruct Hx as [Hc Hx].
  cbn [PyStr.int_digits decimal_from].
  destruct (digit_facts c Hc) as (_ & _ & _ & _ & -> & ->). apply IH. exact Hx.
Qed.

Lemma to_int_digits (x : string) :
  all_digits x = true -> x <> "" -> String.length x <= PyStr.max_str_digits ->
  PyStr.to_int x = Some (decimal_value x).
Proof.
  intros Hx Hne Hlen. destruct x as [|c x]; [contradiction |].
  pose proof Hx as Hall.
  cbn [all_digits] in Hx. apply andb_true_iff in Hx. destruct Hx as [Hc Hx].
  unfold PyStr.to_int, PyStr.strip.
  assert (Hl : PyStr.lstrip (String c x) = String c x).
  { cbn [PyStr.lstrip]. destruct (digit_facts c Hc) as (_ & _ & _ & -> & _). reflexivity. }
  rewrite Hl, (rstrip_digits _ Hall), (count_digits_all _ Hall).
  cbv zeta.
  replace (PyStr.max_str_digits <? String.length (String c x))%nat with false
    by (symmetry; apply Nat.ltb_ge; exact Hlen).
  unfold decimal_value. cbn [decimal_from].
  rewrite <- (int_digits_all x _ Hx).
  destruct c as [[] [] [] [] [] [] [] []]; try discriminate Hc; reflexivity.
Qed.

Lemma answer_shape (digits explanation : string) :
  "Confidence: " ++ digits ++ " - " ++ explanation
  = String "C" (String "o" (String "n" (String "f" (String "i" (String "d" (String "e"
      (String "n" (String "c" (String "e" (String ":" (String " "
         (digits ++ String " " (String "-" (String " " explanation))))))))))))))%char.
Proof. reflexivity. Qed.

Lemma digit_not_space (c : ascii) : is_digit c = true -> Ascii.eqb " " c = false.
Proof. intros H. apply digit_facts. exact H. Qed.

Lemma digit_not_C (c : ascii) : is_digit c = true -> Ascii.eqb "C" c = false.
Proof. intros H. apply digit_facts. exact H. Qed.

Lemma well_formed_answer_parsed (digits explanation : string) :
  all_digits digits = true -> digits <> "" ->
  String.length digits <= PyStr.max_str_digits ->
  PyStr.contains "Confidence:" explanation = false ->
  PyStr.contains " - " explanation = false ->
  App.parse_fact_check ("Confidence: " ++ digits ++ " - " ++ explanation)
  = Some ((60 <=? decimal_value digits)%Z, decimal_value digits, explanation).
Proof.
  intros Hdigits Hne Hlen Hmarker Hdash.
  assert (Hconf : second (PyStr.split ("Confidence: " ++ digits ++ " - " ++ explanation)
                            "Confidence:")
                  = Some (String " " (digits ++ String " " (String "-" (String " " explanation))))).
  { rewrite answer_shape. unfold PyStr.split. simpl PyStr.split_go.
    rewrite (split_go_digits "C" _ digits _ digit_not_C Hdigits).
    simpl PyStr.split_go. rewrite (split_go_absent _ _ Hmarker).
    reflexivity. }
  assert (Hexpl : second (PyStr.split ("Confidence: " ++ digits ++ " - " ++ explanation) " - ")
                  = Some explanation).
  { rewrite answer_shape. unfold PyStr.split.
    destruct digits as [|d ds]; [contradiction |].
    pose proof Hdigits as Hall. cbn [all_digits] in Hall.
    apply andb_true_iff in Hall. destruct Hall as [Hd _].
    destruct d as [[] [] [] [] [] [] [] []]; try discriminate Hd;
      match goal with
      | |- context [String ?d ds ++ ?rest] =>
          change (String d ds ++ rest) with (String d (ds ++ rest));
          simpl PyStr.split_go;
          change (String d (ds ++ rest)) with (String d ds ++ rest)
      end.
    all: cbn [all_digits is_digit PyStr.digit_val andb] in Hdigits.
    all: simpl in Hdigits.
    all: rewrite (split_go_digits " " _ ds _ digit_not_space Hdigits).
    all: simpl PyStr.split_go.
    all: rewrite (split_go_absent _ _ Hdash).
    all: reflexivity. }
  unfold App.parse_fact_check. rewrite Hconf, Hexpl.
  assert (Htoken : PyStr.split_ws (String " " (digits ++ String " " (String "-"
                                                 (String " " explanation))))
                   = digits :: PyStr.split_ws (String "-" (String " " explanation))).
  { unfold PyStr.split_ws. cbn [PyStr.words_go].
    rewrite (words_go_digits _ _ Hdigits). cbn [PyStr.words_go].
    destruct (PyStr.words_go explanation) as [p ps].
    change (PyStr.is_space " ") with true. change (PyStr.is_space "-") with false.
    cbv beta iota zeta. cbn [PyStr.is_empty]. rewrite append_nil_r.
    destruct digits as [|d ds]; [contradiction |]. reflexivity. }
  rewrite Htoken, (to_int_digits digits Hdigits Hne Hlen). reflexivity.
Qed.

(** X17.  Every answer in the requested format is read as intended.  For an
    answer "Confidence: N - text", with N a non-empty string of at most 4300
    decimal digits and a text that contains neither the marker "Confidence:"
    nor the delimiter " - ", [fact_check_content] returns the number that N
    denotes, the text, and whether the number is at least 60. *)
Theorem well_formed_answer_verdict (digits explanation content : string) (config : Config)
    (references : list string) (w : World) :
  all_digits digits = true -> digits <> "" ->
  String.length digits <= PyStr.max_str_digits ->
  PyStr.contains "Confidence:" explanation = false ->
  PyStr.contains " - " explanation = false ->
  fst (App.fact_check_content (HttpOk ("Confidence: " ++ digits ++ " - " ++ explanation))
         content config references w)
  = Returned ((60 <=? decimal_value digits)%Z, decimal_value digits, explanation).
Proof.
  intros Hdigits Hne Hlen Hmarker Hdash.
  rewrite fact_check_content_value.
  change (PyStr.truthy ("Confidence: " ++ digits ++ " - " ++ explanation)) with true.
  cbv iota.
  rewrite (well_formed_answer_parsed digits explanation Hdigits Hne Hlen Hmarker Hdash).
  reflexivity.
Qed.

End Parsing.

Lemma two_digits_nonempty : "42" <> "".
Proof. discriminate. Qed.

Lemma well_formed_answer_verdict_example :
  fst (App.fact_check_content (HttpOk ("Confidence: " ++ "42" ++ " - " ++ "two claims lack a source"))
         sample_draft demo_config [] world0)
  = Returned ((60 <=? decimal_value "42")%Z, decimal_value "42", "two claims lack a source").
Proof.
  exact (well_formed_answer_verdict "42" "two claims lack a source" sample_draft demo_config
           [] world0 eq_refl two_digits_nonempty
           (proj1 (Nat.leb_le 2 PyStr.max_str_digits) eq_refl) eq_refl eq_refl).
Defined.

(** * The blog image, and the start of a run in [gen.py] *)

Ltac exec_media E :=
  repeat progress
    (cbv beta iota zeta delta
       [bind ret raise when show send elapse now get_session put_session set_step
        set_blog_post set_file append_pin init_session read_local generate_content
        App.if_truthy App.generate_image App.upscale_image Gen.generate_blog_post
        truthy_opt step_eqb andb orb negb] in E;
     cbn [fst snd session messages requests clock step blog_post pin_data_list
          generated_files] in E).

(** X18.  In a run of [app.py] that asks for the blog only, the media step
    always ends normally in the step [done]: it asks the text service for an
    image description and then, whatever came back (also nothing), the image
    service for an 800 x 600 image of it, followed by at most one upscaling
    request.  The file [blog_image_upscaled.png] is written exactly when both
    the image and its upscaled version came back non-empty; nothing else of
    the session changes. *)
Theorem blog_image_branch (env : Env) (config : Config) (w : World) (s : SessionState) :
  mem "blog" (outputs config) = true -> mem "pinterest" (outputs config) = false ->
  session w = Some s ->
  fst (App.media_block env config w) = Returned tt
  /\ session (snd (App.media_block env config w))
     = Some (with_blog_image s (upscaled_blog_image env))
  /\ exists prompt more,
       requests (snd (App.media_block env config w))
       = (requests w
          ++ [PostChat (text_model config) "You are a creative visual designer." prompt;
              PostImage (image_model config) (content_of (e_blog_image_prompt env))
                800 600]
          ++ more)%list
       /\ length more <= 1.
Proof.
  intros Hblog Hpin Hs.
  destruct w as [so ms rq ck]. cbn [session] in Hs. subst so.
  destruct (App.media_block env config _) as [r w'] eqn:E. cbn [fst snd].
  unfold App.media_block in E. rewrite Hblog, Hpin in E. unfold upscaled_blog_image.
  change (image_width "blog") with 800%Z in E. change (image_height "blog") with 600%Z in E.
  exec_media E.
  destruct (e_blog_image_prompt env) as [prompt | e0]; exec_media E;
    (destruct (e_blog_image env) as [image | e1]; exec_media E;
     [destruct (PyStr.truthy image); exec_media E;
      [destruct (e_blog_upscale env) as [upscaled | e2]; exec_media E;
       [destruct (PyStr.truthy upscaled); exec_media E |] |] |]);
    injection E as <- <-; cbn [session requests content_of];
    (split; [reflexivity |]); (split; [reflexivity |]);
    eexists _, _; (split; [rewrite <- !app_assoc; reflexivity | cbn [length]; lia]).
Qed.

Lemma blog_image_branch_example :
  fst (App.media_block promptless_env blog_only_config sample_world) = Returned tt
  /\ session (snd (App.media_block promptless_env blog_only_config sample_world))
     = Some (with_blog_image sample_session (Some "PNG"))
  /\ exists prompt more,
       requests (snd (App.media_block promptless_env blog_only_config sample_world))
       = (requests sample_world
          ++ [PostChat (text_model blog_only_config)
                "You are a creative visual designer." prompt;
              PostImage (image_model blog_only_config) None 800 600]
          ++ more)%list
       /\ length more <= 1.
Proof.
  exact (blog_image_branch promptless_env blog_only_config sample_world sample_session
           eq_refl eq_refl eq_refl).
Defined.

(** X19.  In [gen.py], pressing Start in a blog-only run stores every
    non-empty draft at once: the draft becomes the blog post and the file
    [blog_post.txt], the step becomes [approve_blog], and the run has sent
    the article search and the drafting request and nothing else, so no
    verification request. *)
Theorem gen_start_stores_any_draft (env : Env) (config : Config) (w : World)
    (s : SessionState) (draft : string) :
  session w = Some s ->
  mem "blog" (outputs config) = true -> mem "pinterest" (outputs config) = false ->
  readable (e_articles env) ->
  e_draft env = HttpOk draft -> PyStr.truthy draft = true ->
  (exists links, fst (Gen.start_block env config w) = Returned links)
  /\ session (snd (Gen.start_block env config w)) = Some (with_draft s draft)
  /\ exists prompt,
       requests (snd (Gen.start_block env config w))
       = (requests w ++ [GetArticles (fetch_url config);
                         PostChat (text_model config) default_system_prompt prompt])%list.
Proof.
  intros Hs Hblog Hpin Hread Hdraft Htruthy.
  destruct (Gen.start_block env config w) as [r w'] eqn:E. cbn [fst snd].
  unfold Gen.start_block in E. unfold bind at 1 in E.
  destruct (fetch_articles_returns
              "No relevant articles found. Generating content without references."
              (e_articles env) config w Hread) as (links & w1 & Hsearch & Hs1 & Hr1).
  fold Gen.fetch_articles in Hsearch. rewrite Hsearch in E.
  rewrite Hblog, Hpin, Hdraft in E. exec_media E. rewrite Htruthy in E. exec_media E.
  rewrite Hs1, Hs in E. exec_media E.
  injection E as <- <-. cbn [session requests]. rewrite Hr1, <- app_assoc.
  split; [eauto |]. split; [reflexivity | eauto].
Qed.

Lemma gen_start_stores_any_draft_example :
  (exists links, fst (Gen.start_block offline_draft_env blog_only_config sample_world)
                 = Returned links)
  /\ session (snd (Gen.start_block offline_draft_env blog_only_config sample_world))
     = Some (with_draft sample_session "A new draft.")
  /\ exists prompt,
       requests (snd (Gen.start_block offline_draft_env blog_only_config sample_world))
       = (requests sample_world
          ++ [GetArticles (fetch_url blog_only_config);
              PostChat (text_model blog_only_config) default_system_prompt prompt])%list.
Proof.
  exact (gen_start_stores_any_draft offline_draft_env blog_only_config sample_world
           sample_session "A new draft." eq_refl eq_refl eq_refl
           (failed_search_readable "timeout") eq_refl eq_refl).
Defined.

(** * The scenario of the three units *)

(** The media block once its blog image is dealt with: what is left is the
    loop over the units and the last step; of the session only the entry of
    the blog image may have changed. *)
Lemma media_block_after_blog (env : Env) (config : Config) (w : World) (s : SessionState) :
  session w = Some s ->
  exists w1 s1,
    App.media_block env config w
    = bind get_session
        (fun s => bind (when (mem "pinterest" (outputs config) && truthy_opt (blog_post s))
                          (App.generate_pinterest_content (e_units env) config))
                    (fun _ => set_step step_done)) w1
    /\ session w1 = Some s1
    /\ step s1 = step s /\ blog_post s1 = blog_post s /\ pin_data_list s1 = pin_data_list s
    /\ (forall name, name <> "blog_image_upscaled.png" ->
          generated_files s1 !! name = generated_files s !! name)
    /\ (mem "blog" (outputs config) = false -> s1 = s).
Proof.
  intros Hs. destruct w as [so ms rq ck]. cbn [session] in Hs. subst so.
  unfold App.media_block. unfold bind at 1.
  destruct (mem "blog" (outputs config)).
  2: { unfold when at 1, ret at 1. eexists _, s. split; [reflexivity |].
       cbn [session]. repeat split; auto. }
  unfold when at 1.
  match goal with
  | |- context [let (_, _) := ?m ?W in _] => destruct (m W) as [r w1] eqn:E
  end.
  change (image_width "blog") with 800%Z in E. change (image_height "blog") with 600%Z in E.
  exec_media E.
  destruct (e_blog_image_prompt env) as [prompt | e0]; exec_media E;
    (destruct (e_blog_image env) as [image | e1]; exec_media E;
     [destruct (PyStr.truthy image); exec_media E;
      [destruct (e_blog_upscale env) as [upscaled | e2]; exec_media E;
       [destruct (PyStr.truthy upscaled); exec_media E |] |] |]);
    injection E as <- <-;
    eexists _, _; (split; [reflexivity |]); cbn [session];
    (split; [reflexivity |]); cbn [step blog_post pin_data_list generated_files];
    repeat split; try discriminate;
    intros name Hname; try reflexivity; apply lookup_insert_ne; congruence.
Qed.

(** X21.  Three units are requested and the draft is approved; unit 2 has
    its render job refused while units 1 and 3 go through to a successful
    publish.  Then the run returns normally with [step] equal to "done",
    [pin_data_list] has grown by exactly the records of units 1 and 3, in
    this order, the videos of units 1 and 3 are stored, and nothing is
    stored under the file name of unit 2; in a run without the blog image
    the two videos are all that is added to [generated_files]. *)
Theorem second_of_three_units_fails (config : Config) (env : Env) (w : World)
    (s : SessionState) (text draft e t0 d0 p0 t1 d1 t2 d2 p2 : string)
    (h0 h1 h2 : list string) (v0 v2 : bytes) :
  required_fields_present config = true ->
  mem "pinterest" (outputs config) = true ->
  post_ratio config = 3%Z ->
  session w = Some s -> step s = step_approve_blog ->
  blog_post s = Some draft -> PyStr.truthy draft = true ->
  reaches_publish (e_units env 0) t0 d0 h0 v0 -> u_pin (e_units env 0) = HttpOk p0 ->
  reaches_render (e_units env 1) t1 d1 h1 -> u_render (e_units env 1) = RequestException e ->
  reaches_publish (e_units env 2) t2 d2 h2 v2 -> u_pin (e_units env 2) = HttpOk p2 ->
  fst (App.main (ui_of config false true false false text) env w) = Returned tt
  /\ exists s',
       session (snd (App.main (ui_of config false true false false text) env w)) = Some s'
       /\ step s' = step_done
       /\ pin_data_list s'
          = (pin_data_list s
             ++ [manifest_record t0 ("https://www.pinterest.com/pin/" ++ p0 ++ "/") d0 config;
                 manifest_record t2 ("https://www.pinterest.com/pin/" ++ p2 ++ "/") d2
                   config])%list
       /\ generated_files s' !! "pinterest_video_1.mp4" = Some (Bytes v0)
       /\ generated_files s' !! "pinterest_video_3.mp4" = Some (Bytes v2)
       /\ generated_files s' !! "pinterest_video_2.mp4"
          = generated_files s !! "pinterest_video_2.mp4"
       /\ (mem "blog" (outputs config) = false ->
           generated_files s'
           = <["pinterest_video_3.mp4" := Bytes v2]>
               (<["pinterest_video_1.mp4" := Bytes v0]> (generated_files s))).
Proof.
  intros Hvalid Hpin Hratio Hs Hstep Hdraft Htruthy Hu0 Hp0 Hu1 Hr1 Hu2 Hp2.
  destruct (App.main (ui_of config false true false false text) env w) as [r w'] eqn:E.
  cbn [fst snd].
  unfold App.main in E. cbn [ui_config ui_of start_generation] in E.
  rewrite Hvalid in E. cbn [negb] in E.
  unfold bind at 1 in E. unfold init_session at 1 in E. rewrite Hs in E.
  unfold bind at 1 in E. unfold ret at 1 in E.
  unfold bind at 1 in E. unfold get_session at 1 in E. rewrite Hs in E.
  rewrite Hstep, Hdraft in E. cbn [step_eqb truthy_opt andb] in E. rewrite Htruthy in E.
  unfold App.approval_block in E.
  cbn [when approve_blog reject_blog revise_blog ui_of andb] in E.
  unfold set_step at 1 in E.
  unfold bind at 1 in E. unfold bind at 1 in E. unfold bind at 1 in E.
  unfold get_session at 1 in E. rewrite Hs in E.
  unfold put_session at 1 in E.
  unfold bind at 1 in E. unfold ret at 1 in E.
  unfold ret at 1 in E.
  unfold bind at 1 in E. unfold get_session at 1 in E. cbn [session step step_eqb when] in E.
  unfold bind at 1 in E.
  match type of E with
  | context [App.media_block env config ?W] =>
      destruct (media_block_after_blog env config W _ eq_refl)
        as (w1 & s1 & Hmedia & Hs1 & Hstep1 & Hdraft1 & Hpins1 & Hfiles1 & Hsame);
      rewrite Hmedia in E
  end.
  cbn [step blog_post pin_data_list generated_files] in Hstep1, Hdraft1, Hpins1, Hfiles1.
  unfold bind at 1 in E. unfold get_session at 1 in E. rewrite Hs1 in E.
  rewrite Hpin, Hdraft1, Hdraft in E. cbn [truthy_opt andb] in E. rewrite Htruthy in E.
  cbn [when] in E. unfold bind at 1 in E.
  match type of E with
  | context [App.generate_pinterest_content ?units ?c ?W] =>
      destruct (App.generate_pinterest_content units c W) as [rl wl] eqn:El;
      destruct (loop_second_render_refused c units W wl s1 draft e t0 d0 p0 t1 d1 t2 d2 p2
                  h0 h1 h2 v0 v2 rl Hratio Hs1 (eq_trans Hdraft1 Hdraft)
                  Hu0 Hp0 Hu1 Hr1 Hu2 Hp2 El)
        as (-> & Hsl & Hml)
  end.
  unfold set_step, bind, get_session, put_session in E. rewrite Hsl in E.
  cbn in E. injection E as <- <-.
  split; [reflexivity |].
  eexists. split; [reflexivity |]. cbn.
  split; [reflexivity |].
  split; [rewrite Hpins1, <- app_assoc; reflexivity |].
  split; [rewrite lookup_insert_ne by discriminate; apply lookup_insert_eq |].
  split; [apply lookup_insert_eq |].
  split; [rewrite !lookup_insert_ne by discriminate; apply Hfiles1; discriminate |].
  intros Hblog. rewrite (Hsame Hblog). reflexivity.
Qed.

(** The scenario, run on sample answers of the services, with the blog
    image requested as well. *)
Lemma second_of_three_units_fails_example :
  fst (App.main (ui_of full_config false true false false "")
         (demo_env accurate second_render_refused)
         (awaiting_approval "Mindfulness lowers stress.")) = Returned tt
  /\ exists s',
       session (snd (App.main (ui_of full_config false true false false "")
                       (demo_env accurate second_render_refused)
                       (awaiting_approval "Mindfulness lowers stress."))) = Some s'
       /\ step s' = step_done
       /\ pin_data_list s'
          = [manifest_record "Breathe" "https://www.pinterest.com/pin/41/"
               "Calm in five minutes" full_config;
             manifest_record "Breathe" "https://www.pinterest.com/pin/43/"
               "Calm in five minutes" full_config]
       /\ generated_files s' !! "pinterest_video_1.mp4" = Some (Bytes "mp4")
       /\ generated_files s' !! "pinterest_video_3.mp4" = Some (Bytes "mp4")
       /\ generated_files s' !! "pinterest_video_2.mp4" = None.
Proof.
  destruct (second_of_three_units_fails full_config
              (demo_env accurate second_render_refused)
              (awaiting_approval "Mindfulness lowers stress.") _ ""
              "Mindfulness lowers stress." "500 Server Error"
              _ _ "41" _ _ _ _ "43" _ _ _ _ _
              eq_refl eq_refl eq_refl eq_refl eq_refl eq_refl eq_refl
              (good_unit_reaches_publish (HttpOk "41")) eq_refl
              render_refused_unit_reaches_render eq_refl
              (good_unit_reaches_publish (HttpOk "43")) eq_refl)
    as (Hret & s' & Hs' & Hstep & Hpins & Hv1 & Hv3 & Hv2 & _).
  exact (conj Hret
           (ex_intro _ s' (conj Hs' (conj Hstep (conj Hpins (conj Hv1 (conj Hv3 Hv2))))))).
Defined.
